(** * ETF portfolio tracker: accounting and rule-evaluation engine

    A shallow embedding of the calculation module ([src/lib/calculations.ts]),
    the client store ([src/store/index.ts]), the SQLite repository
    ([src/lib/db.ts]) and the holdings / trades request handlers, together
    with the properties the specification states about them.

    JavaScript numbers are modelled as exact rationals extended with the two
    infinities and NaN, so that division by zero, [Math.max], the comparison
    operators and truthiness behave as they do in the source.  Rounding,
    overflow to infinity and the sign of zero are not modelled.

    Since the source computes in double precision, numeric properties are
    stated in forms that rounding preserves: as the expression the code
    evaluates (same operators, same order), as the sign or the order of a
    result, or as an exact value for whole amounts of at most 2^53, which
    doubles add and multiply without rounding.  Quantities are whole
    numbers in the application (an INTEGER column), and their totals are
    stated exactly. *)

From Stdlib Require Import QArith Qabs Qround Lqa Lia ZArith List Ascii String
  Sorting.Sorted
  Sorting.Permutation.
From stdpp Require Import gmap strings list fin_maps.

Local Open Scope Q_scope.

(** ** JavaScript numbers *)

Module Js.

Inductive num : Type :=
| Fin (q : Q)
| PInf
| NInf
| NaN.

Definition ofZ (z : Z) : num := Fin (inject_Z z).

(** Equality of values: rational equality on finite numbers. *)
Definition eqv (a b : num) : Prop :=
  match a, b with
  | Fin x, Fin y => x == y
  | PInf, PInf | NInf, NInf | NaN, NaN => True
  | _, _ => False
  end.

Definition Qeqb (x y : Q) : bool := Qeq_bool x y.
Definition Qltb (x y : Q) : bool := negb (Qle_bool y x).
Definition Qleb (x y : Q) : bool := Qle_bool x y.

(** Sign of a finite number: used by multiplication and division with an
    infinite operand. *)
Definition Qsgn (x : Q) : Z := Z.sgn (Qnum x).

Definition neg (a : num) : num :=
  match a with
  | Fin x => Fin (- x)
  | PInf => NInf
  | NInf => PInf
  | NaN => NaN
  end.

Definition add (a b : num) : num :=
  match a, b with
  | NaN, _ | _, NaN => NaN
  | Fin x, Fin y => Fin (x + y)
  | PInf, NInf | NInf, PInf => NaN
  | PInf, _ | _, PInf => PInf
  | NInf, _ | _, NInf => NInf
  end.

Definition sub (a b : num) : num := add a (neg b).

(** An infinity scaled by the sign [s] of the other operand. *)
Definition scale_inf (pos : bool) (s : Z) : num :=
  match s with
  | Z0 => NaN
  | Zpos _ => if pos then PInf else NInf
  | Zneg _ => if pos then NInf else PInf
  end.

Definition mul (a b : num) : num :=
  match a, b with
  | NaN, _ | _, NaN => NaN
  | Fin x, Fin y => Fin (x * y)
  | Fin x, PInf | PInf, Fin x => scale_inf true (Qsgn x)
  | Fin x, NInf | NInf, Fin x => scale_inf false (Qsgn x)
  | PInf, PInf | NInf, NInf => PInf
  | PInf, NInf | NInf, PInf => NaN
  end.

(** [a / b]: a finite number divided by zero is an infinity (NaN for 0/0),
    never an exception. *)
Definition div (a b : num) : num :=
  match a, b with
  | NaN, _ | _, NaN => NaN
  | Fin x, Fin y =>
      if Qeqb y 0 then scale_inf true (Qsgn x) else Fin (x / y)
  | Fin _, PInf | Fin _, NInf => Fin 0
  | PInf, Fin y => if Qltb y 0 then NInf else PInf
  | NInf, Fin y => if Qltb y 0 then PInf else NInf
  | _, _ => NaN
  end.

(** [Math.abs]. *)
Definition abs (a : num) : num :=
  match a with
  | Fin x => Fin (Qabs x)
  | PInf | NInf => PInf
  | NaN => NaN
  end.

(** The relational operators; every comparison with NaN is false. *)
Definition ltb (a b : num) : bool :=
  match a, b with
  | NaN, _ | _, NaN => false
  | Fin x, Fin y => Qltb x y
  | NInf, NInf | PInf, _ | _, NInf => false
  | NInf, _ | _, PInf => true
  end.

Definition leb (a b : num) : bool :=
  match a, b with
  | NaN, _ | _, NaN => false
  | Fin x, Fin y => Qleb x y
  | NInf, _ | _, PInf => true
  | PInf, _ | _, NInf => false
  end.

Definition gtb (a b : num) : bool := ltb b a.
Definition geb (a b : num) : bool := leb b a.

(** Strict equality [===] on numbers. *)
Definition eqb (a b : num) : bool :=
  match a, b with
  | Fin x, Fin y => Qeqb x y
  | PInf, PInf | NInf, NInf => true
  | _, _ => false
  end.

(** [Math.max] of two numbers: NaN when either is NaN. *)
Definition max (a b : num) : num :=
  match a, b with
  | NaN, _ | _, NaN => NaN
  | _, _ => if ltb a b then b else a
  end.

(** Truthiness of a number: [0] and [NaN] are falsy. *)
Definition truthy (a : num) : bool :=
  match a with
  | Fin x => negb (Qeqb x 0)
  | PInf | NInf => true
  | NaN => false
  end.

(** [a || b] on numbers. *)
Definition or_else (a b : num) : num := if truthy a then a else b.

Definition is_finite (a : num) : bool :=
  match a with Fin _ => true | _ => false end.

End Js.

Declare Scope js_scope.
Delimit Scope js_scope with js.
Bind Scope js_scope with Js.num.
Infix "+" := Js.add : js_scope.
Infix "-" := Js.sub : js_scope.
Infix "*" := Js.mul : js_scope.
Infix "/" := Js.div : js_scope.
Infix "==n" := Js.eqv (at level 70, no associativity).
Coercion Js.Fin : Q >-> Js.num.

(** ** [Array.prototype.sort] with a comparator

    The sort is stable: an element is inserted behind exactly the elements
    the comparator puts strictly before it (a positive result); a zero or NaN
    result keeps the original order. *)

Section JsSort.

Context {A : Type}.
Variable cmp : A -> A -> Js.num.

Fixpoint sort_insert (x : A) (l : list A) : list A :=
  match l with
  | [] => [x]
  | y :: l' =>
      if Js.gtb (cmp x y) (Js.Fin 0) then y :: sort_insert x l'
      else x :: y :: l'
  end.

Definition js_sort (l : list A) : list A := fold_right sort_insert [] l.

End JsSort.

(** Ascending order of a numeric key. *)
Definition key_le {A : Type} (key : A -> Js.num) (a b : A) : Prop :=
  Js.leb (key a) (key b) = true.

(** ** Data model ([src/types/index.ts]) *)

Record Holding : Type := mkHolding {
  h_id : Z;
  etfId : Z;
  etfSymbol : string;
  etfName : string;
  buyDate : string;
  buyPrice : Js.num;
  quantity : Js.num;
  createdAt : string
}.

(** The four optional fields of the interface are [undefined] when absent. *)
Record Settings : Type := mkSettings {
  profitTargetPercent : Js.num;
  minProfitAmount : Js.num;
  perTransactionAmount : Js.num;
  totalCapital : Js.num;
  minVolume : option Js.num;
  averagingThreshold : option Js.num;
  maxDailyBuys : option Js.num;
  maxDailySells : option Js.num
}.

Variant CashFlowType : Type :=
  INVESTMENT | RETURN | CAPITAL_ADD | CAPITAL_WITHDRAW.

Record CashFlow : Type := mkCashFlow {
  cf_date : string;
  cf_amount : Js.num;
  cf_type : CashFlowType
}.

Variant CapitalTxType : Type := ADD | WITHDRAW.

Record CapitalTransaction : Type := mkCapitalTransaction {
  ct_id : Z;
  ct_type : CapitalTxType;
  ct_amount : Js.num;
  ct_date : string;
  ct_notes : option string
}.

Record Trade : Type := mkTrade {
  t_id : Z;
  t_etfId : Z;
  t_etfSymbol : string;
  t_etfName : string;
  t_buyDate : string;
  t_sellDate : string;
  t_buyPrice : Js.num;
  t_sellPrice : Js.num;
  t_quantity : Js.num;
  profit : Js.num;
  profitPercent : Js.num;
  holdingDays : Js.num
}.

(** [{ ...holding, quantity: q }] *)
Definition with_quantity (h : Holding) (q : Js.num) : Holding :=
  {| h_id := h_id h; etfId := etfId h; etfSymbol := etfSymbol h;
     etfName := etfName h; buyDate := buyDate h; buyPrice := buyPrice h;
     quantity := q; createdAt := createdAt h |}.

(** ** Calculation module ([src/lib/calculations.ts]) *)

(** [calculateTargetPrice(avgPrice, quantity, settings)]. *)
Definition calculateTargetPrice (avgPrice qty : Js.num) (settings : Settings) : Js.num :=
  let targetByPercent :=
    (avgPrice * (Js.Fin 1 + profitTargetPercent settings / Js.Fin 100))%js in
  let targetByMinProfit :=
    ((avgPrice * qty + minProfitAmount settings) / qty)%js in
  Js.max targetByPercent targetByMinProfit.

Definition dropPercent (lastBuyPrice currentPrice : Js.num) : Js.num :=
  ((lastBuyPrice - currentPrice) / lastBuyPrice * Js.Fin 100)%js.

Definition shouldAverage (lastBuyPrice currentPrice : Js.num) : bool :=
  Js.gtb (dropPercent lastBuyPrice currentPrice) (Js.Fin 5).

Definition shouldSIP (lastBuyPrice currentPrice : Js.num) : bool :=
  Js.gtb (dropPercent lastBuyPrice currentPrice) (Js.Fin 10).

(** [distanceFromLow] and [distanceFromHigh]: both return 0 for a zero
    reference price instead of dividing by it. *)
Definition distanceFromLow (currentPrice low52w : Js.num) : Js.num :=
  if Js.eqb low52w (Js.Fin 0) then Js.Fin 0
  else ((currentPrice - low52w) / low52w * Js.Fin 100)%js.

Definition distanceFromHigh (currentPrice high52w : Js.num) : Js.num :=
  if Js.eqb high52w (Js.Fin 0) then Js.Fin 0
  else ((high52w - currentPrice) / high52w * Js.Fin 100)%js.

(** [calculateAveragePrice(holdings)]. *)
Definition calculateAveragePrice (holdings : list Holding) : Js.num :=
  match holdings with
  | [] => Js.Fin 0
  | _ =>
      let totalValue :=
        fold_left (fun sum h => (sum + buyPrice h * quantity h)%js) holdings (Js.Fin 0) in
      let totalQty :=
        fold_left (fun sum h => (sum + quantity h)%js) holdings (Js.Fin 0) in
      if Js.gtb totalQty (Js.Fin 0) then (totalValue / totalQty)%js else Js.Fin 0
  end.

(** [getDynamicProfitTarget(baseTarget, usedCapitalPercent)]. *)
Definition getDynamicProfitTarget (baseTarget usedCapitalPercent : Js.num) : Js.num :=
  if Js.gtb usedCapitalPercent (Js.Fin 90) then (baseTarget * Js.Fin 0.52)%js
  else if Js.gtb usedCapitalPercent (Js.Fin 80) then (baseTarget * Js.Fin 0.67)%js
  else if Js.gtb usedCapitalPercent (Js.Fin 70) then (baseTarget * Js.Fin 0.83)%js
  else baseTarget.

(** *** Lot matching *)

Record SoldHolding : Type := mkSold {
  holding : Holding;
  quantitySold : Js.num
}.

Record SellResult : Type := mkSellResult {
  soldHoldings : list SoldHolding;
  remaining : list Holding
}.

Section LotMatching.

(** [new Date(s).getTime()]: epoch milliseconds of a date string, NaN for a
    string that is not a date. *)
Variable getTime : string -> Js.num.

(** The comparator handed to [sort]: [a] is moved behind [b] exactly when
    the difference of their times is positive. *)
Definition byBuyDate (a b : Holding) : Js.num :=
  (getTime (buyDate a) - getTime (buyDate b))%js.

(** The [for (const holding of sorted)] loop of [sellFIFO], threading
    [remainingToSell] and the two output arrays (kept in push order). *)
Fixpoint consume (sorted : list Holding) (remainingToSell : Js.num)
    (sold : list SoldHolding) (rem : list Holding) : SellResult :=
  match sorted with
  | [] => mkSellResult sold rem
  | h :: rest =>
      if Js.leb remainingToSell (Js.Fin 0) then
        consume rest remainingToSell sold (rem ++ [h])
      else if Js.leb (quantity h) remainingToSell then
        consume rest (remainingToSell - quantity h)%js
                (sold ++ [mkSold h (quantity h)]) rem
      else
        consume rest (Js.Fin 0)
                (sold ++ [mkSold h remainingToSell])
                (rem ++ [with_quantity h (quantity h - remainingToSell)%js])
  end.

(** [sellFIFO(holdings, quantityToSell)]. *)
Definition sellFIFO (holdings : list Holding) (quantityToSell : Js.num) : SellResult :=
  let sorted := js_sort byBuyDate holdings in
  consume sorted quantityToSell [] [].

End LotMatching.

(** *** XIRR *)

(** An entry of [allFlows]; the [Date] object is kept as its time value. *)
Record Flow : Type := mkFlow {
  f_time : Js.num;
  f_amount : Js.num
}.

Variant XirrExit : Type :=
| Converged        (* |newRate - rate| < 1e-7 *)
| FlatDerivative   (* |fPrime| < 1e-10: break *)
| IterationCap.    (* the for loop ran out *)

Section XIRR.

Variable getTime : string -> Js.num.
(** [new Date().getTime()] at the moment of the call. *)
Variable now : Js.num.
Variable Math_pow : Js.num -> Js.num -> Js.num.

Definition signedAmount (cf : CashFlow) : Js.num :=
  match cf_type cf with
  | INVESTMENT | CAPITAL_ADD => Js.neg (Js.abs (cf_amount cf))
  | RETURN | CAPITAL_WITHDRAW => Js.abs (cf_amount cf)
  end.

Definition byTime (a b : Flow) : Js.num := (f_time a - f_time b)%js.

Definition buildFlows (cashFlows : list CashFlow) (currentValue : Js.num) : list Flow :=
  js_sort byTime
    (map (fun cf => mkFlow (getTime (cf_date cf)) (signedAmount cf)) cashFlows
     ++ [mkFlow now currentValue]).

(** 365.25 * 24 * 60 * 60 * 1000 *)
Definition msPerYear : Q := 31557600000.

Definition yearsSince (startTime : Js.num) (flow : Flow) : Js.num :=
  ((f_time flow - startTime) / Js.Fin msPerYear)%js.

Definition npv (allFlows : list Flow) (startTime rate : Js.num) : Js.num :=
  fold_left
    (fun sum flow =>
       let years := yearsSince startTime flow in
       (sum + f_amount flow / Math_pow (Js.Fin 1 + rate) years)%js)
    allFlows (Js.Fin 0).

Definition npvDerivative (allFlows : list Flow) (startTime rate : Js.num) : Js.num :=
  fold_left
    (fun sum flow =>
       let years := yearsSince startTime flow in
       (sum - years * f_amount flow / Math_pow (Js.Fin 1 + rate) (years + Js.Fin 1))%js)
    allFlows (Js.Fin 0).

Section Newton.

Variables f f' : Js.num -> Js.num.

(** One Newton-Raphson update. *)
Definition newtonStep (rate : Js.num) : Js.num := (rate - f rate / f' rate)%js.

(** The estimate after [k] Newton updates from [rate]. *)
Definition estimate (k : nat) (rate : Js.num) : Js.num :=
  Nat.iter k newtonStep rate.

(** Neither exit test fires at [rate]: the loop goes on to the next
    iteration. *)
Definition keepsGoing (rate : Js.num) : Prop :=
  Js.ltb (Js.abs (f' rate)) (Js.Fin 1e-10) = false
  /\ Js.ltb (Js.abs (newtonStep rate - rate)) (Js.Fin 1e-7) = false.

(** The [for (let i = 0; i < 100; i++)] loop followed by the final
    [return rate * 100]; [fuel] is the number of iterations left. *)
Fixpoint newton (fuel : nat) (rate : Js.num) : Js.num :=
  match fuel with
  | O => (rate * Js.Fin 100)%js
  | S fuel' =>
      let fv := f rate in
      let fPrime := f' rate in
      if Js.ltb (Js.abs fPrime) (Js.Fin 1e-10) then (rate * Js.Fin 100)%js
      else
        let newRate := (rate - fv / fPrime)%js in
        if Js.ltb (Js.abs (newRate - rate)) (Js.Fin 1e-7) then
          (newRate * Js.Fin 100)%js
        else newton fuel' newRate
  end.

(** The same loop, also reporting how many times the loop body was entered
    and through which exit the function returned. *)
Fixpoint newton_run (fuel : nat) (rate : Js.num) : Js.num * nat * XirrExit :=
  match fuel with
  | O => ((rate * Js.Fin 100)%js, O, IterationCap)
  | S fuel' =>
      let fv := f rate in
      let fPrime := f' rate in
      if Js.ltb (Js.abs fPrime) (Js.Fin 1e-10) then
        ((rate * Js.Fin 100)%js, 1%nat, FlatDerivative)
      else
        let newRate := (rate - fv / fPrime)%js in
        if Js.ltb (Js.abs (newRate - rate)) (Js.Fin 1e-7) then
          ((newRate * Js.Fin 100)%js, 1%nat, Converged)
        else
          let '(r, n, e) := newton_run fuel' newRate in (r, S n, e)
  end.

End Newton.

(** [calculateXIRR(cashFlows, currentValue)]. *)
Definition calculateXIRR (cashFlows : list CashFlow) (currentValue : Js.num) : Js.num :=
  match cashFlows with
  | [] => Js.Fin 0
  | _ =>
      let allFlows := buildFlows cashFlows currentValue in
      match allFlows with
      | [] | [_] => Js.Fin 0
      | first :: _ =>
          let startTime := f_time first in
          newton (npv allFlows startTime) (npvDerivative allFlows startTime)
                 100 (Js.Fin 0.1)
      end
  end.

(** [calculateXIRR] with the iteration count and exit of its loop. *)
Definition calculateXIRR_run (cashFlows : list CashFlow) (currentValue : Js.num)
  : Js.num * nat * option XirrExit :=
  match cashFlows with
  | [] => (Js.Fin 0, O, None)
  | _ =>
      let allFlows := buildFlows cashFlows currentValue in
      match allFlows with
      | [] | [_] => (Js.Fin 0, O, None)
      | first :: _ =>
          let startTime := f_time first in
          let '(r, n, e) :=
            newton_run (npv allFlows startTime) (npvDerivative allFlows startTime)
                       100 (Js.Fin 0.1) in
          (r, n, Some e)
      end
  end.

End XIRR.

(** ** Client store ([src/store/index.ts]) *)

Record ETFWithMarketData : Type := mkETFWithMarketData {
  e_id : Z;
  e_symbol : string;
  e_name : string;
  e_category : string;
  e_cmp : Js.num;
  e_high52w : Js.num;
  e_low52w : Js.num;
  e_volume : Js.num;
  e_prevClose : Js.num
}.

Record HoldingWithCalculations : Type := mkHoldingWithCalculations {
  hc_holding : Holding;
  hc_cmp : Js.num;
  hc_avgPrice : Js.num;
  hc_totalQuantity : Js.num;
  hc_targetPrice : Js.num;
  hc_currentValue : Js.num;
  hc_investedValue : Js.num;
  hc_notionalPL : Js.num;
  hc_notionalPLPercent : Js.num;
  hc_shouldAverage : bool;
  hc_shouldSIP : bool
}.

Record CapitalSummary : Type := mkCapitalSummary {
  cs_totalCapital : Js.num;
  cs_totalInvested : Js.num;
  cs_availableCapital : Js.num;
  cs_usedPercent : Js.num;
  cs_totalRealizedProfit : Js.num;
  cs_totalNotionalPL : Js.num
}.

Record StoreState : Type := mkStoreState {
  st_etfs : list ETFWithMarketData;
  st_holdings : list Holding;
  st_trades : list Trade;
  st_capitalTransactions : list CapitalTransaction;
  st_settings : Settings
}.

(** The [Map<number, Holding[]>] built by the first loop of
    [getHoldingsWithCalculations]. *)
Definition groupByETF (holdings : list Holding) : gmap Z (list Holding) :=
  fold_left
    (fun (m : gmap Z (list Holding)) h =>
       let existing := default [] (m !! etfId h) in
       <[etfId h := existing ++ [h]]> m)
    holdings ∅.

Section Store.

Variable getTime : string -> Js.num.

(** The comparator of [sortedHoldings]: newest purchase first. *)
Definition byBuyDateDesc (a b : Holding) : Js.num :=
  (getTime (buyDate b) - getTime (buyDate a))%js.

(** The body of the second loop: the entry pushed for [holding]. *)
Definition holdingCalculations (etfs : list ETFWithMarketData)
    (groupedByETF : gmap Z (list Holding)) (settings : Settings)
    (holding : Holding) : HoldingWithCalculations :=
  let etf := find (fun e => String.eqb (e_symbol e) (etfSymbol holding)) etfs in
  let etfHoldings := default [] (groupedByETF !! etfId holding) in
  let avgPrice := calculateAveragePrice etfHoldings in
  let totalQuantity :=
    fold_left (fun sum h => (sum + quantity h)%js) etfHoldings (Js.Fin 0) in
  let cmp :=
    match etf with
    | Some e => Js.or_else (e_cmp e) (buyPrice holding)
    | None => buyPrice holding
    end in
  let targetPrice := calculateTargetPrice avgPrice totalQuantity settings in
  let currentValue := (quantity holding * cmp)%js in
  let investedValue := (quantity holding * buyPrice holding)%js in
  let notionalPL := (currentValue - investedValue)%js in
  let notionalPLPercent :=
    ((cmp - buyPrice holding) / buyPrice holding * Js.Fin 100)%js in
  let sortedHoldings := js_sort byBuyDateDesc etfHoldings in
  let lastBuyPrice :=
    match sortedHoldings with
    | h0 :: _ => Js.or_else (buyPrice h0) (buyPrice holding)
    | [] => buyPrice holding
    end in
  {| hc_holding := holding;
     hc_cmp := cmp;
     hc_avgPrice := avgPrice;
     hc_totalQuantity := totalQuantity;
     hc_targetPrice := targetPrice;
     hc_currentValue := currentValue;
     hc_investedValue := investedValue;
     hc_notionalPL := notionalPL;
     hc_notionalPLPercent := notionalPLPercent;
     hc_shouldAverage := shouldAverage lastBuyPrice cmp;
     hc_shouldSIP := shouldSIP lastBuyPrice cmp |}.

Definition getHoldingsWithCalculations (st : StoreState) : list HoldingWithCalculations :=
  let groupedByETF := groupByETF (st_holdings st) in
  map (holdingCalculations (st_etfs st) groupedByETF (st_settings st))
      (st_holdings st).

(** The [for (const tx of capitalTransactions)] loop: the pair
    [(totalAdditions, totalWithdrawals)]. *)
Definition capitalTotals (base : Js.num) (txs : list CapitalTransaction)
  : Js.num * Js.num :=
  fold_left
    (fun '(totalAdditions, totalWithdrawals) tx =>
       match ct_type tx with
       | ADD => ((totalAdditions + ct_amount tx)%js, totalWithdrawals)
       | WITHDRAW => (totalAdditions, (totalWithdrawals + ct_amount tx)%js)
       end)
    txs (base, Js.Fin 0).

Definition getCapitalSummary (st : StoreState) : CapitalSummary :=
  let holdingsWithCalc := getHoldingsWithCalculations st in
  let '(totalAdditions, totalWithdrawals) :=
    capitalTotals (totalCapital (st_settings st)) (st_capitalTransactions st) in
  let totalCapital := (totalAdditions - totalWithdrawals)%js in
  let totalInvested :=
    fold_left
      (fun sum h => (sum + buyPrice (hc_holding h) * quantity (hc_holding h))%js)
      holdingsWithCalc (Js.Fin 0) in
  let totalRealizedProfit :=
    fold_left (fun sum t => (sum + profit t)%js) (st_trades st) (Js.Fin 0) in
  let totalNotionalPL :=
    fold_left (fun sum h => (sum + hc_notionalPL h)%js) holdingsWithCalc (Js.Fin 0) in
  let availableCapital := (totalCapital - totalInvested + totalRealizedProfit)%js in
  let usedPercent :=
    if Js.gtb totalCapital (Js.Fin 0)
    then (totalInvested / totalCapital * Js.Fin 100)%js
    else Js.Fin 0 in
  {| cs_totalCapital := totalCapital;
     cs_totalInvested := totalInvested;
     cs_availableCapital := availableCapital;
     cs_usedPercent := usedPercent;
     cs_totalRealizedProfit := totalRealizedProfit;
     cs_totalNotionalPL := totalNotionalPL |}.

End Store.

(** ** Capital page (the totals computed by [CapitalPage]) *)

Record CapitalPageTotals : Type := mkCapitalPageTotals {
  cp_totalAdditions : Js.num;
  cp_totalWithdrawals : Js.num;
  cp_baseCapital : Js.num;
  cp_netCapital : Js.num;
  cp_availableCapital : Js.num;
  cp_usedPercent : Js.num
}.

Definition is_ADD (t : CapitalTransaction) : bool :=
  match ct_type t with ADD => true | WITHDRAW => false end.

Definition is_WITHDRAW (t : CapitalTransaction) : bool :=
  match ct_type t with WITHDRAW => true | ADD => false end.

(** [transactions.filter(t => t.type === ty).reduce((sum, t) => sum + t.amount, 0)] *)
Definition sumAmounts (keep : CapitalTransaction -> bool)
    (transactions : list CapitalTransaction) : Js.num :=
  fold_left (fun sum t => (sum + ct_amount t)%js)
            (List.filter keep transactions) (Js.Fin 0).

(** [settings] is [null] until the settings request has answered;
    [totalInvested] and [totalRealizedProfit] are the page's state values
    (the sums over the fetched holdings and trades). *)
Definition capitalPageTotals (transactions : list CapitalTransaction)
    (settings : option Settings) (totalInvested totalRealizedProfit : Js.num)
  : CapitalPageTotals :=
  let totalAdditions := sumAmounts is_ADD transactions in
  let totalWithdrawals := sumAmounts is_WITHDRAW transactions in
  let baseCapital :=
    match settings with
    | Some s => Js.or_else (totalCapital s) (Js.Fin 500000)
    | None => Js.Fin 500000
    end in
  let netCapital := (baseCapital + totalAdditions - totalWithdrawals)%js in
  let availableCapital := (netCapital - totalInvested + totalRealizedProfit)%js in
  let usedPercent :=
    if Js.gtb netCapital (Js.Fin 0)
    then (totalInvested / netCapital * Js.Fin 100)%js
    else Js.Fin 0 in
  {| cp_totalAdditions := totalAdditions;
     cp_totalWithdrawals := totalWithdrawals;
     cp_baseCapital := baseCapital;
     cp_netCapital := netCapital;
     cp_availableCapital := availableCapital;
     cp_usedPercent := usedPercent |}.

(** ** [parseFloat]

    Leading white space is skipped, then the longest prefix that is a decimal
    literal (sign, digits, fraction, exponent, or [Infinity]) is read; NaN when
    there is none.  Only the ASCII white-space characters are recognised. *)

Module ParseFloat.

Definition is_space (c : ascii) : bool :=
  let n := nat_of_ascii c in
  ((9 <=? n) && (n <=? 13))%nat || (n =? 32)%nat.

Definition digit_of (c : ascii) : option Z :=
  let n := Z.of_nat (nat_of_ascii c) in
  if ((48 <=? n) && (n <=? 57))%Z then Some (n - 48)%Z else None.

Fixpoint skip_spaces (s : string) : string :=
  match s with
  | String c r => if is_space c then skip_spaces r else s
  | EmptyString => s
  end.

(** Reads a run of digits: the value so far, the number of digits read and
    the rest of the input. *)
Fixpoint digits (s : string) (acc : Z) (count : nat) : Z * nat * string :=
  match s with
  | String c r =>
      match digit_of c with
      | Some d => digits r (10 * acc + d)%Z (S count)
      | None => (acc, count, s)
      end
  | EmptyString => (acc, count, s)
  end.

Definition sign_of (s : string) : bool * string :=
  match s with
  | String "-" r => (true, r)
  | String "+" r => (false, r)
  | _ => (false, s)
  end.

(** The exponent part [e±ddd]; it is ignored unless at least one digit
    follows. *)
Definition exponent (s : string) : Z :=
  match s with
  | String c r =>
      if (Ascii.eqb c "e" || Ascii.eqb c "E")%bool then
        let '(negative, r') := sign_of r in
        let '(e, n, _) := digits r' 0%Z O in
        match n with
        | O => 0%Z
        | S _ => if negative then (- e)%Z else e
        end
      else 0%Z
  | EmptyString => 0%Z
  end.

Definition pow10 (e : Z) : Q :=
  match e with
  | Zneg p => 1 # (10 ^ p)
  | _ => inject_Z (10 ^ e)
  end.

Definition parse (s : string) : Js.num :=
  let '(negative, body) := sign_of (skip_spaces s) in
  if String.prefix "Infinity" body then (if negative then Js.NInf else Js.PInf)
  else
    let '(ip, ni, afterInt) := digits body 0%Z O in
    let '(fp, nf, afterFrac) :=
      match afterInt with
      | String "." r => digits r 0%Z O
      | _ => (0%Z, O, afterInt)
      end in
    match (ni + nf)%nat with
    | O => Js.NaN
    | S _ =>
        let mantissa := inject_Z ip + inject_Z fp * pow10 (- Z.of_nat nf) in
        let value := mantissa * pow10 (exponent afterFrac) in
        Js.Fin (Qred (if negative then - value else value))
    end.

End ParseFloat.

(** [parseFloat(x)] for a property that may be absent: [undefined] reads as
    the string "undefined", which is not a number. *)
Definition parseFloat (x : option string) : Js.num :=
  match x with
  | Some s => ParseFloat.parse s
  | None => Js.NaN
  end.

(** ** Calendar dates

    [new Date(s).getTime()] for the date-only form [YYYY-MM-DD] that the
    application writes ([toISOString().split('T')[0]]): midnight UTC of that
    day in epoch milliseconds.  As in the engine, a day of up to 31 is read
    in every month and the excess is carried into the next month.  Only this
    form is read here: a string of another form gives NaN, which is what the
    engine answers for a string without a number in it. *)

Module IsoDate.

Definition days_from_civil (y m d : Z) : Z :=
  let y' := if (m <=? 2)%Z then (y - 1)%Z else y in
  let era := (y' / 400)%Z in
  let yoe := (y' - era * 400)%Z in
  let mp := if (m >? 2)%Z then (m - 3)%Z else (m + 9)%Z in
  let doy := ((153 * mp + 2) / 5 + d - 1)%Z in
  let doe := (yoe * 365 + yoe / 4 - yoe / 100 + doy)%Z in
  (era * 146097 + doe - 719468)%Z.

Definition fixed_digits (s : string) (width : nat) : option Z :=
  match ParseFloat.digits s 0%Z O with
  | (v, n, EmptyString) => if (n =? width)%nat then Some v else None
  | _ => None
  end.

Definition getTime (s : string) : Js.num :=
  match fixed_digits (substring 0 4 s) 4,
        fixed_digits (substring 5 2 s) 2,
        fixed_digits (substring 8 2 s) 2 with
  | Some y, Some m, Some d =>
      if ((String.length s =? 10)%nat
          && String.eqb (substring 4 1 s) "-"
          && String.eqb (substring 7 1 s) "-"
          && (1 <=? m)%Z && (m <=? 12)%Z
          && (1 <=? d)%Z && (d <=? 31)%Z)%bool
      then Js.ofZ (days_from_civil y m d * 86400000)
      else Js.NaN
  | _, _, _ => Js.NaN
  end.

End IsoDate.

(** ** SQLite repository ([src/lib/db.ts])

    Each table is a finite map from its key to the row.  The [created_at]
    columns, which SQLite fills from its own clock, are left out.  A NaN is
    bound as NULL, which a NOT NULL column refuses: the insert of a trade or
    of a holding then raises and the handler's [catch] answers 500.  Every
    other statement is taken to succeed. *)

Record EtfRow : Type := mkEtfRow {
  er_id : Z;
  er_symbol : string;
  er_yahoo_symbol : string;
  er_name : string;
  er_category : string
}.

Record HoldingRow : Type := mkHoldingRow {
  hr_etf_id : Z;
  hr_buy_date : string;
  hr_buy_price : Js.num;
  hr_quantity : Js.num
}.

Record TradeRow : Type := mkTradeRow {
  tr_etf_id : Z;
  tr_buy_date : string;
  tr_sell_date : string;
  tr_buy_price : Js.num;
  tr_sell_price : Js.num;
  tr_quantity : Js.num;
  tr_profit : Js.num;
  tr_profit_percent : Js.num;
  tr_holding_days : Js.num
}.

(** A row of [daily_activity]; the table is keyed by its UNIQUE [date]. *)
Record DailyActivity : Type := mkDailyActivity {
  buy_count : Z;
  sell_count : Z
}.

Record Db : Type := mkDb {
  db_etfs : list EtfRow;
  db_holdings : gmap Z HoldingRow;
  db_holdings_seq : Z;            (* AUTOINCREMENT: the largest id handed out *)
  db_trades : gmap Z TradeRow;
  db_trades_seq : Z;
  db_settings : gmap string string;
  db_daily_activity : gmap string DailyActivity
}.

Definition set_holdings (db : Db) (hs : gmap Z HoldingRow) (seq : Z) : Db :=
  {| db_etfs := db_etfs db; db_holdings := hs; db_holdings_seq := seq;
     db_trades := db_trades db; db_trades_seq := db_trades_seq db;
     db_settings := db_settings db; db_daily_activity := db_daily_activity db |}.

Definition set_trades (db : Db) (ts : gmap Z TradeRow) (seq : Z) : Db :=
  {| db_etfs := db_etfs db; db_holdings := db_holdings db;
     db_holdings_seq := db_holdings_seq db;
     db_trades := ts; db_trades_seq := seq;
     db_settings := db_settings db; db_daily_activity := db_daily_activity db |}.

Definition set_daily_activity (db : Db) (da : gmap string DailyActivity) : Db :=
  {| db_etfs := db_etfs db; db_holdings := db_holdings db;
     db_holdings_seq := db_holdings_seq db;
     db_trades := db_trades db; db_trades_seq := db_trades_seq db;
     db_settings := db_settings db; db_daily_activity := da |}.

(** [SELECT ... FROM etfs WHERE symbol = ?] *)
Definition getETFBySymbol (db : Db) (symbol : string) : option EtfRow :=
  find (fun e => String.eqb (er_symbol e) symbol) (db_etfs db).

(** [INSERT INTO holdings ...]; returns [lastInsertRowid]. *)
Definition addHolding (db : Db) (etf_id : Z) (buy_date : string)
    (buy_price qty : Js.num) : Db * Z :=
  let id := (db_holdings_seq db + 1)%Z in
  (set_holdings db (<[id := mkHoldingRow etf_id buy_date buy_price qty]> (db_holdings db)) id,
   id).

(** [UPDATE holdings SET buy_price = ?, quantity = ? WHERE id = ?] *)
Definition updateHolding (db : Db) (id : Z) (buy_price qty : Js.num) : Db :=
  set_holdings db
    (alter (fun r => mkHoldingRow (hr_etf_id r) (hr_buy_date r) buy_price qty)
           id (db_holdings db))
    (db_holdings_seq db).

(** [DELETE FROM holdings WHERE id = ?] *)
Definition deleteHolding (db : Db) (id : Z) : Db :=
  set_holdings db (delete id (db_holdings db)) (db_holdings_seq db).

(** [isNaN] of a number. *)
Definition isNaN (a : Js.num) : bool :=
  match a with
  | Js.NaN => true
  | _ => false
  end.

Section Repository.

Variable getTime : string -> Js.num.

(** [Math.floor] of a finite number. *)
Definition Math_floor (a : Js.num) : Js.num :=
  match a with
  | Js.Fin q => Js.ofZ (Qfloor q)
  | other => other
  end.

(** The row [addTrade] binds: the three derived columns are computed
    here. *)
Definition tradeRow (etf_id : Z) (buy_date sell_date : string)
    (buy_price sell_price qty : Js.num) : TradeRow :=
  let profit := ((sell_price - buy_price) * qty)%js in
  let profitPercent := ((sell_price - buy_price) / buy_price * Js.Fin 100)%js in
  let holdingDays :=
    Math_floor ((getTime sell_date - getTime buy_date) / Js.Fin 86400000)%js in
  mkTradeRow etf_id buy_date sell_date buy_price sell_price qty
             profit profitPercent holdingDays.

(** No numeric column of the row is NaN, so that every column gets a value
    and not NULL. *)
Definition bindable (row : TradeRow) : bool :=
  negb (existsb isNaN [tr_buy_price row; tr_sell_price row; tr_quantity row;
                       tr_profit row; tr_profit_percent row; tr_holding_days row]).

(** [addTrade]: every column of [trades] is NOT NULL, so the insert raises
    ([None]) and stores nothing when a column of the row is NaN; otherwise
    the row is stored and [lastInsertRowid] returned. *)
Definition addTrade (db : Db) (etf_id : Z) (buy_date sell_date : string)
    (buy_price sell_price qty : Js.num) : option (Db * Z) :=
  let row := tradeRow etf_id buy_date sell_date buy_price sell_price qty in
  let id := (db_trades_seq db + 1)%Z in
  if bindable row
  then Some (set_trades db (<[id := row]> (db_trades db)) id, id)
  else None.

End Repository.

(** [getSettings]: every field is [parseFloat(stored) || default]. *)
Definition getSettings (db : Db) : Settings :=
  let settings := db_settings db in
  {| profitTargetPercent :=
       Js.or_else (parseFloat (settings !! "profit_target_percent")) (Js.Fin 6);
     minProfitAmount :=
       Js.or_else (parseFloat (settings !! "min_profit_amount")) (Js.Fin 500);
     perTransactionAmount :=
       Js.or_else (parseFloat (settings !! "per_transaction_amount")) (Js.Fin 10000);
     totalCapital :=
       Js.or_else (parseFloat (settings !! "total_capital")) (Js.Fin 500000);
     minVolume :=
       Some (Js.or_else (parseFloat (settings !! "min_volume")) (Js.Fin 15000));
     averagingThreshold :=
       Some (Js.or_else (parseFloat (settings !! "averaging_threshold")) (Js.Fin 2.5));
     maxDailyBuys :=
       Some (Js.or_else (parseFloat (settings !! "max_daily_buys")) (Js.Fin 1));
     maxDailySells :=
       Some (Js.or_else (parseFloat (settings !! "max_daily_sells")) (Js.Fin 1)) |}.

Definition set_settings (db : Db) (settings : gmap string string) : Db :=
  {| db_etfs := db_etfs db; db_holdings := db_holdings db;
     db_holdings_seq := db_holdings_seq db;
     db_trades := db_trades db; db_trades_seq := db_trades_seq db;
     db_settings := settings;
     db_daily_activity := db_daily_activity db |}.

(** [UPDATE settings SET value = ? WHERE key = ?] *)
Definition updateSetting (db : Db) (key value : string) : Db :=
  set_settings db (alter (fun _ => value) key (db_settings db)).

(** [SELECT * FROM daily_activity WHERE date = ?] *)
Definition getDailyActivity (db : Db) (date : string) : option DailyActivity :=
  db_daily_activity db !! date.

(** [INSERT ... VALUES (?, 1, 0) ON CONFLICT(date) DO UPDATE SET buy_count = buy_count + 1] *)
Definition incrementDailyBuy (db : Db) (date : string) : Db :=
  set_daily_activity db
    (match db_daily_activity db !! date with
     | None => <[date := mkDailyActivity 1 0]> (db_daily_activity db)
     | Some r =>
         <[date := mkDailyActivity (buy_count r + 1) (sell_count r)]>
           (db_daily_activity db)
     end).

(** [INSERT ... VALUES (?, 0, 1) ON CONFLICT(date) DO UPDATE SET sell_count = sell_count + 1] *)
Definition incrementDailySell (db : Db) (date : string) : Db :=
  set_daily_activity db
    (match db_daily_activity db !! date with
     | None => <[date := mkDailyActivity 0 1]> (db_daily_activity db)
     | Some r =>
         <[date := mkDailyActivity (buy_count r) (sell_count r + 1)]>
           (db_daily_activity db)
     end).

(** ** Request handlers ([src/app/api/holdings/route.ts], trades route) *)

Variant Response : Type :=
| Created (id : Z)                        (* { id, success: true } *)
| Success                                 (* { success: true } *)
| Failure (error : string) (status : Z).  (* { error }, { status } *)

(** What [console.warn] receives. *)
Variant Warning : Type :=
| BuyLimitReached (limit : Js.num) (date : string)
| SellLimitReached (limit : Js.num) (date : string).

Record Outcome : Type := mkOutcome {
  out_db : Db;
  out_response : Response;
  out_warnings : list Warning
}.

Record HoldingPostBody : Type := mkHoldingPostBody {
  hp_etfSymbol : string;
  hp_buyDate : string;
  hp_buyPrice : Js.num;
  hp_quantity : Js.num
}.

Record HoldingPutBody : Type := mkHoldingPutBody {
  hu_id : Z;
  hu_buyPrice : Js.num;
  hu_quantity : Js.num;
  hu_buyDate : string
}.

Record TradePostBody : Type := mkTradePostBody {
  tp_etfSymbol : string;
  tp_buyDate : string;
  tp_sellDate : string;
  tp_buyPrice : Js.num;
  tp_sellPrice : Js.num;
  tp_quantity : Js.num
}.

(** [activity?.buy_count || 0] and [activity?.sell_count || 0]. *)
Definition buyCountOf (activity : option DailyActivity) : Z :=
  match activity with Some a => buy_count a | None => 0%Z end.

Definition sellCountOf (activity : option DailyActivity) : Z :=
  match activity with Some a => sell_count a | None => 0%Z end.

(** [limit && count >= limit] for an optional limit. *)
Definition limitReached (limit : option Js.num) (count : Z) : bool :=
  match limit with
  | Some m => Js.truthy m && Js.geb (Js.ofZ count) m
  | None => false
  end.

(** [POST /api/holdings] *)
Definition holdings_POST (db : Db) (body : HoldingPostBody) : Outcome :=
  let settings := getSettings db in
  let activity := getDailyActivity db (hp_buyDate body) in
  let buyCount := buyCountOf activity in
  let warnings :=
    if limitReached (maxDailyBuys settings) buyCount
    then [BuyLimitReached (default Js.NaN (maxDailyBuys settings)) (hp_buyDate body)]
    else [] in
  match getETFBySymbol db (hp_etfSymbol body) with
  | None => mkOutcome db (Failure "ETF not found" 404) warnings
  | Some etf =>
      if isNaN (hp_buyPrice body) || isNaN (hp_quantity body)
      then
        (* the insert of [addHolding] raises: NULL in a NOT NULL column *)
        mkOutcome db (Failure "Failed to add holding" 500) warnings
      else
        let '(db1, id) :=
          addHolding db (er_id etf) (hp_buyDate body) (hp_buyPrice body)
                     (hp_quantity body) in
        let db2 := incrementDailyBuy db1 (hp_buyDate body) in
        mkOutcome db2 (Created id) warnings
  end.

(** [PUT /api/holdings]: the handler passes [buyDate] as a fourth argument,
    which [updateHolding] does not take. *)
Definition holdings_PUT (db : Db) (body : HoldingPutBody) : Outcome :=
  let db1 := updateHolding db (hu_id body) (hu_buyPrice body) (hu_quantity body) in
  mkOutcome db1 Success [].

Section TradesRoute.

Variable getTime : string -> Js.num.

(** [POST /api/trades] *)
Definition trades_POST (db : Db) (body : TradePostBody) : Outcome :=
  let settings := getSettings db in
  let activity := getDailyActivity db (tp_sellDate body) in
  let sellCount := sellCountOf activity in
  let warnings :=
    if limitReached (maxDailySells settings) sellCount
    then [SellLimitReached (default Js.NaN (maxDailySells settings)) (tp_sellDate body)]
    else [] in
  match getETFBySymbol db (tp_etfSymbol body) with
  | None => mkOutcome db (Failure "ETF not found" 404) warnings
  | Some etf =>
      match addTrade getTime db (er_id etf) (tp_buyDate body) (tp_sellDate body)
                     (tp_buyPrice body) (tp_sellPrice body) (tp_quantity body) with
      | Some (db1, id) =>
          let db2 := incrementDailySell db1 (tp_sellDate body) in
          mkOutcome db2 (Created id) warnings
      | None => mkOutcome db (Failure "Failed to add trade" 500) warnings
      end
  end.

End TradesRoute.

(** ** Reading the settings table *)

(** A number the settings reader can return: neither 0 nor NaN. *)
Definition usable (a : Js.num) : Prop :=
  Js.eqb a (Js.Fin 0) = false /\ a <> Js.NaN.

(** The value [getSettings] reports for column [key] with default [d]. *)
Definition reported (db : Db) (key : string) (d : Js.num) : Js.num :=
  Js.or_else (parseFloat (db_settings db !! key)) d.

(** ** The matching rule in the words of the specification

    [Matches lots q sold rest]: going through [lots] in order with [q] still
    to sell, nothing more is taken once [q] is exhausted ([q <= 0]); a lot not
    larger than [q] is sold whole and [q] shrinks by it; a lot larger than [q]
    is split into a sold portion [q] and a reduced remaining lot, and every
    later lot is left as it is. *)

Inductive Matches : list Holding -> Js.num -> list SoldHolding -> list Holding -> Prop :=
| Matches_none (q : Js.num) :
    Matches [] q [] []
| Matches_exhausted (lots : list Holding) (q : Js.num) :
    Js.leb q (Js.Fin 0) = true ->
    Matches lots q [] lots
| Matches_whole (h : Holding) (lots : list Holding) (q : Js.num)
    (sold : list SoldHolding) (rest : list Holding) :
    Js.leb q (Js.Fin 0) = false ->
    Js.leb (quantity h) q = true ->
    Matches lots (q - quantity h)%js sold rest ->
    Matches (h :: lots) q (mkSold h (quantity h) :: sold) rest
| Matches_split (h : Holding) (lots : list Holding) (q : Js.num) :
    Js.leb q (Js.Fin 0) = false ->
    Js.leb (quantity h) q = false ->
    Matches (h :: lots) q [mkSold h q]
            (with_quantity h (quantity h - q)%js :: lots).

(** Units in a list of lots and in a list of sales (finite quantities). *)
Definition unitsOf (a : Js.num) : Q :=
  match a with Js.Fin x => x | _ => 0 end.

Definition totalUnits (hs : list Holding) : Q :=
  fold_right (fun h acc => unitsOf (quantity h) + acc) 0 hs.

Definition totalSold (sold : list SoldHolding) : Q :=
  fold_right (fun s acc => unitsOf (quantitySold s) + acc) 0 sold.

(** Every lot holds a finite, positive quantity. *)
Definition positiveLots (hs : list Holding) : Prop :=
  Forall (fun h => exists x : Q, quantity h = Js.Fin x /\ 0 < x) hs.

(** Purchase dates in ascending order. *)
Definition oldestFirst (getTime : string -> Js.num) (a b : Holding) : Prop :=
  Js.leb (getTime (buyDate a)) (getTime (buyDate b)) = true.

(** Every lot carries a date that [Date] can read. *)
Definition validDates (getTime : string -> Js.num) (hs : list Holding) : Prop :=
  Forall (fun h => Js.is_finite (getTime (buyDate h)) = true) hs.

(** No two different lots were bought at the same instant. *)
Definition distinctDates (getTime : string -> Js.num) (hs : list Holding) : Prop :=
  forall a b, In a hs -> In b hs ->
    Js.eqb (getTime (buyDate a)) (getTime (buyDate b)) = true -> a = b.

(** Purchase dates in descending order. *)
Definition newestFirst (getTime : string -> Js.num) (a b : Holding) : Prop :=
  Js.leb (getTime (buyDate b)) (getTime (buyDate a)) = true.

(** *** The LIFO variant of lot matching *)

Section LotMatchingLIFO.

Variable getTime : string -> Js.num.

(** The comparator of [sellFIFO] with its arguments exchanged. *)
Definition byBuyDateReversed (a b : Holding) : Js.num := byBuyDate getTime b a.

(** Modelled from the spec: the LIFO variant of the lot-matching engine.
    The calculation module under [src/] defines [sellFIFO] only, and no
    caller of a LIFO function is there either; the spec describes the
    variant as the same algorithm with the sort order reversed (newest
    first).  So this is [sellFIFO] with the reversed comparator and the
    same consumption loop. *)
Definition sellLIFO (holdings : list Holding) (quantityToSell : Js.num) : SellResult :=
  let sorted := js_sort byBuyDateReversed holdings in
  consume sorted quantityToSell [] [].

End LotMatchingLIFO.

(** ** Sample data *)

Definition sample_settings : Settings :=
  {| profitTargetPercent := Js.Fin 6; minProfitAmount := Js.Fin 500;
     perTransactionAmount := Js.Fin 10000; totalCapital := Js.Fin 500000;
     minVolume := None; averagingThreshold := None;
     maxDailyBuys := None; maxDailySells := None |}.

Definition lot (id : Z) (date : string) (price qty : Q) : Holding :=
  {| h_id := id; etfId := 1; etfSymbol := "NIFTYBEES"; etfName := "Nifty BeES";
     buyDate := date; buyPrice := Js.Fin price; quantity := Js.Fin qty;
     createdAt := date |}.

(** Three lots of ten units each, oldest to newest. *)
Definition lot1 : Holding := lot 1 "2024-01-10" 100 10.
Definition lot2 : Holding := lot 2 "2024-02-10" 110 10.
Definition lot3 : Holding := lot 3 "2024-03-10" 120 10.

(** [Math.pow] on the part of its domain that stays rational: a finite base
    raised to a whole exponent.  Anything else is NaN here. *)
Definition pow_whole (b e : Js.num) : Js.num :=
  match b, e with
  | Js.Fin x, Js.Fin y =>
      if Js.Qeqb (inject_Z (Qfloor y)) y then
        if Js.Qeqb x 0 && Js.Qltb y 0 then Js.PInf
        else Js.Fin (Qred (Qpower x (Qfloor y)))
      else Js.NaN
  | _, _ => Js.NaN
  end.

(** An investment whose only other flow, the current value, falls on the same
    day: every year fraction is zero and so is the derivative of the NPV. *)
Definition same_day_flows : list CashFlow :=
  [mkCashFlow "2024-01-10" (Js.Fin 1000) INVESTMENT].
Definition same_day_now : Js.num := IsoDate.getTime "2024-01-10".

(** The capital example of the specification: base capital 500000, one
    addition of 50000, one withdrawal of 20000, 100000 invested and 5000 of
    realized profit. *)
Definition sample_transactions : list CapitalTransaction :=
  [mkCapitalTransaction 1 ADD (Js.Fin 50000) "2024-01-05" None;
   mkCapitalTransaction 2 WITHDRAW (Js.Fin 20000) "2024-02-05" None].

Definition sample_trade : Trade :=
  {| t_id := 1; t_etfId := 1; t_etfSymbol := "NIFTYBEES"; t_etfName := "Nifty BeES";
     t_buyDate := "2023-11-01"; t_sellDate := "2023-12-01";
     t_buyPrice := Js.Fin 100; t_sellPrice := Js.Fin 105; t_quantity := Js.Fin 1000;
     profit := Js.Fin 5000; profitPercent := Js.Fin 5; holdingDays := Js.Fin 30 |}.

(** A trade closed at a loss. *)
Definition lost_trade : Trade :=
  {| t_id := 2; t_etfId := 1; t_etfSymbol := "NIFTYBEES"; t_etfName := "Nifty BeES";
     t_buyDate := "2023-12-05"; t_sellDate := "2023-12-15";
     t_buyPrice := Js.Fin 105; t_sellPrice := Js.Fin 95; t_quantity := Js.Fin 100;
     profit := Js.Fin (-1000); profitPercent := (Js.Fin (-1000) / Js.Fin 10500 * Js.Fin 100)%js;
     holdingDays := Js.Fin 10 |}.

Definition sample_store : StoreState :=
  {| st_etfs := [];
     st_holdings := [lot 1 "2024-01-10" 100 1000];
     st_trades := [sample_trade];
     st_capitalTransactions := sample_transactions;
     st_settings := sample_settings |}.

(** A lot entered with a purchase price of 0, with and without a market
    price for its instrument. *)
Definition free_lot : Holding := lot 7 "2024-04-01" 0 10.

Definition quoted_etf : ETFWithMarketData :=
  {| e_id := 1; e_symbol := "NIFTYBEES"; e_name := "Nifty BeES";
     e_category := "Index"; e_cmp := Js.Fin 50; e_high52w := Js.Fin 60;
     e_low52w := Js.Fin 40; e_volume := Js.Fin 20000; e_prevClose := Js.Fin 49 |}.

Definition free_lot_store (etfs : list ETFWithMarketData) : StoreState :=
  {| st_etfs := etfs; st_holdings := [free_lot]; st_trades := [];
     st_capitalTransactions := []; st_settings := sample_settings |}.

(** A database as seeded by [initializeDatabase], with one instrument and one
    holding. *)
Definition seeded_settings : gmap string string :=
  list_to_map
    [("profit_target_percent", "3"); ("min_profit_amount", "300");
     ("per_transaction_amount", "10000"); ("total_capital", "500000");
     ("min_volume", "15000"); ("averaging_threshold", "2.5");
     ("max_daily_buys", "1"); ("max_daily_sells", "1")].

Definition sample_db : Db :=
  {| db_etfs := [mkEtfRow 1 "NIFTYBEES" "NIFTYBEES.NS" "Nifty BeES" "Index"];
     db_holdings := {[ 1%Z := mkHoldingRow 1 "2024-01-10" (Js.Fin 100) (Js.Fin 10) ]};
     db_holdings_seq := 1;
     db_trades := ∅;
     db_trades_seq := 0;
     db_settings := seeded_settings;
     db_daily_activity := ∅ |}.

(** The edit request: lot 1 corrected to price 101, quantity 12 and purchase
    date 2024-01-15. *)
Definition sample_edit : HoldingPutBody :=
  {| hu_id := 1; hu_buyPrice := Js.Fin 101; hu_quantity := Js.Fin 12;
     hu_buyDate := "2024-01-15" |}.

(** A purchase and a sale of the sample instrument on 2024-05-02. *)
Definition sample_buy : HoldingPostBody :=
  {| hp_etfSymbol := "NIFTYBEES"; hp_buyDate := "2024-05-02";
     hp_buyPrice := Js.Fin 100; hp_quantity := Js.Fin 10 |}.

Definition sample_sell : TradePostBody :=
  {| tp_etfSymbol := "NIFTYBEES"; tp_buyDate := "2024-01-10";
     tp_sellDate := "2024-05-02"; tp_buyPrice := Js.Fin 100;
     tp_sellPrice := Js.Fin 106; tp_quantity := Js.Fin 10 |}.

(** The database after [n] purchases [body] in a row. *)
Fixpoint after_buys (n : nat) (db : Db) (body : HoldingPostBody) : Db :=
  match n with
  | O => db
  | S n' => out_db (holdings_POST (after_buys n' db body) body)
  end.

Fixpoint after_sells (getTime : string -> Js.num) (n : nat) (db : Db)
    (body : TradePostBody) : Db :=
  match n with
  | O => db
  | S n' => out_db (trades_POST getTime (after_sells getTime n' db body) body)
  end.

(** Settings in which the user has stored 0 for the profit floor and the
    percentage target. *)
Definition zeroed_db : Db :=
  set_settings sample_db
    (<["min_profit_amount" := "0"]> (<["profit_target_percent" := "0"]> seeded_settings)).

(** ** Further functions of the calculation module *)

Section HoldingDays.

Variable getTime : string -> Js.num.

(** [calculateHoldingDays(buyDate, sellDate)]. *)
Definition calculateHoldingDays (buyDate sellDate : string) : Js.num :=
  Math_floor ((getTime sellDate - getTime buyDate) / Js.Fin 86400000)%js.

End HoldingDays.

(** A lot with a finite price in [lo, hi] and a finite positive quantity. *)
Definition pricedWithin (lo hi : Q) (h : Holding) : Prop :=
  exists p x : Q,
    buyPrice h = Js.Fin p /\ quantity h = Js.Fin x /\ 0 < x /\ lo <= p /\ p <= hi.

(** A sale that takes a positive part, at most the whole, of a lot of [hs]. *)
Definition soldFrom (hs : list Holding) (s : SoldHolding) : Prop :=
  In (holding s) hs
  /\ exists x y : Q,
       quantitySold s = Js.Fin x /\ quantity (holding s) = Js.Fin y
       /\ 0 < x /\ x <= y.

(** A lot of [hs], possibly with a changed quantity. *)
Definition lotOf (hs : list Holding) (h' : Holding) : Prop :=
  exists h, In h hs /\ h' = with_quantity h (quantity h').

(** ** Further functions of the store *)

Section StoreGroups.

Variable getTime : string -> Js.num.

(** [getGroupedHoldings]: the calculated holdings in a
    [Map<string, HoldingWithCalculations[]>] keyed by ETF symbol. *)
Definition getGroupedHoldings (st : StoreState)
  : gmap string (list HoldingWithCalculations) :=
  fold_left
    (fun (grouped : gmap string (list HoldingWithCalculations)) h =>
       let existing := default [] (grouped !! etfSymbol (hc_holding h)) in
       <[etfSymbol (hc_holding h) := existing ++ [h]]> grouped)
    (getHoldingsWithCalculations getTime st) ∅.

End StoreGroups.

(** ** [parseInt] without a radix argument

    Leading white space and a sign are skipped; a [0x] or [0X] prefix selects
    base 16, otherwise base 10; the longest run of digits is read.  The
    result is an integer, or NaN when there is no digit: NaN is [None]
    here. *)

Module ParseInt.

Definition hex_digit_of (c : ascii) : option Z :=
  let n := Z.of_nat (nat_of_ascii c) in
  if ((48 <=? n) && (n <=? 57))%Z then Some (n - 48)%Z
  else if ((97 <=? n) && (n <=? 102))%Z then Some (n - 87)%Z
  else if ((65 <=? n) && (n <=? 70))%Z then Some (n - 55)%Z
  else None.

Fixpoint hex_digits (s : string) (acc : Z) (count : nat) : Z * nat :=
  match s with
  | String c r =>
      match hex_digit_of c with
      | Some d => hex_digits r (16 * acc + d)%Z (S count)
      | None => (acc, count)
      end
  | EmptyString => (acc, count)
  end.

Definition parse (s : string) : option Z :=
  let '(negative, body) := ParseFloat.sign_of (ParseFloat.skip_spaces s) in
  let '(value, count) :=
    match body with
    | String "0" (String "x" r) | String "0" (String "X" r) => hex_digits r 0%Z O
    | _ => let '(v, n, _) := ParseFloat.digits body 0%Z O in (v, n)
    end in
  match count with
  | O => None
  | S _ => Some (if negative then (- value)%Z else value)
  end.

End ParseInt.

(** ** Further request handlers *)

(** [DELETE /api/holdings?id=...]; [idParam] is [searchParams.get('id')]. *)
Definition holdings_DELETE (db : Db) (idParam : option string) : Outcome :=
  let raw :=
    match idParam with
    | Some EmptyString | None => "0"
    | Some s => s
    end in
  match ParseInt.parse raw with
  | Some id =>
      if (id =? 0)%Z then mkOutcome db (Failure "ID is required" 400) []
      else mkOutcome (deleteHolding db id) Success []
  | None => mkOutcome db (Failure "ID is required" 400) []
  end.

(** Every holding id is at most the largest id handed out so far. *)
Definition holdingIdsIssued (db : Db) : Prop :=
  forall (id : Z) (row : HoldingRow),
    db_holdings db !! id = Some row -> (id <= db_holdings_seq db)%Z.

(** ** The trades page ([src/app/trades/page.tsx]) *)

(** The state [dateFilter]: ['all' | '30d' | '90d' | '1y']. *)
Inductive DateFilter : Type := All | Last30d | Last90d | Last1y.

Record TradesSummary : Type := mkTradesSummary {
  totalProfit : Js.num;
  totalTrades : Js.num;
  winningTrades : Js.num;
  winRate : Js.num;
  avgProfit : Js.num;
  avgHoldingDays : Js.num
}.

(** [array.length] as a number. *)
Definition lengthOf {A : Type} (l : list A) : Js.num := Js.ofZ (Z.of_nat (length l)).

Section TradesPage.

Variable getTime : string -> Js.num.
(** [new Date().getTime()]: the current time, a whole number of
    milliseconds. *)
Variable now : Z.

Definition windowDays (dateFilter : DateFilter) : Z :=
  match dateFilter with
  | Last30d => 30
  | Last90d => 90
  | _ => 365
  end.

(** The time value of [cutoff]. *)
Definition cutoff (dateFilter : DateFilter) : Js.num :=
  (Js.ofZ now - Js.ofZ (windowDays dateFilter * 24 * 60 * 60 * 1000))%js.

(** Two [Date]s are compared by their time values. *)
Definition filterTrades (dateFilter : DateFilter) (trades : list Trade) : list Trade :=
  match dateFilter with
  | All => trades
  | _ => List.filter (fun t => Js.geb (getTime (t_sellDate t)) (cutoff dateFilter)) trades
  end.

Definition tradesSummary (filteredTrades : list Trade) : TradesSummary :=
  let totalProfit := fold_left (fun sum t => (sum + profit t)%js) filteredTrades (Js.Fin 0) in
  let totalTrades := lengthOf filteredTrades in
  let winningTrades :=
    lengthOf (List.filter (fun t => Js.gtb (profit t) (Js.Fin 0)) filteredTrades) in
  {| totalProfit := totalProfit;
     totalTrades := totalTrades;
     winningTrades := winningTrades;
     winRate :=
       if Js.gtb totalTrades (Js.Fin 0)
       then (winningTrades / totalTrades * Js.Fin 100)%js
       else Js.Fin 0;
     avgProfit :=
       if Js.gtb totalTrades (Js.Fin 0) then (totalProfit / totalTrades)%js else Js.Fin 0;
     avgHoldingDays :=
       if Js.gtb totalTrades (Js.Fin 0)
       then (fold_left (fun sum t => (sum + holdingDays t)%js) filteredTrades (Js.Fin 0)
             / totalTrades)%js
       else Js.Fin 0 |}.

End TradesPage.

(** ** Market data from the chart service (the market data route)

    The parsed JSON answer: a number of the answer is a finite number, a
    field can be missing and an entry of a price series can be [null]. *)

Record ChartMeta : Type := mkChartMeta {
  regularMarketPrice : option Q;
  previousClose : option Q;
  regularMarketVolume : option Q
}.

Record ChartQuote : Type := mkChartQuote {
  close : option (list (option Q));
  high : option (list (option Q));
  low : option (list (option Q))
}.

(** [data.chart.result[0]]; its [meta] is read without a check, so a missing
    one raises and is caught. *)
Record ChartResult : Type := mkChartResult {
  meta : option ChartMeta;
  indicators : option ChartQuote
}.

Record MarketDataWith20DMA : Type := mkMarketDataWith20DMA {
  md_symbol : string;
  md_cmp : Js.num;
  md_high52w : Js.num;
  md_low52w : Js.num;
  md_change : Js.num;
  md_changePercent : Js.num;
  md_prevClose : Js.num;
  md_volume : Js.num;
  md_dma20 : Js.num;
  md_dmaDistance : Js.num
}.

(** A possibly missing number used in arithmetic: [undefined] becomes NaN. *)
Definition toNumber (x : option Q) : Js.num :=
  match x with
  | Some q => Js.Fin q
  | None => Js.NaN
  end.

(** [series?.filter(x => x !== null) || []] *)
Definition nonNull (series : option (list (option Q))) : list Js.num :=
  match series with
  | Some l => omap (fun x => option_map Js.Fin x) l
  | None => []
  end.

(** [prices.reduce((sum, price) => sum + price, 0)] *)
Definition sumOf (prices : list Js.num) : Js.num :=
  fold_left (fun sum price => (sum + price)%js) prices (Js.Fin 0).

(** [array.slice(-n)]: the last [n] elements, or all of a shorter array. *)
Definition slice_last {A : Type} (n : nat) (l : list A) : list A :=
  skipn (length l - n) l.

Definition dma20Of (closePrices : list Js.num) : Js.num :=
  if Js.geb (lengthOf closePrices) (Js.Fin 20)
  then (sumOf (slice_last 20 closePrices) / Js.Fin 20)%js
  else if Js.gtb (lengthOf closePrices) (Js.Fin 0)
       then (sumOf closePrices / lengthOf closePrices)%js
       else Js.Fin 0.

Definition dmaDistanceOf (cmp dma20 : Js.num) : Js.num :=
  if Js.gtb dma20 (Js.Fin 0)
  then ((cmp - dma20) / dma20 * Js.Fin 100)%js
  else Js.Fin 0.

(** [Math.min] of two numbers: NaN when either is NaN. *)
Definition min2 (a b : Js.num) : Js.num :=
  match a, b with
  | Js.NaN, _ | _, Js.NaN => Js.NaN
  | _, _ => if Js.ltb b a then b else a
  end.

(** [Math.max(...values)] and [Math.min(...values)]. *)
Definition Math_max (values : list Js.num) : Js.num := fold_left Js.max values Js.NInf.
Definition Math_min (values : list Js.num) : Js.num := fold_left min2 values Js.PInf.

(** The rest of [text] after [pattern], when [text] starts with it. *)
Fixpoint startsWith (pattern text : string) : option string :=
  match pattern, text with
  | EmptyString, _ => Some text
  | String a pattern', String b text' =>
      if Ascii.eqb a b then startsWith pattern' text' else None
  | String _ _, EmptyString => None
  end.

(** [text.replace(pattern, '')] with a string pattern: the first occurrence
    is removed. *)
Fixpoint removeFirst (pattern text : string) : string :=
  match startsWith pattern text with
  | Some rest => rest
  | None =>
      match text with
      | EmptyString => EmptyString
      | String c rest => String c (removeFirst pattern rest)
      end
  end.

(** [fetchYahooFinanceDataWith20DMA] from the parsed answer on; [None] for
    [result] stands for a failed request or an answer without a result. *)
Definition fetchYahooFinanceDataWith20DMA (yahooSymbol : string)
    (result : option ChartResult) : option MarketDataWith20DMA :=
  match result with
  | None => None
  | Some result =>
      match meta result with
      | None => None
      | Some quote =>
          let closePrices := nonNull (indicators result ≫= close) in
          let dma20 := dma20Of closePrices in
          let cmp := Js.or_else (toNumber (regularMarketPrice quote)) (Js.Fin 0) in
          let dmaDistance := dmaDistanceOf cmp dma20 in
          let highs := nonNull (indicators result ≫= high) in
          let lows := nonNull (indicators result ≫= low) in
          let high52w := if Js.gtb (lengthOf highs) (Js.Fin 0) then Math_max highs else cmp in
          let low52w := if Js.gtb (lengthOf lows) (Js.Fin 0) then Math_min lows else cmp in
          Some {| md_symbol := removeFirst ".NS" yahooSymbol;
                  md_cmp := cmp;
                  md_high52w := high52w;
                  md_low52w := low52w;
                  md_change :=
                    Js.or_else (cmp - toNumber (previousClose quote))%js (Js.Fin 0);
                  md_changePercent :=
                    Js.or_else ((cmp - toNumber (previousClose quote))
                                / toNumber (previousClose quote) * Js.Fin 100)%js
                               (Js.Fin 0);
                  md_prevClose := Js.or_else (toNumber (previousClose quote)) (Js.Fin 0);
                  md_volume := Js.or_else (toNumber (regularMarketVolume quote)) (Js.Fin 0);
                  md_dma20 := dma20;
                  md_dmaDistance := dmaDistance |}
      end
  end.

(** ** Instruments ([src/lib/db.ts], [src/app/api/etfs/route.ts]) *)

Definition set_etfs (db : Db) (etfs : list EtfRow) : Db :=
  {| db_etfs := etfs; db_holdings := db_holdings db;
     db_holdings_seq := db_holdings_seq db;
     db_trades := db_trades db; db_trades_seq := db_trades_seq db;
     db_settings := db_settings db; db_daily_activity := db_daily_activity db |}.

(** The body of [POST /api/etfs] as the page's form sends it: a JSON object
    in which each field is a string or missing.  (A body that is not JSON,
    or a field holding another kind of value, is outside this record; the
    handler's [catch] answers such requests with 500.) *)
Record EtfPostBody : Type := mkEtfPostBody {
  ep_symbol : option string;
  ep_name : option string;
  ep_category : option string
}.

(** A string that is present and not empty (the truthy ones). *)
Definition present (x : option string) : option string :=
  match x with
  | Some EmptyString => None
  | other => other
  end.

Section EtfRoute.

(** [String.prototype.toUpperCase]. *)
Variable toUpperCase : string -> string.

(** [INSERT INTO etfs ...]: [rowid] is the id SQLite gives the new row.  The
    [symbol] column is UNIQUE, so a symbol that is already stored makes the
    statement raise ([None]). *)
Definition addETF (db : Db) (rowid : Z) (symbol name category : string)
    : option (Db * Z) :=
  let yahooSymbol := (symbol ++ ".NS")%string in
  match getETFBySymbol db (toUpperCase symbol) with
  | Some _ => None
  | None =>
      Some (set_etfs db (db_etfs db
                         ++ [mkEtfRow rowid (toUpperCase symbol) yahooSymbol name category]),
            rowid)
  end.

(** [POST /api/etfs] *)
Definition etfs_POST (db : Db) (rowid : Z) (body : EtfPostBody) : Outcome :=
  match present (ep_symbol body), present (ep_name body), present (ep_category body) with
  | Some symbol, Some name, Some category =>
      match getETFBySymbol db (toUpperCase symbol) with
      | Some existing =>
          mkOutcome db
            (Failure ("ETF with symbol " ++ symbol ++ " already exists")%string 409) []
      | None =>
          match addETF db rowid symbol name category with
          | Some (db1, id) => mkOutcome db1 (Created id) []
          | None => mkOutcome db (Failure "Failed to add ETF" 500) []
          end
      end
  | _, _, _ =>
      mkOutcome db (Failure "symbol, name, and category are required" 400) []
  end.

End EtfRoute.

(** ** Refreshing the market data (the market data route) *)

(** A row of [market_data], keyed by its UNIQUE [etf_id]; [updated_at] is
    left out. *)
Record MarketDataRow : Type := mkMarketDataRow {
  mr_cmp : Js.num;
  mr_high_52w : Js.num;
  mr_low_52w : Js.num;
  mr_prev_close : Js.num;
  mr_change_amount : Js.num;
  mr_change_percent : Js.num;
  mr_volume : Js.num;
  mr_dma_20 : option Js.num;
  mr_dma_distance : option Js.num
}.

(** [x || null] *)
Definition orNull (x : Js.num) : option Js.num :=
  if Js.truthy x then Some x else None.

(** [INSERT INTO market_data ... ON CONFLICT(etf_id) DO UPDATE SET ...] *)
Definition upsertMarketData (market : gmap Z MarketDataRow) (etfId : Z)
    (cmp high52w low52w prevClose change changePercent volume dma20 dmaDistance : Js.num)
    : gmap Z MarketDataRow :=
  <[etfId := mkMarketDataRow cmp high52w low52w prevClose change changePercent volume
                             (orNull dma20) (orNull dmaDistance)]> market.

(** The counters of a refresh. *)
Record RefreshResults : Type := mkRefreshResults {
  rr_success : nat;
  rr_failed : nat;
  rr_errors : list string
}.

(** What [GET] does for one instrument once its answer has arrived. *)
Definition refreshETF (db : Db) (market : gmap Z MarketDataRow) (results : RefreshResults)
    (etf : EtfRow) (answer : option ChartResult)
    : gmap Z MarketDataRow * RefreshResults :=
  match fetchYahooFinanceDataWith20DMA (er_yahoo_symbol etf) answer with
  | Some data =>
      match getETFBySymbol db (md_symbol data) with
      | Some etfRecord =>
          (upsertMarketData market (er_id etfRecord) (md_cmp data) (md_high52w data)
                            (md_low52w data) (md_prevClose data) (md_change data)
                            (md_changePercent data) (md_volume data) (md_dma20 data)
                            (md_dmaDistance data),
           mkRefreshResults (S (rr_success results)) (rr_failed results)
                            (rr_errors results))
      | None => (market, results)
      end
  | None =>
      (market,
       mkRefreshResults (rr_success results) (S (rr_failed results))
                        (rr_errors results ++ [er_symbol etf]))
  end.

(** Upper case for the letters a to z. *)
Definition upper_ascii (c : ascii) : ascii :=
  let n := nat_of_ascii c in
  if ((97 <=? n) && (n <=? 122))%nat then ascii_of_nat (n - 32) else c.

Fixpoint upper_case (s : string) : string :=
  match s with
  | EmptyString => EmptyString
  | String c rest => String (upper_ascii c) (upper_case rest)
  end.

(** Lower case for the letters A to Z. *)
Definition lower_ascii (c : ascii) : ascii :=
  let n := nat_of_ascii c in
  if ((65 <=? n) && (n <=? 90))%nat then ascii_of_nat (n + 32) else c.

Fixpoint lower_case (s : string) : string :=
  match s with
  | EmptyString => EmptyString
  | String c rest => String (lower_ascii c) (lower_case rest)
  end.

(** The sample settings with an averaging threshold of 2.5%. *)
Definition threshold_settings : Settings :=
  {| profitTargetPercent := Js.Fin 6; minProfitAmount := Js.Fin 500;
     perTransactionAmount := Js.Fin 10000; totalCapital := Js.Fin 500000;
     minVolume := None; averagingThreshold := Some (Js.Fin 2.5);
     maxDailyBuys := None; maxDailySells := None |}.

(** The oldest and the newest sample lot in the store, the instrument
    quoted at 50. *)
Definition two_lot_store : StoreState :=
  {| st_etfs := [quoted_etf]; st_holdings := [lot1; lot3]; st_trades := [];
     st_capitalTransactions := []; st_settings := sample_settings |}.

(** A quote of 95 after a close of 100, with nothing else. *)
Definition sample_answer : ChartResult :=
  {| meta := Some (mkChartMeta (Some 95) (Some 100) None); indicators := None |}.

(** ** The XIRR page *)

Record XirrPage : Type := mkXirrPage {
  xp_cashFlows : list CashFlow;
  xp_currentPortfolioValue : Js.num;
  xp_xirr : Js.num;
  xp_totalInvested : Js.num;
  xp_totalReturned : Js.num;
  xp_absoluteProfit : Js.num;
  xp_absoluteReturn : Js.num
}.

Definition is_INVESTMENT (cf : CashFlow) : bool :=
  match cf_type cf with INVESTMENT => true | _ => false end.

Definition is_RETURN (cf : CashFlow) : bool :=
  match cf_type cf with RETURN => true | _ => false end.

Section XirrPageData.

Variable getTime : string -> Js.num.
Variable now : Js.num.
Variable Math_pow : Js.num -> Js.num -> Js.num.

Definition byDate (a b : CashFlow) : Js.num :=
  (getTime (cf_date a) - getTime (cf_date b))%js.

(** The cash flows [fetchData] builds from the holdings and the trades. *)
Definition pageCashFlows (holdingsData : list Holding) (tradesData : list Trade)
    : list CashFlow :=
  let flows :=
    map (fun h => mkCashFlow (buyDate h) (buyPrice h * quantity h)%js INVESTMENT)
        holdingsData
    ++ map (fun t => mkCashFlow (t_buyDate t) (t_buyPrice t * t_quantity t)%js INVESTMENT)
           tradesData
    ++ map (fun t => mkCashFlow (t_sellDate t)
                                (t_buyPrice t * t_quantity t + profit t)%js RETURN)
           tradesData in
  js_sort byDate flows.

Definition xirrPage (holdings : list Holding) (trades : list Trade) : XirrPage :=
  let cashFlows := pageCashFlows holdings trades in
  let currentPortfolioValue :=
    fold_left (fun sum h => (sum + buyPrice h * quantity h)%js) holdings (Js.Fin 0) in
  let xirr := calculateXIRR getTime now Math_pow cashFlows currentPortfolioValue in
  let totalInvested :=
    fold_left (fun sum cf => (sum + cf_amount cf)%js)
              (List.filter is_INVESTMENT cashFlows) (Js.Fin 0) in
  let totalReturned :=
    fold_left (fun sum cf => (sum + cf_amount cf)%js)
              (List.filter is_RETURN cashFlows) (Js.Fin 0) in
  let absoluteProfit := (totalReturned + currentPortfolioValue - totalInvested)%js in
  let absoluteReturn :=
    if Js.gtb totalInvested (Js.Fin 0)
    then (absoluteProfit / totalInvested * Js.Fin 100)%js
    else Js.Fin 0 in
  {| xp_cashFlows := cashFlows;
     xp_currentPortfolioValue := currentPortfolioValue;
     xp_xirr := xirr;
     xp_totalInvested := totalInvested;
     xp_totalReturned := totalReturned;
     xp_absoluteProfit := absoluteProfit;
     xp_absoluteReturn := absoluteReturn |}.

End XirrPageData.

(** ** The instrument list page *)

(** An instrument as the list page receives it: the fields the list filter
    reads.  [cmp] is [null] until a quote has been stored. *)
Record ListedETF : Type := mkListedETF {
  le_symbol : string;
  le_name : string;
  le_category : string;
  le_cmp : option Js.num
}.

(** [text.includes(pattern)] *)
Fixpoint includes (text pattern : string) : bool :=
  match startsWith pattern text with
  | Some _ => true
  | None =>
      match text with
      | EmptyString => false
      | String _ rest => includes rest pattern
      end
  end.

Section EtfList.

(** [String.prototype.toLowerCase]. *)
Variable toLowerCase : string -> string.

(** The search text, the chosen category, the settings (null until loaded)
    and the holdings of the page. *)
Variable filter : string.
Variable categoryFilter : string.
Variable settings : option Settings.
Variable holdings : list Holding.

Definition holdingsMap : gmap string (list Holding) :=
  fold_left
    (fun (holdingsMap : gmap string (list Holding)) h =>
       let list := default [] (holdingsMap !! etfSymbol h) in
       <[etfSymbol h := list ++ [h]]> holdingsMap)
    holdings ∅.

(** The predicate of [etfs.filter(...)]. *)
Definition listed (etf : ListedETF) : bool :=
  let matchesSearch :=
    includes (toLowerCase (le_symbol etf)) (toLowerCase filter)
    || includes (toLowerCase (le_name etf)) (toLowerCase filter) in
  let matchesCategory :=
    String.eqb categoryFilter "All" || String.eqb (le_category etf) categoryFilter in
  if negb matchesSearch || negb matchesCategory then false
  else
    match holdingsMap !! le_symbol etf, settings ≫= averagingThreshold, le_cmp etf with
    | Some (latestHolding :: _), Some averagingThreshold, Some cmp =>
        if Js.truthy averagingThreshold && Js.truthy cmp
        then
          let lastBuyPrice := buyPrice latestHolding in
          let dropPercent := ((lastBuyPrice - cmp) / lastBuyPrice * Js.Fin 100)%js in
          if Js.ltb dropPercent averagingThreshold then false else true
        else true
    | _, _, _ => true
    end.

Definition filteredETFs (etfs : list ListedETF) : list ListedETF :=
  List.filter listed etfs.

End EtfList.

(** ** Selling a lot from the holdings page *)

(** [`${n}`] for an integer [n]: its decimal digits, with a minus sign for a
    negative one. *)
Definition digit_char (d : Z) : ascii := ascii_of_nat (48 + Z.to_nat d).

Fixpoint decimal (fuel : nat) (n : Z) (rest : string) : string :=
  let rest' := String (digit_char (n mod 10)) rest in
  match fuel with
  | O => rest'
  | S fuel' => if (n <? 10)%Z then rest' else decimal fuel' (n / 10) rest'
  end.

Definition Number_toString (n : Z) : string :=
  if (n <? 0)%Z
  then String "-" (decimal (Z.to_nat (- n)) (- n) EmptyString)
  else decimal (Z.to_nat n) n EmptyString.

(** [response.ok] *)
Definition ok (r : Response) : bool :=
  match r with
  | Failure _ _ => false
  | _ => true
  end.

(** [data.error || fallback] for the body of an answer. *)
Definition errorOr (r : Response) (fallback : string) : string :=
  match r with
  | Failure EmptyString _ => fallback
  | Failure error _ => error
  | _ => fallback
  end.

Section HoldingsPage.

Variable getTime : string -> Js.num.
(** [new Date().toISOString().split('T')[0]] *)
Variable today : string.

Definition sellRequest (holding : Holding) (sellPrice : Js.num) : TradePostBody :=
  {| tp_etfSymbol := etfSymbol holding;
     tp_buyDate := buyDate holding;
     tp_sellDate := today;
     tp_buyPrice := buyPrice holding;
     tp_sellPrice := sellPrice;
     tp_quantity := quantity holding |}.

(** [executeSell]: the database after it and what [alert] showed, if
    anything.  [sellPrice] comes from the sell dialog as a finite number. *)
Definition executeSell (db : Db) (holdingToSell : option Holding) (sellPrice : Q)
    : Db * option string :=
  match holdingToSell with
  | None => (db, None)
  | Some holdingToSell =>
      let tradeRes := trades_POST getTime db (sellRequest holdingToSell (Js.Fin sellPrice)) in
      if negb (ok (out_response tradeRes))
      then (out_db tradeRes, Some (errorOr (out_response tradeRes) "Failed to record trade"))
      else
        let deleteRes :=
          holdings_DELETE (out_db tradeRes)
                          (Some (Number_toString (h_id holdingToSell))) in
        (out_db deleteRes,
         if negb (ok (out_response deleteRes))
         then Some "Trade recorded but failed to delete holding. Please delete manually."
         else None)
  end.

(** [handleSell] of the earlier holdings page; [sellPrice] is what [prompt]
    returned.  A price that does not parse to a finite number is sent as
    [null]: the insert then violates NOT NULL and the request changes
    nothing.  Neither answer is looked at. *)
Definition handleSell (db : Db) (holding : Holding) (sellPrice : option string) : Db :=
  match sellPrice with
  | None | Some EmptyString => db
  | Some sellPrice =>
      let price := ParseFloat.parse sellPrice in
      let db1 :=
        if Js.is_finite price
        then out_db (trades_POST getTime db (sellRequest holding price))
        else db in
      out_db (holdings_DELETE db1 (Some (Number_toString (h_id holding))))
  end.

End HoldingsPage.

(** ** The quantity suggested when a price is typed (holdings page) *)

(** [handlePriceChange]: the quantity it fills in, if it fills one in;
    [settings] is null until loaded. *)
Definition handlePriceChange (settings : option Settings) (newPrice : string)
    : option Js.num :=
  match newPrice, settings with
  | String _ _, Some settings =>
      if negb (isNaN (ParseFloat.parse newPrice))
         && Js.truthy (perTransactionAmount settings)
      then
        let priceVal := ParseFloat.parse newPrice in
        if Js.gtb priceVal (Js.Fin 0)
        then
          let qty := Math_floor (perTransactionAmount settings / priceVal)%js in
          Some (if Js.gtb qty (Js.Fin 0) then qty else Js.Fin 1)
        else None
      else None
  | _, _ => None
  end.

(** ** The holdings page: calculated lots and sell candidates *)

Record HoldingWithCalc : Type := mkHoldingWithCalc {
  wc_holding : Holding;
  wc_avgPrice : Js.num;
  wc_targetPrice : Js.num;
  wc_notionalPL : Js.num;
  wc_notionalPLPercent : Js.num
}.

Record SellCandidate : Type := mkSellCandidate {
  sc_holding : HoldingWithCalc;
  sc_underlyingAsset : string;
  sc_currentValue : Js.num;
  sc_profit : Js.num;
  sc_profitPercent : Js.num
}.

(** [groupedByETF] of [fetchData]: the holdings under their symbol. *)
Definition pageGroupedByETF (holdingsData : list Holding) : gmap string (list Holding) :=
  fold_left
    (fun (groupedByETF : gmap string (list Holding)) h =>
       <[etfSymbol h := default [] (groupedByETF !! etfSymbol h) ++ [h]]> groupedByETF)
    holdingsData ∅.

Definition withCalc (groupedByETF : gmap string (list Holding)) (settingsData : Settings)
    (h : Holding) : HoldingWithCalc :=
  let etfHoldings := default [] (groupedByETF !! etfSymbol h) in
  let avgPrice := calculateAveragePrice etfHoldings in
  let totalQty := fold_left (fun sum x => (sum + quantity x)%js) etfHoldings (Js.Fin 0) in
  let targetPrice := calculateTargetPrice avgPrice totalQty settingsData in
  let notionalPL := ((buyPrice h - avgPrice) * quantity h)%js in
  let notionalPLPercent :=
    if Js.gtb avgPrice (Js.Fin 0)
    then ((buyPrice h - avgPrice) / avgPrice * Js.Fin 100)%js
    else Js.Fin 0 in
  {| wc_holding := h;
     wc_avgPrice := avgPrice;
     wc_targetPrice := targetPrice;
     wc_notionalPL := notionalPL;
     wc_notionalPLPercent := notionalPLPercent |}.

Definition holdingsWithCalc (settingsData : Settings) (holdingsData : list Holding)
    : list HoldingWithCalc :=
  map (withCalc (pageGroupedByETF holdingsData) settingsData) holdingsData.

(** [etfs.find(e => e.symbol === h.etfSymbol)] *)
Definition etfDataOf (etfs : list ListedETF) (h : HoldingWithCalc) : option ListedETF :=
  find (fun e => String.eqb (le_symbol e) (etfSymbol (wc_holding h))) etfs.

(** The predicate of the filter: the quote has reached the target price. *)
Definition isSellCandidate (etfs : list ListedETF) (h : HoldingWithCalc) : bool :=
  match etfDataOf etfs h ≫= le_cmp with
  | Some cmp => if Js.truthy cmp then Js.geb cmp (wc_targetPrice h) else false
  | None => false
  end.

Definition sellCandidates (etfs : list ListedETF) (holdings : list HoldingWithCalc)
    : list SellCandidate :=
  map (fun h =>
         let etfData := etfDataOf etfs h in
         let cmp := Js.or_else (default Js.NaN (etfData ≫= le_cmp)) (Js.Fin 0) in
         {| sc_holding := h;
            sc_underlyingAsset :=
              match etfData with
              | Some e => match le_category e with
                          | EmptyString => "Unknown"
                          | category => category
                          end
              | None => "Unknown"
              end;
            sc_currentValue := (cmp * quantity (wc_holding h))%js;
            sc_profit := ((cmp - buyPrice (wc_holding h)) * quantity (wc_holding h))%js;
            sc_profitPercent :=
              ((cmp - buyPrice (wc_holding h)) / buyPrice (wc_holding h) * Js.Fin 100)%js |})
      (List.filter (isSellCandidate etfs) holdings).

(** ** Whole amounts

    A non-negative whole number; sums of such amounts up to 2^53 carry no
    rounding in the code's double-precision numbers. *)
Definition wholeAmount (a : Js.num) : Prop :=
  exists z : Z, (0 <= z)%Z /\ a = Js.Fin (inject_Z z).

Definition exactBound : Js.num := Js.Fin 9007199254740992.

(** A lot with a whole price in [lo, hi] and a whole positive quantity. *)
Definition wholeLot (lo hi : Z) (h : Holding) : Prop :=
  exists p x : Z,
    buyPrice h = Js.Fin (inject_Z p) /\ quantity h = Js.Fin (inject_Z x)
    /\ (0 < x)%Z /\ (lo <= p)%Z /\ (p <= hi)%Z.

(** A lot whose price and quantity are whole and not negative. *)
Definition wholeCost (h : Holding) : Prop :=
  exists p q : Z,
    buyPrice h = Js.Fin (inject_Z p) /\ quantity h = Js.Fin (inject_Z q)
    /\ (0 <= p)%Z /\ (0 <= q)%Z.

(** A trade whose purchase price, quantity and profit are whole, with
    proceeds (cost plus profit) that are not negative. *)
Definition wholeTrade (t : Trade) : Prop :=
  exists p q r : Z,
    t_buyPrice t = Js.Fin (inject_Z p) /\ t_quantity t = Js.Fin (inject_Z q)
    /\ profit t = Js.Fin (inject_Z r)
    /\ (0 <= p)%Z /\ (0 <= q)%Z /\ (0 <= p * q + r)%Z.

(** * Properties *)

(** ** Facts about the number model *)

Lemma Qltb_lt (x y : Q) : Js.Qltb x y = true <-> x < y.
Proof.
  unfold Js.Qltb. rewrite negb_true_iff.
  destruct (Qle_bool y x) eqn:E.
  - apply Qle_bool_iff in E. split; [discriminate | intros H; exfalso; lra].
  - split; [intros _ | reflexivity].
    apply Qnot_le_lt. intros H. apply Qle_bool_iff in H. congruence.
Qed.

Lemma Qltb_ge (x y : Q) : Js.Qltb x y = false <-> y <= x.
Proof.
  unfold Js.Qltb. rewrite negb_false_iff. apply Qle_bool_iff.
Qed.

Lemma Qleb_le (x y : Q) : Js.Qleb x y = true <-> x <= y.
Proof. apply Qle_bool_iff. Qed.

Lemma Qleb_gt (x y : Q) : Js.Qleb x y = false <-> y < x.
Proof.
  unfold Js.Qleb. destruct (Qle_bool x y) eqn:E.
  - apply Qle_bool_iff in E. split; [discriminate | intros H; exfalso; lra].
  - split; [intros _ | reflexivity].
    apply Qnot_le_lt. intros H. apply Qle_bool_iff in H. congruence.
Qed.

Lemma Qeqb_eq (x y : Q) : Js.Qeqb x y = true <-> x == y.
Proof. apply Qeq_bool_iff. Qed.

Lemma Qeqb_neq (x y : Q) : Js.Qeqb x y = false <-> ~ x == y.
Proof.
  unfold Js.Qeqb. destruct (Qeq_bool x y) eqn:E.
  - apply Qeq_bool_iff in E. split; [discriminate | tauto].
  - split; [intros _ H | reflexivity]. apply Qeq_bool_iff in H. congruence.
Qed.

#[export] Instance eqv_equiv : Equivalence Js.eqv.
Proof.
  split.
  - intros [x| | |]; simpl; auto. reflexivity.
  - intros [x| | |] [y| | |]; simpl; auto. intros H; symmetry; exact H.
  - intros [x| | |] [y| | |] [z| | |]; simpl; auto; try tauto.
    intros H1 H2; etransitivity; eauto.
Qed.

(** ** Dynamic profit target *)

(** C1 (as amended): [getDynamicProfitTarget] scales the base target by 0.52
    above 90% utilisation, 0.67 above 80%, 0.83 above 70% and leaves it
    unchanged otherwise, every boundary being exclusive.  At exactly 90% the
    first branch is not taken and the second one is: the target for a base of
    6 is the product 6 x 0.67 (4.02 before rounding), while 91% gives the
    product 6 x 0.52 and 50% gives 6. *)
Theorem getDynamicProfitTarget_scaling :
  (forall (b : Js.num) (u : Q),
      (90 < u -> getDynamicProfitTarget b u = (b * Js.Fin 0.52)%js) /\
      (80 < u /\ u <= 90 -> getDynamicProfitTarget b u = (b * Js.Fin 0.67)%js) /\
      (70 < u /\ u <= 80 -> getDynamicProfitTarget b u = (b * Js.Fin 0.83)%js) /\
      (u <= 70 -> getDynamicProfitTarget b u = b)) /\
  getDynamicProfitTarget (Js.Fin 6) (Js.Fin 91) = (Js.Fin 6 * Js.Fin 0.52)%js /\
  getDynamicProfitTarget (Js.Fin 6) (Js.Fin 90) = (Js.Fin 6 * Js.Fin 0.67)%js /\
  getDynamicProfitTarget (Js.Fin 6) (Js.Fin 50) = Js.Fin 6.
Proof.
  split; [| split; [| split]]; try reflexivity.
  intros b u. unfold getDynamicProfitTarget, Js.gtb. cbn [Js.ltb].
  destruct (Js.Qltb 90 u) eqn:E90; destruct (Js.Qltb 80 u) eqn:E80;
    destruct (Js.Qltb 70 u) eqn:E70;
    repeat match goal with
           | H : Js.Qltb _ _ = true |- _ => apply Qltb_lt in H
           | H : Js.Qltb _ _ = false |- _ => apply Qltb_ge in H
           end;
    repeat split; intros; try reflexivity; exfalso; lra.
Qed.

(** C1 (as stated) fails at the boundary: at exactly 90% utilisation the
    target for a base of 6 is not 6. *)
Lemma getDynamicProfitTarget_at_90_not_base :
  ~ getDynamicProfitTarget (Js.Fin 6) (Js.Fin 90) ==n Js.Fin 6.
Proof. vm_compute. discriminate. Qed.

(** One utilisation in each band, for a base target of 6. *)
Lemma getDynamicProfitTarget_scaling_witness :
  getDynamicProfitTarget (Js.Fin 6) (Js.Fin 91) = (Js.Fin 6 * Js.Fin 0.52)%js /\
  getDynamicProfitTarget (Js.Fin 6) (Js.Fin 85) = (Js.Fin 6 * Js.Fin 0.67)%js /\
  getDynamicProfitTarget (Js.Fin 6) (Js.Fin 75) = (Js.Fin 6 * Js.Fin 0.83)%js /\
  getDynamicProfitTarget (Js.Fin 6) (Js.Fin 70) = Js.Fin 6.
Proof.
  pose proof (proj1 getDynamicProfitTarget_scaling (Js.Fin 6)) as H.
  split; [| split; [| split]].
  - apply (H 91). reflexivity.
  - apply (H 85). split; [reflexivity | discriminate].
  - apply (H 75). split; [reflexivity | discriminate].
  - apply (H 70). discriminate.
Defined.

(** ** Target price *)

Lemma div_finite (x y : Q) : ~ y == 0 -> (Js.Fin x / Js.Fin y)%js = Js.Fin (x / y).
Proof.
  intros H. unfold Js.div. apply Qeqb_neq in H. rewrite H. reflexivity.
Qed.

Lemma percent_candidate_ge (avg p : Q) :
  0 <= avg -> 0 <= p -> avg <= avg * (1 + p / 100).
Proof.
  intros Ha Hp.
  assert (H : 0 <= avg * (p / 100)).
  { apply Qmult_le_0_compat; [exact Ha |]. apply Qle_shift_div_l; lra. }
  lra.
Qed.

(** C7, as the claim states it, fails for a non-negative but infinite
    percentage target: with an average price of 0 the percentage candidate
    is 0 x Infinity = NaN, so the target price is NaN, and NaN is not at
    least 0. *)
Lemma calculateTargetPrice_infinite_percent :
  let s := {| profitTargetPercent := Js.PInf; minProfitAmount := Js.Fin 0;
              perTransactionAmount := Js.Fin 10000; totalCapital := Js.Fin 500000;
              minVolume := None; averagingThreshold := None;
              maxDailyBuys := None; maxDailySells := None |} in
  Js.gtb (Js.Fin 1) (Js.Fin 0) = true
  /\ Js.geb (profitTargetPercent s) (Js.Fin 0) = true
  /\ Js.geb (minProfitAmount s) (Js.Fin 0) = true
  /\ calculateTargetPrice (Js.Fin 0) (Js.Fin 1) s = Js.NaN
  /\ Js.geb (calculateTargetPrice (Js.Fin 0) (Js.Fin 1) s) (Js.Fin 0) = false.
Proof.
  cbv zeta. repeat split; reflexivity.
Qed.

(** C7 (amended): for a finite average price that is not negative, a finite
    positive quantity and finite, non-negative percentage target and profit
    floor, [calculateTargetPrice] is the larger of avg x (1 + pct/100) and
    (avg x qty + minProfit) / qty; the percentage candidate is at least the
    average price, and so is the target price. *)
Theorem calculateTargetPrice_ge_avg (avg qty p m : Q) (s : Settings) :
  0 <= avg -> 0 < qty -> 0 <= p -> 0 <= m ->
  profitTargetPercent s = Js.Fin p ->
  minProfitAmount s = Js.Fin m ->
  calculateTargetPrice (Js.Fin avg) (Js.Fin qty) s
  = Js.max (Js.Fin avg * (Js.Fin 1 + Js.Fin p / Js.Fin 100))%js
           ((Js.Fin avg * Js.Fin qty + Js.Fin m) / Js.Fin qty)%js
  /\ Js.geb (Js.Fin avg * (Js.Fin 1 + Js.Fin p / Js.Fin 100))%js (Js.Fin avg) = true
  /\ Js.geb (calculateTargetPrice (Js.Fin avg) (Js.Fin qty) s) (Js.Fin avg) = true.
Proof.
  intros Ha Hq Hp Hm Hs1 Hs2.
  assert (E : calculateTargetPrice (Js.Fin avg) (Js.Fin qty) s
              = Js.max (Js.Fin avg * (Js.Fin 1 + Js.Fin p / Js.Fin 100))%js
                       ((Js.Fin avg * Js.Fin qty + Js.Fin m) / Js.Fin qty)%js).
  { unfold calculateTargetPrice. rewrite Hs1, Hs2. reflexivity. }
  split; [exact E |].
  rewrite E. rewrite (div_finite p 100) by discriminate.
  cbn [Js.add Js.mul].
  rewrite div_finite by (intros H; rewrite H in Hq; discriminate).
  pose proof (percent_candidate_ge avg p Ha Hp) as Hc.
  split.
  - unfold Js.geb. cbn [Js.leb]. apply Qleb_le. exact Hc.
  - unfold Js.geb, Js.max.
    cbn [Js.ltb]. destruct (Js.Qltb _ _) eqn:L; cbn [Js.leb]; apply Qleb_le.
    + apply Qltb_lt in L. lra.
    + exact Hc.
Qed.

(** An average price of 100 over 10 units with the default settings. *)
Lemma calculateTargetPrice_ge_avg_witness :
  calculateTargetPrice (Js.Fin 100) (Js.Fin 10) sample_settings
  = Js.max (Js.Fin 100 * (Js.Fin 1 + Js.Fin 6 / Js.Fin 100))%js
           ((Js.Fin 100 * Js.Fin 10 + Js.Fin 500) / Js.Fin 10)%js
  /\ Js.geb (Js.Fin 100 * (Js.Fin 1 + Js.Fin 6 / Js.Fin 100))%js (Js.Fin 100) = true
  /\ Js.geb (calculateTargetPrice (Js.Fin 100) (Js.Fin 10) sample_settings)
            (Js.Fin 100) = true.
Proof.
  apply (calculateTargetPrice_ge_avg 100 10 6 500 sample_settings);
    try reflexivity; discriminate.
Defined.

(** ** Sorting *)

Section JsSortFacts.

Context {A : Type}.
Variable cmp : A -> A -> Js.num.

Lemma sort_insert_perm (x : A) (l : list A) :
  Permutation (sort_insert cmp x l) (x :: l).
Proof.
  induction l as [| y l IH]; cbn [sort_insert].
  - reflexivity.
  - destruct (Js.gtb (cmp x y) (Js.Fin 0)).
    + transitivity (y :: x :: l); [apply perm_skip; exact IH | apply perm_swap].
    + reflexivity.
Qed.

Lemma js_sort_perm (l : list A) : Permutation (js_sort cmp l) l.
Proof.
  induction l as [| x l IH]; simpl.
  - reflexivity.
  - transitivity (x :: js_sort cmp l);
      [apply sort_insert_perm | apply perm_skip; exact IH].
Qed.

(** The comparator is the difference of a numeric key, as in
    [(a, b) => key(a) - key(b)]. *)
Variable key : A -> Js.num.
Hypothesis cmp_key : forall a b, cmp a b = (key a - key b)%js.

Lemma cmp_positive (a b : A) (ta tb : Q) :
  key a = Js.Fin ta -> key b = Js.Fin tb ->
  Js.gtb (cmp a b) (Js.Fin 0) = Js.Qltb tb ta.
Proof.
  intros Ha Hb. rewrite cmp_key, Ha, Hb. unfold Js.gtb. cbn.
  destruct (Js.Qltb tb ta) eqn:E.
  - apply Qltb_lt in E. apply Qltb_lt. lra.
  - apply Qltb_ge in E. apply Qltb_ge. lra.
Qed.

Lemma key_le_trans (a b c : A) :
  key_le key a b -> key_le key b c -> key_le key a c.
Proof.
  unfold key_le.
  destruct (key a) as [x| | |], (key b) as [y| | |], (key c) as [z| | |];
    cbn; try congruence.
  rewrite !Qleb_le. intros; lra.
Qed.

Lemma sort_insert_sorted (x : A) (l : list A) :
  Js.is_finite (key x) = true ->
  Forall (fun a => Js.is_finite (key a) = true) l ->
  StronglySorted (key_le key) l ->
  StronglySorted (key_le key) (sort_insert cmp x l).
Proof.
  intros Hx Hl Hs. induction Hs as [| y l Hs IH Hy]; cbn [sort_insert].
  - repeat constructor.
  - inversion Hl as [| ? ? Hfy Hl']; subst.
    destruct (key x) as [tx| | |] eqn:Ex; try discriminate.
    destruct (key y) as [ty| | |] eqn:Ey; try discriminate.
    rewrite (cmp_positive x y tx ty Ex Ey).
    destruct (Js.Qltb ty tx) eqn:E.
    + apply Qltb_lt in E. constructor; [apply IH; assumption |].
      apply (Permutation_Forall (x := x :: l)).
      * symmetry. apply sort_insert_perm.
      * constructor; [| exact Hy].
        unfold key_le. rewrite Ex, Ey. cbn. apply Qleb_le. lra.
    + apply Qltb_ge in E.
      assert (Hxy : key_le key x y).
      { unfold key_le. rewrite Ex, Ey. cbn. apply Qleb_le. exact E. }
      constructor; [constructor; assumption |].
      constructor; [exact Hxy |].
      eapply List.Forall_impl; [| exact Hy].
      intros a Ha. eapply key_le_trans; eauto.
Qed.

Lemma js_sort_sorted (l : list A) :
  Forall (fun a => Js.is_finite (key a) = true) l ->
  StronglySorted (key_le key) (js_sort cmp l).
Proof.
  induction 1 as [| x l Hx Hl IH]; simpl.
  - constructor.
  - apply sort_insert_sorted; [exact Hx | | exact IH].
    apply (Permutation_Forall (x := l)); [symmetry; apply js_sort_perm | exact Hl].
Qed.

End JsSortFacts.

(** Two sorted arrangements of the same elements coincide when the order
    separates different elements. *)
Lemma sorted_perm_unique {A : Type} (R : A -> A -> Prop) (l1 l2 : list A) :
  StronglySorted R l1 -> StronglySorted R l2 -> Permutation l1 l2 ->
  (forall a b, In a l1 -> In b l1 -> R a b -> R b a -> a = b) ->
  l1 = l2.
Proof.
  intros H1. revert l2.
  induction H1 as [| a1 t1 Hs1 IH Hall1]; intros l2 H2 HP Hanti.
  - apply Permutation_nil in HP. congruence.
  - destruct H2 as [| a2 t2 Hs2 Hall2].
    + symmetry in HP. apply Permutation_nil in HP. discriminate.
    + assert (Heq : a1 = a2).
      { assert (In1 : In a1 (a2 :: t2))
          by (eapply Permutation_in; [exact HP | left; reflexivity]).
        assert (In2 : In a2 (a1 :: t1))
          by (eapply Permutation_in; [symmetry; exact HP | left; reflexivity]).
        destruct In1 as [E | In1]; [congruence |].
        destruct In2 as [E | In2]; [congruence |].
        rewrite List.Forall_forall in Hall1, Hall2.
        apply Hanti; [left; reflexivity | right; exact In2 | auto | auto]. }
      subst a2. f_equal.
      apply IH; [exact Hs2 | eapply Permutation_cons_inv; exact HP |].
      intros a b Ha Hb. apply Hanti; right; assumption.
Qed.

(** ** Lot matching *)

Lemma leb_antisym (a b : Js.num) :
  Js.leb a b = true -> Js.leb b a = true -> Js.eqb a b = true.
Proof.
  destruct a as [x| | |], b as [y| | |]; cbn; try congruence.
  rewrite !Qleb_le, Qeqb_eq. intros; lra.
Qed.

(** The loop only ever appends to the two output arrays. *)
Lemma consume_acc (l : list Holding) :
  forall (q : Js.num) (sold : list SoldHolding) (rem : list Holding),
    consume l q sold rem
    = mkSellResult (sold ++ soldHoldings (consume l q [] []))
                   (rem ++ remaining (consume l q [] [])).
Proof.
  induction l as [| h l IH]; intros q sold rem; cbn [consume].
  - cbn. rewrite !app_nil_r. reflexivity.
  - destruct (Js.leb q (Js.Fin 0)); [| destruct (Js.leb (quantity h) q)].
    + rewrite (IH q sold (rem ++ [h])), (IH q [] ([] ++ [h])). cbn.
      rewrite <- app_assoc. reflexivity.
    + rewrite (IH _ (sold ++ _) rem), (IH _ ([] ++ _) []). cbn.
      rewrite <- app_assoc. reflexivity.
    + rewrite (IH _ (sold ++ _) (rem ++ _)), (IH _ ([] ++ _) ([] ++ _)). cbn.
      rewrite <- !app_assoc. reflexivity.
Qed.

(** Once nothing is left to sell, the loop moves every lot to [remaining]. *)
Lemma consume_exhausted (l : list Holding) (q : Js.num) :
  Js.leb q (Js.Fin 0) = true ->
  consume l q [] [] = mkSellResult [] l.
Proof.
  intros Hq. induction l as [| h l IH]; cbn [consume].
  - reflexivity.
  - rewrite Hq, consume_acc, IH. reflexivity.
Qed.

(** The loop of [sellFIFO] follows the matching rule on the list it is given. *)
Lemma consume_matches (l : list Holding) :
  forall q : Js.num,
    Matches l q (soldHoldings (consume l q [] [])) (remaining (consume l q [] [])).
Proof.
  induction l as [| h l IH]; intros q.
  - constructor.
  - cbn [consume].
    destruct (Js.leb q (Js.Fin 0)) eqn:E0; [| destruct (Js.leb (quantity h) q) eqn:Eq].
    + rewrite consume_acc, consume_exhausted by exact E0. cbn.
      apply Matches_exhausted. exact E0.
    + rewrite consume_acc. cbn. apply Matches_whole; auto.
    + rewrite consume_acc, consume_exhausted by reflexivity. cbn.
      apply Matches_split; assumption.
Qed.

(** The matching rule determines the outcome. *)
Lemma Matches_functional (l : list Holding) (q : Js.num)
    (sold : list SoldHolding) (rest : list Holding) :
  Matches l q sold rest ->
  sold = soldHoldings (consume l q [] []) /\ rest = remaining (consume l q [] []).
Proof.
  induction 1 as [q | lots q Hq | h lots q sold rest H0 Hq HM IH | h lots q H0 Hq].
  - split; reflexivity.
  - rewrite consume_exhausted by exact Hq. split; reflexivity.
  - cbn [consume]. rewrite H0, Hq, consume_acc. cbn.
    destruct IH as [-> ->]. split; reflexivity.
  - cbn [consume]. rewrite H0, Hq, consume_acc, consume_exhausted by reflexivity.
    split; reflexivity.
Qed.

Lemma totalUnits_cons (h : Holding) (l : list Holding) :
  totalUnits (h :: l) = unitsOf (quantity h) + totalUnits l.
Proof. reflexivity. Qed.

Lemma totalSold_cons (s : SoldHolding) (l : list SoldHolding) :
  totalSold (s :: l) = unitsOf (quantitySold s) + totalSold l.
Proof. reflexivity. Qed.

Lemma positiveLots_total (l : list Holding) :
  positiveLots l -> 0 <= totalUnits l /\ (totalUnits l <= 0 -> l = []).
Proof.
  induction 1 as [| h l (x & Hx & Hpos) Hl [IH0 IH1]].
  - split; [cbn; lra | reflexivity].
  - rewrite totalUnits_cons, Hx. cbn [unitsOf].
    split; [lra | intros; exfalso; lra].
Qed.

(** What is sold and what is left add up, and the sale stops at the requested
    quantity or when the lots run out. *)
Lemma Matches_totals (l : list Holding) (qn : Js.num)
    (sold : list SoldHolding) (rest : list Holding) :
  Matches l qn sold rest ->
  forall q : Q, qn = Js.Fin q -> positiveLots l ->
    totalUnits rest == totalUnits l - totalSold sold
    /\ (q <= 0 -> totalSold sold == 0 /\ rest = l)
    /\ (0 <= q -> q <= totalUnits l -> totalSold sold == q)
    /\ (totalUnits l <= q -> totalSold sold == totalUnits l /\ rest = []).
Proof.
  induction 1 as [qn | lots qn Hq | h lots qn sold rest H0 Hq HM IH | h lots qn H0 Hq];
    intros q -> Hpos.
  - cbn. repeat split; intros; try reflexivity; lra.
  - cbn in Hq. apply Qleb_le in Hq.
    destruct (positiveLots_total lots Hpos) as [Hnn Hnil].
    change (totalSold []) with 0.
    split; [lra |]. split; [intros; split; reflexivity |].
    split; [intros; lra |]. intros Hle. split; [lra |]. apply Hnil. lra.
  - inversion Hpos as [| ? ? (x & Hx & Hxpos) Hpos']; subst.
    rewrite Hx in *. cbn in H0, Hq. apply Qleb_gt in H0. apply Qleb_le in Hq.
    destruct (IH (q + - x) eq_refl Hpos') as (Hsum & _ & Hmid & Hall).
    destruct (positiveLots_total lots Hpos') as [Hnn _].
    rewrite totalUnits_cons, totalSold_cons, Hx. cbn [quantitySold unitsOf].
    split; [lra |]. split; [intros; exfalso; lra |]. split.
    + intros _ Hle. rewrite Hmid; lra.
    + intros Hle. destruct Hall as [Hs ->]; [lra |]. split; [lra | reflexivity].
  - inversion Hpos as [| ? ? (x & Hx & Hxpos) Hpos']; subst.
    rewrite Hx in *. cbn in H0, Hq. apply Qleb_gt in H0. apply Qleb_gt in Hq.
    destruct (positiveLots_total lots Hpos') as [Hnn _].
    rewrite !totalUnits_cons, totalSold_cons, Hx.
    cbn [quantitySold unitsOf with_quantity quantity Js.sub Js.add Js.neg].
    change (totalSold []) with 0.
    split; [lra |]. split; [intros; exfalso; lra |]. split.
    + intros; lra.
    + intros; exfalso; lra.
Qed.

Lemma totalUnits_perm (l l' : list Holding) :
  Permutation l l' -> totalUnits l == totalUnits l'.
Proof.
  induction 1 as [| h l l' HP IH | h h' l | l l' l'' HP IH HP' IH'].
  - reflexivity.
  - rewrite !totalUnits_cons, IH. reflexivity.
  - rewrite !totalUnits_cons. ring.
  - rewrite IH. exact IH'.
Qed.

Section LotMatchingFacts.

Variable getTime : string -> Js.num.

Lemma sellFIFO_sorted (hs : list Holding) :
  validDates getTime hs ->
  StronglySorted (oldestFirst getTime) (js_sort (byBuyDate getTime) hs).
Proof.
  intros Hv.
  apply (js_sort_sorted (byBuyDate getTime) (fun h => getTime (buyDate h)));
    [reflexivity | exact Hv].
Qed.

Lemma sellFIFO_sort_unique (hs hs' : list Holding) :
  Permutation hs hs' -> validDates getTime hs -> distinctDates getTime hs ->
  js_sort (byBuyDate getTime) hs = js_sort (byBuyDate getTime) hs'.
Proof.
  intros HP Hv Hd.
  assert (Hv' : validDates getTime hs') by (eapply Permutation_Forall; eauto).
  apply (sorted_perm_unique (oldestFirst getTime)).
  - apply sellFIFO_sorted; assumption.
  - apply sellFIFO_sorted; assumption.
  - transitivity hs; [apply js_sort_perm |].
    transitivity hs'; [exact HP | symmetry; apply js_sort_perm].
  - intros a b Ha Hb Hab Hba.
    apply Hd.
    + eapply Permutation_in; [apply js_sort_perm | exact Ha].
    + eapply Permutation_in; [apply js_sort_perm | exact Hb].
    + apply leb_antisym; assumption.
Qed.

End LotMatchingFacts.

(** C4: [sellFIFO] orders the candidate lots by purchase date ascending (a
    permutation of its input, sorted oldest first) and consumes them in that
    order by the matching rule: whole lots while the quantity still to sell
    covers them, then one split lot, then nothing.  For lots of positive
    quantity the units sold are the requested quantity (all units when more
    is requested, none for a request of 0 or less) and the units left are
    the rest.  Selling 15 from three lots of 10 consumes the oldest in full
    and 5 of the middle one, leaving the middle lot at 5 and the newest at
    10. *)
Theorem sellFIFO_oldest_first :
  (forall (getTime : string -> Js.num) (hs : list Holding) (q : Js.num),
      validDates getTime hs ->
      let sorted := js_sort (byBuyDate getTime) hs in
      let r := sellFIFO getTime hs q in
      Permutation sorted hs
      /\ StronglySorted (oldestFirst getTime) sorted
      /\ Matches sorted q (soldHoldings r) (remaining r))
  /\ (forall (getTime : string -> Js.num) (hs : list Holding) (q : Q),
      positiveLots hs ->
      let sorted := js_sort (byBuyDate getTime) hs in
      let r := sellFIFO getTime hs (Js.Fin q) in
      totalUnits (remaining r) == totalUnits hs - totalSold (soldHoldings r)
      /\ (q <= 0 -> soldHoldings r = [] /\ remaining r = sorted)
      /\ (0 <= q -> q <= totalUnits hs -> totalSold (soldHoldings r) == q)
      /\ (totalUnits hs <= q ->
          totalSold (soldHoldings r) == totalUnits hs /\ remaining r = []))
  /\ sellFIFO IsoDate.getTime [lot1; lot2; lot3] (Js.Fin 15)
     = {| soldHoldings := [mkSold lot1 (Js.Fin 10); mkSold lot2 (Js.Fin 5)];
          remaining := [with_quantity lot2 (Js.Fin 5); lot3] |}.
Proof.
  split; [| split].
  - intros getTime hs q Hv sorted r. split; [| split].
    + apply js_sort_perm.
    + apply sellFIFO_sorted. exact Hv.
    + apply consume_matches.
  - intros getTime hs q Hpos sorted r. subst r. unfold sellFIFO. fold sorted.
    assert (HP : Permutation sorted hs) by apply js_sort_perm.
    assert (Hpos' : positiveLots sorted)
      by (eapply Permutation_Forall; [symmetry; exact HP | exact Hpos]).
    destruct (Matches_totals sorted (Js.Fin q) _ _ (consume_matches sorted (Js.Fin q))
                q eq_refl Hpos') as (Hsum & _ & Hmid & Hall).
    rewrite (totalUnits_perm _ _ HP) in Hsum, Hmid, Hall.
    split; [exact Hsum |]. split; [| split; assumption].
    intros Hq. rewrite consume_exhausted by (cbn; apply Qleb_le; exact Hq).
    split; reflexivity.
  - vm_compute. reflexivity.
Qed.

(** The sample lots hold ten units each. *)
Lemma sample_lots_positive : positiveLots [lot3; lot1; lot2].
Proof.
  repeat constructor; exists 10; split; reflexivity.
Defined.

(** The three sample lots listed out of order: selling 15, 30 and 0. *)
Lemma sellFIFO_oldest_first_witness :
  (let sorted := js_sort (byBuyDate IsoDate.getTime) [lot3; lot1; lot2] in
   let r := sellFIFO IsoDate.getTime [lot3; lot1; lot2] (Js.Fin 15) in
   Permutation sorted [lot3; lot1; lot2]
   /\ StronglySorted (oldestFirst IsoDate.getTime) sorted
   /\ Matches sorted (Js.Fin 15) (soldHoldings r) (remaining r))
  /\ totalSold (soldHoldings (sellFIFO IsoDate.getTime [lot3; lot1; lot2] (Js.Fin 15)))
     == 15
  /\ remaining (sellFIFO IsoDate.getTime [lot3; lot1; lot2] (Js.Fin 30)) = []
  /\ soldHoldings (sellFIFO IsoDate.getTime [lot3; lot1; lot2] (Js.Fin 0)) = [].
Proof.
  split; [| split; [| split]].
  - apply (proj1 sellFIFO_oldest_first IsoDate.getTime [lot3; lot1; lot2] (Js.Fin 15)).
    repeat constructor.
  - apply (proj1 (proj2 sellFIFO_oldest_first) IsoDate.getTime [lot3; lot1; lot2] 15
             sample_lots_positive); [discriminate | vm_compute; discriminate].
  - apply (proj1 (proj2 sellFIFO_oldest_first) IsoDate.getTime [lot3; lot1; lot2] 30
             sample_lots_positive). vm_compute; discriminate.
  - apply (proj1 (proj2 sellFIFO_oldest_first) IsoDate.getTime [lot3; lot1; lot2] 0
             sample_lots_positive). discriminate.
Defined.

(** *** The LIFO variant *)

Section SortNewestFirst.

Context {A : Type}.
Variable cmp : A -> A -> Js.num.
Variable key : A -> Js.num.
Hypothesis cmp_key : forall a b, cmp a b = (key a - key b)%js.

(** Descending order of the key. *)
Let key_ge (a b : A) : Prop := key_le key b a.

Lemma sort_insert_sorted_desc (x : A) (l : list A) :
  Js.is_finite (key x) = true ->
  Forall (fun a => Js.is_finite (key a) = true) l ->
  StronglySorted key_ge l ->
  StronglySorted key_ge (sort_insert (fun a b => cmp b a) x l).
Proof.
  intros Hx Hl Hs. induction Hs as [| y l Hs IH Hy]; cbn [sort_insert].
  - repeat constructor.
  - inversion Hl as [| ? ? Hfy Hl']; subst.
    destruct (key x) as [tx| | |] eqn:Ex; try discriminate.
    destruct (key y) as [ty| | |] eqn:Ey; try discriminate.
    rewrite (cmp_positive cmp key cmp_key y x ty tx Ey Ex).
    destruct (Js.Qltb tx ty) eqn:E.
    + apply Qltb_lt in E. constructor; [apply IH; assumption |].
      apply (Permutation_Forall (x := x :: l)).
      * symmetry. apply sort_insert_perm.
      * constructor; [| exact Hy].
        unfold key_ge, key_le. rewrite Ex, Ey. cbn. apply Qleb_le. lra.
    + apply Qltb_ge in E.
      assert (Hxy : key_ge x y).
      { unfold key_ge, key_le. rewrite Ex, Ey. cbn. apply Qleb_le. exact E. }
      constructor; [constructor; assumption |].
      constructor; [exact Hxy |].
      eapply List.Forall_impl; [| exact Hy].
      intros a Ha. unfold key_ge in *. eapply key_le_trans; eauto.
Qed.

Lemma js_sort_sorted_desc (l : list A) :
  Forall (fun a => Js.is_finite (key a) = true) l ->
  StronglySorted (fun a b => key_le key b a) (js_sort (fun a b => cmp b a) l).
Proof.
  induction 1 as [| x l Hx Hl IH]; simpl.
  - constructor.
  - apply sort_insert_sorted_desc; [exact Hx | | exact IH].
    apply (Permutation_Forall (x := l)); [symmetry; apply js_sort_perm | exact Hl].
Qed.

End SortNewestFirst.

(** C2: the LIFO variant runs the matching rule of [sellFIFO] on the lots
    ordered newest first: the order it works on is a permutation of the
    given lots sorted by purchase date descending (for readable dates), and
    the lots are consumed in that order, whole lots while the quantity still
    to sell covers them, then one split lot, then nothing.  For lots of
    positive quantity the units sold are the requested quantity (all units
    when more is requested, none for a request of 0 or less).  Selling 15
    from three lots of 10 consumes the newest lot in full and 5 of the
    middle one, leaving the middle lot at 5 and the oldest untouched. *)
Theorem sellLIFO_newest_first :
  (forall (getTime : string -> Js.num) (hs : list Holding) (q : Js.num),
      validDates getTime hs ->
      let sorted := js_sort (byBuyDateReversed getTime) hs in
      let r := sellLIFO getTime hs q in
      Permutation sorted hs
      /\ StronglySorted (newestFirst getTime) sorted
      /\ Matches sorted q (soldHoldings r) (remaining r))
  /\ (forall (getTime : string -> Js.num) (hs : list Holding) (q : Q),
      positiveLots hs ->
      let sorted := js_sort (byBuyDateReversed getTime) hs in
      let r := sellLIFO getTime hs (Js.Fin q) in
      totalUnits (remaining r) == totalUnits hs - totalSold (soldHoldings r)
      /\ (q <= 0 -> soldHoldings r = [] /\ remaining r = sorted)
      /\ (0 <= q -> q <= totalUnits hs -> totalSold (soldHoldings r) == q)
      /\ (totalUnits hs <= q ->
          totalSold (soldHoldings r) == totalUnits hs /\ remaining r = []))
  /\ sellLIFO IsoDate.getTime [lot1; lot2; lot3] (Js.Fin 15)
     = {| soldHoldings := [mkSold lot3 (Js.Fin 10); mkSold lot2 (Js.Fin 5)];
          remaining := [with_quantity lot2 (Js.Fin 5); lot1] |}.
Proof.
  split; [| split].
  - intros getTime hs q Hv sorted r. split; [| split].
    + apply js_sort_perm.
    + apply (js_sort_sorted_desc (byBuyDate getTime) (fun h => getTime (buyDate h)));
        [reflexivity | exact Hv].
    + apply consume_matches.
  - intros getTime hs q Hpos sorted r. subst r. unfold sellLIFO. fold sorted.
    assert (HP : Permutation sorted hs) by apply js_sort_perm.
    assert (Hpos' : positiveLots sorted)
      by (eapply Permutation_Forall; [symmetry; exact HP | exact Hpos]).
    destruct (Matches_totals sorted (Js.Fin q) _ _ (consume_matches sorted (Js.Fin q))
                q eq_refl Hpos') as (Hsum & _ & Hmid & Hall).
    rewrite (totalUnits_perm _ _ HP) in Hsum, Hmid, Hall.
    split; [exact Hsum |]. split; [| split; assumption].
    intros Hq. rewrite consume_exhausted by (cbn; apply Qleb_le; exact Hq).
    split; reflexivity.
  - vm_compute. reflexivity.
Qed.

(** The three sample lots listed out of order: selling 15, 30 and 0. *)
Lemma sellLIFO_newest_first_witness :
  (let sorted := js_sort (byBuyDateReversed IsoDate.getTime) [lot3; lot1; lot2] in
   let r := sellLIFO IsoDate.getTime [lot3; lot1; lot2] (Js.Fin 15) in
   Permutation sorted [lot3; lot1; lot2]
   /\ StronglySorted (newestFirst IsoDate.getTime) sorted
   /\ Matches sorted (Js.Fin 15) (soldHoldings r) (remaining r))
  /\ totalSold (soldHoldings (sellLIFO IsoDate.getTime [lot3; lot1; lot2] (Js.Fin 15)))
     == 15
  /\ remaining (sellLIFO IsoDate.getTime [lot3; lot1; lot2] (Js.Fin 30)) = []
  /\ soldHoldings (sellLIFO IsoDate.getTime [lot3; lot1; lot2] (Js.Fin 0)) = [].
Proof.
  split; [| split; [| split]].
  - apply (proj1 sellLIFO_newest_first IsoDate.getTime [lot3; lot1; lot2] (Js.Fin 15)).
    repeat constructor.
  - apply (proj1 (proj2 sellLIFO_newest_first) IsoDate.getTime [lot3; lot1; lot2] 15
             sample_lots_positive); [discriminate | vm_compute; discriminate].
  - apply (proj1 (proj2 sellLIFO_newest_first) IsoDate.getTime [lot3; lot1; lot2] 30
             sample_lots_positive). vm_compute; discriminate.
  - apply (proj1 (proj2 sellLIFO_newest_first) IsoDate.getTime [lot3; lot1; lot2] 0
             sample_lots_positive). discriminate.
Defined.

(** ** XIRR *)

Section NewtonFacts.

Variables f f' : Js.num -> Js.num.

Lemma estimate_shift (k : nat) (rate : Js.num) :
  estimate f f' k (newtonStep f f' rate) = estimate f f' (S k) rate.
Proof. unfold estimate. rewrite Nat.iter_succ_r. reflexivity. Qed.

Lemma newton_run_value (fuel : nat) :
  forall rate, fst (fst (newton_run f f' fuel rate)) = newton f f' fuel rate.
Proof.
  induction fuel as [| fuel IH]; intros rate; cbn [newton newton_run].
  - reflexivity.
  - destruct (Js.ltb (Js.abs (f' rate)) (Js.Fin 1e-10)); [reflexivity |].
    destruct (Js.ltb _ (Js.Fin 1e-7)); [reflexivity |].
    rewrite <- IH. destruct (newton_run f f' fuel _) as [[r n] e]. reflexivity.
Qed.

Lemma newton_run_bound (fuel : nat) :
  forall rate, (snd (fst (newton_run f f' fuel rate)) <= fuel)%nat.
Proof.
  induction fuel as [| fuel IH]; intros rate; cbn [newton_run].
  - cbn. lia.
  - destruct (Js.ltb (Js.abs (f' rate)) (Js.Fin 1e-10)); [cbn; lia |].
    destruct (Js.ltb _ (Js.Fin 1e-7)); [cbn; lia |].
    specialize (IH (rate - f rate / f' rate)%js).
    destruct (newton_run f f' fuel _) as [[r n] e]. cbn in *. lia.
Qed.

(** What each exit of the loop returns, and that no exit test fired
    before. *)
Lemma newton_run_exit (fuel : nat) :
  forall rate r n e,
    newton_run f f' fuel rate = (r, n, e) ->
    match e with
    | IterationCap =>
        n = fuel
        /\ (forall j, (j < fuel)%nat -> keepsGoing f f' (estimate f f' j rate))
        /\ r = (estimate f f' fuel rate * Js.Fin 100)%js
    | FlatDerivative =>
        exists k, n = S k
          /\ (forall j, (j < k)%nat -> keepsGoing f f' (estimate f f' j rate))
          /\ Js.ltb (Js.abs (f' (estimate f f' k rate))) (Js.Fin 1e-10) = true
          /\ r = (estimate f f' k rate * Js.Fin 100)%js
    | Converged =>
        exists k, n = S k
          /\ (forall j, (j < k)%nat -> keepsGoing f f' (estimate f f' j rate))
          /\ Js.ltb (Js.abs (f' (estimate f f' k rate))) (Js.Fin 1e-10) = false
          /\ Js.ltb (Js.abs (estimate f f' (S k) rate - estimate f f' k rate))
                    (Js.Fin 1e-7) = true
          /\ r = (estimate f f' (S k) rate * Js.Fin 100)%js
    end.
Proof.
  induction fuel as [| fuel IH]; intros rate r n e; cbn [newton_run].
  - intros [= <- <- <-]. split; [reflexivity |]. split; [| reflexivity].
    intros j Hj. lia.
  - destruct (Js.ltb (Js.abs (f' rate)) (Js.Fin 1e-10)) eqn:Eflat.
    { intros [= <- <- <-]. exists O. split; [reflexivity |].
      split; [intros j Hj; lia |]. split; [exact Eflat | reflexivity]. }
    destruct (Js.ltb _ (Js.Fin 1e-7)) eqn:Econv.
    { intros [= <- <- <-]. exists O. split; [reflexivity |].
      split; [intros j Hj; lia |]. split; [exact Eflat |].
      split; [exact Econv | reflexivity]. }
    destruct (newton_run f f' fuel _) as [[r1 n1] e1] eqn:Erun.
    intros [= <- <- <-].
    specialize (IH _ _ _ _ Erun).
    change (rate - f rate / f' rate)%js with (newtonStep f f' rate) in IH, Econv.
    assert (Hgo : forall k,
               (forall j, (j < k)%nat ->
                  keepsGoing f f' (estimate f f' j (newtonStep f f' rate))) ->
               forall j, (j < S k)%nat -> keepsGoing f f' (estimate f f' j rate)).
    { intros k Hk [| j] Hj.
      - split; assumption.
      - rewrite <- estimate_shift. apply Hk. lia. }
    destruct e1.
    + destruct IH as (k & -> & Hk & H1 & H2 & ->).
      repeat rewrite estimate_shift in H1. repeat rewrite estimate_shift in H2.
      repeat rewrite estimate_shift. exists (S k).
      split; [reflexivity |]. split; [exact (Hgo k Hk) |].
      split; [exact H1 |]. split; [exact H2 | reflexivity].
    + destruct IH as (k & -> & Hk & H1 & ->).
      repeat rewrite estimate_shift in H1. repeat rewrite estimate_shift.
      exists (S k).
      split; [reflexivity |]. split; [exact (Hgo k Hk) |].
      split; [exact H1 | reflexivity].
    + destruct IH as (-> & Hk & ->). rewrite estimate_shift.
      split; [reflexivity |]. split; [exact (Hgo fuel Hk) | reflexivity].
Qed.

End NewtonFacts.

(** C5: [calculateXIRR] always returns.  Its loop body is entered at most 100
    times; with no cash flow of its own (fewer than two flows once the
    current value is appended) it answers 0 without entering the loop; when
    the derivative's magnitude is below 1e-10 it returns the current estimate
    without dividing; when 100 updates pass without convergence it returns
    the last estimate; on convergence it returns the new estimate.  Every
    result is the estimate times 100. *)
Theorem calculateXIRR_terminates
    (getTime : string -> Js.num) (now : Js.num)
    (Math_pow : Js.num -> Js.num -> Js.num)
    (cashFlows : list CashFlow) (currentValue : Js.num) :
  exists (n : nat) (e : option XirrExit),
    calculateXIRR_run getTime now Math_pow cashFlows currentValue
    = (calculateXIRR getTime now Math_pow cashFlows currentValue, n, e)
    /\ (n <= 100)%nat
    /\ ((length cashFlows + 1 < 2)%nat ->
        n = O /\ e = None
        /\ calculateXIRR getTime now Math_pow cashFlows currentValue = Js.Fin 0)
    /\ (forall (first : Flow) (rest : list Flow),
          buildFlows getTime now cashFlows currentValue = first :: rest ->
          let allFlows := first :: rest in
          let f := npv Math_pow allFlows (f_time first) in
          let f' := npvDerivative Math_pow allFlows (f_time first) in
          let result := calculateXIRR getTime now Math_pow cashFlows currentValue in
          match e with
          | None => n = O /\ result = Js.Fin 0
          | Some IterationCap =>
              n = 100%nat
              /\ (forall j, (j < 100)%nat ->
                    keepsGoing f f' (estimate f f' j (Js.Fin 0.1)))
              /\ result = (estimate f f' 100 (Js.Fin 0.1) * Js.Fin 100)%js
          | Some FlatDerivative =>
              exists k, n = S k
                /\ (forall j, (j < k)%nat ->
                      keepsGoing f f' (estimate f f' j (Js.Fin 0.1)))
                /\ Js.ltb (Js.abs (f' (estimate f f' k (Js.Fin 0.1)))) (Js.Fin 1e-10) = true
                /\ result = (estimate f f' k (Js.Fin 0.1) * Js.Fin 100)%js
          | Some Converged =>
              exists k, n = S k
                /\ (forall j, (j < k)%nat ->
                      keepsGoing f f' (estimate f f' j (Js.Fin 0.1)))
                /\ Js.ltb (Js.abs (f' (estimate f f' k (Js.Fin 0.1)))) (Js.Fin 1e-10) = false
                /\ Js.ltb (Js.abs (estimate f f' (S k) (Js.Fin 0.1)
                                   - estimate f f' k (Js.Fin 0.1))) (Js.Fin 1e-7) = true
                /\ result = (estimate f f' (S k) (Js.Fin 0.1) * Js.Fin 100)%js
          end).
Proof.
  destruct cashFlows as [| c cs].
  - exists O, None. cbn. repeat split; auto; lia.
  - unfold calculateXIRR_run, calculateXIRR.
    destruct (buildFlows getTime now (c :: cs) currentValue)
      as [| first [| second rest]] eqn:Eflows.
    + exists O, None. cbn. repeat split; auto; try lia; discriminate.
    + exists O, None. cbn. repeat split; auto; lia.
    + set (allFlows := first :: second :: rest).
      set (f := npv Math_pow allFlows (f_time first)).
      set (f' := npvDerivative Math_pow allFlows (f_time first)).
      pose proof (newton_run_value f f' 100 (Js.Fin 0.1)) as Hval.
      pose proof (newton_run_bound f f' 100 (Js.Fin 0.1)) as Hbound.
      pose proof (newton_run_exit f f' 100 (Js.Fin 0.1)) as Hexit.
      destruct (newton_run f f' 100 (Js.Fin 0.1)) as [[r n] e].
      cbn [fst snd] in Hval, Hbound. specialize (Hexit r n e eq_refl).
      exists n, (Some e). rewrite <- Hval.
      split; [reflexivity |]. split; [exact Hbound |].
      split; [cbn [length]; lia |].
      intros first' rest' [= <- <-]. cbv zeta. fold allFlows f f'.
      destruct e; exact Hexit.
Qed.

(** A run that leaves through the derivative guard: with every flow on the
    same day the derivative is 0, and the answer is the initial 10%. *)
Lemma calculateXIRR_terminates_witness :
  calculateXIRR_run IsoDate.getTime same_day_now pow_whole same_day_flows (Js.Fin 1100)
  = ((Js.Fin 0.1 * Js.Fin 100)%js, 1%nat, Some FlatDerivative)
  /\ exists (n : nat) (e : option XirrExit),
    calculateXIRR_run IsoDate.getTime same_day_now pow_whole [] (Js.Fin 1100)
    = (calculateXIRR IsoDate.getTime same_day_now pow_whole [] (Js.Fin 1100), n, e)
    /\ n = O /\ e = None
    /\ calculateXIRR IsoDate.getTime same_day_now pow_whole [] (Js.Fin 1100) = Js.Fin 0.
Proof.
  split; [vm_compute; reflexivity |].
  destruct (calculateXIRR_terminates IsoDate.getTime same_day_now pow_whole []
              (Js.Fin 1100)) as (n & e & Hrun & _ & Hfew & _).
  exists n, e. split; [exact Hrun |].
  apply Hfew. cbn. lia.
Defined.

(** ** Capital ledger *)

#[export] Instance add_proper : Proper (Js.eqv ==> Js.eqv ==> Js.eqv) Js.add.
Proof.
  intros [a| | |] [b| | |] Hab [c| | |] [d| | |] Hcd; cbn in *; try tauto.
  rewrite Hab, Hcd. reflexivity.
Qed.

#[export] Instance neg_proper : Proper (Js.eqv ==> Js.eqv) Js.neg.
Proof.
  intros [a| | |] [b| | |] Hab; cbn in *; try tauto.
  rewrite Hab. reflexivity.
Qed.

#[export] Instance sub_proper : Proper (Js.eqv ==> Js.eqv ==> Js.eqv) Js.sub.
Proof.
  intros a b Hab c d Hcd. unfold Js.sub. rewrite Hab, Hcd. reflexivity.
Qed.

Lemma add_assoc (a b c : Js.num) : (a + b + c)%js ==n (a + (b + c))%js.
Proof.
  destruct a as [x| | |], b as [y| | |], c as [z| | |]; cbn; try tauto.
  ring.
Qed.

Lemma add_0_l (a : Js.num) : (Js.Fin 0 + a)%js ==n a.
Proof. destruct a as [x| | |]; cbn; try tauto. ring. Qed.

Lemma add_0_r (a : Js.num) : (a + Js.Fin 0)%js ==n a.
Proof. destruct a as [x| | |]; cbn; try tauto. ring. Qed.

(** A running total started at [a] is [a] plus the total started at 0. *)
Lemma sum_from {A : Type} (g : A -> Js.num) (l : list A) :
  forall a : Js.num,
    fold_left (fun sum t => (sum + g t)%js) l a
    ==n (a + fold_left (fun sum t => (sum + g t)%js) l (Js.Fin 0))%js.
Proof.
  induction l as [| x l IH]; intros a; cbn [fold_left].
  - symmetry. apply add_0_r.
  - rewrite (IH (a + g x)%js), (IH (Js.Fin 0 + g x)%js).
    rewrite add_0_l, add_assoc. reflexivity.
Qed.

(** The loop of [getCapitalSummary] accumulates the two filtered sums. *)
Lemma capitalTotals_sums (txs : list CapitalTransaction) :
  forall additions withdrawals : Js.num,
    let totals :=
      fold_left
        (fun '(totalAdditions, totalWithdrawals) tx =>
           match ct_type tx with
           | ADD => ((totalAdditions + ct_amount tx)%js, totalWithdrawals)
           | WITHDRAW => (totalAdditions, (totalWithdrawals + ct_amount tx)%js)
           end)
        txs (additions, withdrawals) in
    fst totals ==n (additions + sumAmounts is_ADD txs)%js
    /\ snd totals ==n (withdrawals + sumAmounts is_WITHDRAW txs)%js.
Proof.
  induction txs as [| tx txs IH]; intros additions withdrawals; cbn [fold_left].
  - cbn. split; symmetry; apply add_0_r.
  - unfold sumAmounts, is_ADD, is_WITHDRAW in *. cbn [List.filter].
    destruct (ct_type tx); cbn [fold_left].
    + destruct (IH (additions + ct_amount tx)%js withdrawals) as [HA HW].
      split; [| exact HW].
      rewrite HA. rewrite (sum_from ct_amount _ (Js.Fin 0 + ct_amount tx)%js).
      rewrite add_0_l, add_assoc. reflexivity.
    + destruct (IH additions (withdrawals + ct_amount tx)%js) as [HA HW].
      split; [exact HA |].
      rewrite HW. rewrite (sum_from ct_amount _ (Js.Fin 0 + ct_amount tx)%js).
      rewrite add_0_l, add_assoc. reflexivity.
Qed.

Lemma leb_not_gtb (a b : Js.num) : Js.leb a b = true -> Js.gtb a b = false.
Proof.
  unfold Js.gtb. destruct a as [x| | |], b as [y| | |]; cbn; try congruence.
  rewrite Qleb_le, Qltb_ge. auto.
Qed.

Lemma fold_left_over_map {A B C : Type} (f : A -> C -> A) (g : B -> C) (l : list B) :
  forall a, fold_left f (map g l) a = fold_left (fun acc x => f acc (g x)) l a.
Proof.
  induction l as [| x l IH]; intros a; cbn; [reflexivity | apply IH].
Qed.

(** The loop of [getCapitalSummary] as two separate passes: the additions
    are added one by one onto the first accumulator, the withdrawals onto the
    second. *)
Lemma capitalTotals_folds (txs : list CapitalTransaction) :
  forall additions withdrawals : Js.num,
    fold_left
      (fun '(totalAdditions, totalWithdrawals) tx =>
         match ct_type tx with
         | ADD => ((totalAdditions + ct_amount tx)%js, totalWithdrawals)
         | WITHDRAW => (totalAdditions, (totalWithdrawals + ct_amount tx)%js)
         end)
      txs (additions, withdrawals)
    = (fold_left (fun sum t => (sum + ct_amount t)%js)
                 (List.filter is_ADD txs) additions,
       fold_left (fun sum t => (sum + ct_amount t)%js)
                 (List.filter is_WITHDRAW txs) withdrawals).
Proof.
  induction txs as [| tx txs IH]; intros additions withdrawals; cbn [fold_left List.filter].
  - reflexivity.
  - unfold is_ADD, is_WITHDRAW in *. destruct (ct_type tx); cbn [fold_left]; apply IH.
Qed.

(** C6: both computations of the capital summary (the capital page and the
    store's [getCapitalSummary]) give net capital = base capital + additions
    - withdrawals, available capital = net capital - invested value +
    realized profit, and used percent = invested / net x 100, which is 0 when
    net capital is not positive.  On the page the base capital is the
    settings' total capital (500000 while the settings are not loaded or
    their total capital is 0 or NaN).  In the store the additions are added
    one by one onto the settings' total capital; for whole amounts (with a
    total of at most 2^53) that is the settings' total capital plus the sum
    of the additions.  For base capital 500000, one addition of 50000, one
    withdrawal of 20000, 100000 invested and 5000 realized they give 530000,
    435000 and 18.87% (to two decimals); with 800000 in the settings the
    page's net capital is 830000. *)
Theorem capital_summary_formulas :
  (forall (txs : list CapitalTransaction) (settings : option Settings)
          (invested realized : Js.num),
      let t := capitalPageTotals txs settings invested realized in
      (forall s : Settings,
          settings = Some s -> Js.truthy (totalCapital s) = true ->
          cp_baseCapital t = totalCapital s)
      /\ (settings = None
          \/ (exists s : Settings,
                 settings = Some s /\ Js.truthy (totalCapital s) = false) ->
          cp_baseCapital t = Js.Fin 500000)
      /\ cp_netCapital t
         = (cp_baseCapital t + sumAmounts is_ADD txs - sumAmounts is_WITHDRAW txs)%js
      /\ cp_availableCapital t = (cp_netCapital t - invested + realized)%js
      /\ (Js.gtb (cp_netCapital t) (Js.Fin 0) = true ->
          cp_usedPercent t = (invested / cp_netCapital t * Js.Fin 100)%js)
      /\ (Js.leb (cp_netCapital t) (Js.Fin 0) = true ->
          cp_usedPercent t = Js.Fin 0))
  /\ (forall (getTime : string -> Js.num) (st : StoreState),
      let s := getCapitalSummary getTime st in
      cs_totalCapital s
      = (fold_left (fun sum t => (sum + ct_amount t)%js)
                   (List.filter is_ADD (st_capitalTransactions st))
                   (totalCapital (st_settings st))
         - sumAmounts is_WITHDRAW (st_capitalTransactions st))%js
      /\ (wholeAmount (totalCapital (st_settings st)) ->
          Forall (fun tx => wholeAmount (ct_amount tx)) (st_capitalTransactions st) ->
          Js.leb (totalCapital (st_settings st)
                  + sumAmounts (fun _ => true) (st_capitalTransactions st))%js
                 exactBound = true ->
          cs_totalCapital s
          ==n (totalCapital (st_settings st)
               + sumAmounts is_ADD (st_capitalTransactions st)
               - sumAmounts is_WITHDRAW (st_capitalTransactions st))%js)
      /\ cs_totalInvested s
         = fold_left (fun sum h => (sum + buyPrice h * quantity h)%js)
                     (st_holdings st) (Js.Fin 0)
      /\ cs_totalRealizedProfit s
         = fold_left (fun sum t => (sum + profit t)%js) (st_trades st) (Js.Fin 0)
      /\ cs_availableCapital s
         = (cs_totalCapital s - cs_totalInvested s + cs_totalRealizedProfit s)%js
      /\ (Js.gtb (cs_totalCapital s) (Js.Fin 0) = true ->
          cs_usedPercent s
          = (cs_totalInvested s / cs_totalCapital s * Js.Fin 100)%js)
      /\ (Js.leb (cs_totalCapital s) (Js.Fin 0) = true ->
          cs_usedPercent s = Js.Fin 0))
  /\ (let t := capitalPageTotals sample_transactions (Some sample_settings)
                                 (Js.Fin 100000) (Js.Fin 5000) in
      cp_baseCapital t = Js.Fin 500000
      /\ cp_netCapital t ==n Js.Fin 530000
      /\ cp_availableCapital t ==n Js.Fin 435000
      /\ (exists u : Q, cp_usedPercent t = Js.Fin u /\ Qabs (u - 18.87) < 0.005)
      /\ cp_netCapital
           (capitalPageTotals sample_transactions
              (Some {| profitTargetPercent := Js.Fin 6; minProfitAmount := Js.Fin 500;
                       perTransactionAmount := Js.Fin 10000;
                       totalCapital := Js.Fin 800000;
                       minVolume := None; averagingThreshold := None;
                       maxDailyBuys := None; maxDailySells := None |})
              (Js.Fin 100000) (Js.Fin 5000))
         ==n Js.Fin 830000)
  /\ (let s := getCapitalSummary IsoDate.getTime sample_store in
      cs_totalCapital s ==n Js.Fin 530000
      /\ cs_totalInvested s ==n Js.Fin 100000
      /\ cs_totalRealizedProfit s ==n Js.Fin 5000
      /\ cs_availableCapital s ==n Js.Fin 435000
      /\ exists u : Q, cs_usedPercent s = Js.Fin u /\ Qabs (u - 18.87) < 0.005).
Proof.
  split; [| split; [| split]].
  - intros txs settings invested realized t. subst t.
    unfold capitalPageTotals. cbn [cp_netCapital cp_baseCapital cp_availableCapital
                                   cp_usedPercent].
    split.
    { intros s -> Hs. unfold Js.or_else. rewrite Hs. reflexivity. }
    split.
    { intros [-> | (s & -> & Hs)]; [reflexivity |].
      unfold Js.or_else. rewrite Hs. reflexivity. }
    split; [reflexivity |]. split; [reflexivity |]. split.
    + intros ->. reflexivity.
    + intros H. rewrite (leb_not_gtb _ _ H). reflexivity.
  - intros getTime st s. subst s. unfold getCapitalSummary.
    pose proof (capitalTotals_sums (st_capitalTransactions st)
                  (totalCapital (st_settings st)) (Js.Fin 0)) as Hsums.
    pose proof (capitalTotals_folds (st_capitalTransactions st)
                  (totalCapital (st_settings st)) (Js.Fin 0)) as Hfolds.
    cbv zeta in Hsums.
    fold (capitalTotals (totalCapital (st_settings st))
                        (st_capitalTransactions st)) in Hsums, Hfolds.
    destruct (capitalTotals _ _) as [additions withdrawals].
    cbn [fst snd] in Hsums. destruct Hsums as [HA HW].
    injection Hfolds as EA EW.
    cbn [cs_totalCapital cs_totalInvested cs_totalRealizedProfit
         cs_availableCapital cs_usedPercent].
    split; [rewrite EA, EW; reflexivity |].
    split; [intros _ _ _; rewrite HA, HW, add_0_l; reflexivity |].
    split.
    { unfold getHoldingsWithCalculations. rewrite fold_left_over_map. reflexivity. }
    split; [reflexivity |]. split; [reflexivity |]. split.
    + intros ->. reflexivity.
    + intros H. rewrite (leb_not_gtb _ _ H). reflexivity.
  - cbv zeta. split; [reflexivity |].
    split; [vm_compute; reflexivity |]. split; [vm_compute; reflexivity |].
    split; [| vm_compute; reflexivity].
    eexists. split; [vm_compute; reflexivity |]. vm_compute. reflexivity.
  - cbv zeta. repeat (split; [vm_compute; reflexivity |]).
    eexists. split; [vm_compute; reflexivity |]. vm_compute. reflexivity.
Qed.

(** The sample ledger (its base capital read from the settings, its whole
    amounts), and a ledger whose withdrawals exceed the base capital. *)
Lemma capital_summary_formulas_witness :
  cp_baseCapital (capitalPageTotals sample_transactions (Some sample_settings)
                                    (Js.Fin 100000) (Js.Fin 5000))
  = totalCapital sample_settings
  /\ cp_usedPercent (capitalPageTotals sample_transactions (Some sample_settings)
                                       (Js.Fin 100000) (Js.Fin 5000))
     = (Js.Fin 100000
        / cp_netCapital (capitalPageTotals sample_transactions (Some sample_settings)
                                           (Js.Fin 100000) (Js.Fin 5000))
        * Js.Fin 100)%js
  /\ cs_totalCapital (getCapitalSummary IsoDate.getTime sample_store)
     ==n (totalCapital sample_settings + sumAmounts is_ADD sample_transactions
          - sumAmounts is_WITHDRAW sample_transactions)%js
  /\ cs_usedPercent
       (getCapitalSummary IsoDate.getTime
          {| st_etfs := []; st_holdings := [lot 1 "2024-01-10" 100 1000];
             st_trades := [];
             st_capitalTransactions :=
               [mkCapitalTransaction 1 WITHDRAW (Js.Fin 600000) "2024-01-05" None];
             st_settings := sample_settings |})
     = Js.Fin 0.
Proof.
  pose proof (proj1 capital_summary_formulas sample_transactions (Some sample_settings)
                (Js.Fin 100000) (Js.Fin 5000)) as Hpage.
  cbv zeta in Hpage. destruct Hpage as (Hbase & _ & _ & _ & Hused & _).
  split; [apply (Hbase sample_settings eq_refl); reflexivity |].
  split; [apply Hused; vm_compute; reflexivity |].
  split.
  - pose proof (proj1 (proj2 capital_summary_formulas) IsoDate.getTime sample_store)
      as Hstore.
    cbv zeta in Hstore. destruct Hstore as (_ & Hwhole & _).
    apply Hwhole.
    + exists 500000%Z. split; [lia | reflexivity].
    + repeat constructor; [exists 50000%Z | exists 20000%Z]; (split; [lia | reflexivity]).
    + vm_compute. reflexivity.
  - pose proof (proj1 (proj2 capital_summary_formulas) IsoDate.getTime
                  {| st_etfs := []; st_holdings := [lot 1 "2024-01-10" 100 1000];
                     st_trades := [];
                     st_capitalTransactions :=
                       [mkCapitalTransaction 1 WITHDRAW (Js.Fin 600000) "2024-01-05" None];
                     st_settings := sample_settings |}) as Hstore.
    cbv zeta in Hstore. destruct Hstore as (_ & _ & _ & _ & _ & _ & Hzero).
    apply Hzero. vm_compute. reflexivity.
Defined.

(** ** Notional P/L of a lot *)

Lemma percent_of_zero_price (cmp : Js.num) (z : Q) :
  z == 0 ->
  Js.is_finite ((cmp - Js.Fin z) / Js.Fin z * Js.Fin 100)%js = false.
Proof.
  intros Hz. apply Qeqb_eq in Hz.
  destruct cmp as [c| | |]; cbn; rewrite ?Hz; cbn.
  - destruct (Js.Qsgn (c + - z)); reflexivity.
  - destruct (Js.Qltb z 0); reflexivity.
  - destruct (Js.Qltb z 0); reflexivity.
  - reflexivity.
Qed.

(** The guard the sibling functions have. *)
Lemma distanceFromLow_zero_guarded (currentPrice : Js.num) (z : Q) :
  z == 0 ->
  distanceFromLow currentPrice (Js.Fin z) = Js.Fin 0
  /\ distanceFromHigh currentPrice (Js.Fin z) = Js.Fin 0.
Proof.
  intros Hz. apply Qeqb_eq in Hz. unfold distanceFromLow, distanceFromHigh.
  cbn [Js.eqb]. rewrite Hz. split; reflexivity.
Qed.

(** C8 (what the code does): [getHoldingsWithCalculations] divides by the
    purchase price without a guard.  For a lot whose purchase price is 0 the
    derived [notionalPLPercent] is never a finite number, in particular never
    0: it is an infinity when a different current price is known and NaN
    otherwise. *)
Theorem notionalPLPercent_zero_price_unguarded
    (getTime : string -> Js.num) (st : StoreState)
    (r : HoldingWithCalculations) (z : Q) :
  In r (getHoldingsWithCalculations getTime st) ->
  buyPrice (hc_holding r) = Js.Fin z ->
  z == 0 ->
  Js.is_finite (hc_notionalPLPercent r) = false.
Proof.
  intros Hin Hprice Hz. unfold getHoldingsWithCalculations in Hin.
  apply List.in_map_iff in Hin. destruct Hin as (h & <- & _).
  cbn in Hprice. cbn [hc_notionalPLPercent holdingCalculations].
  rewrite Hprice. apply percent_of_zero_price. exact Hz.
Qed.

(** The zero-priced lot with a market price of 50 and with none. *)
Lemma notionalPLPercent_zero_price_unguarded_witness :
  map hc_notionalPLPercent
      (getHoldingsWithCalculations IsoDate.getTime (free_lot_store [quoted_etf]))
  = [Js.PInf]
  /\ map hc_notionalPLPercent
         (getHoldingsWithCalculations IsoDate.getTime (free_lot_store []))
     = [Js.NaN]
  /\ Js.is_finite
       (hc_notionalPLPercent
          (holdingCalculations IsoDate.getTime [quoted_etf]
             (groupByETF [free_lot]) sample_settings free_lot)) = false.
Proof.
  split; [vm_compute; reflexivity |]. split; [vm_compute; reflexivity |].
  apply (notionalPLPercent_zero_price_unguarded IsoDate.getTime
           (free_lot_store [quoted_etf]) _ 0).
  - left. reflexivity.
  - reflexivity.
  - reflexivity.
Defined.

(** ** Editing a lot *)

(** C9 (what the code does): [PUT /api/holdings] stores the corrected price and
    quantity but not the corrected purchase date: [updateHolding] never
    writes [buy_date], so the stored date of every lot is what it was.  Lot 1
    of the sample database, corrected to 2024-01-15, keeps 2024-01-10. *)
Theorem holdings_PUT_keeps_buy_date :
  (forall (db : Db) (body : HoldingPutBody),
      out_response (holdings_PUT db body) = Success
      /\ db_holdings (out_db (holdings_PUT db body)) !! hu_id body
         = (fun r => mkHoldingRow (hr_etf_id r) (hr_buy_date r)
                                  (hu_buyPrice body) (hu_quantity body))
             <$> db_holdings db !! hu_id body
      /\ forall id : Z,
           hr_buy_date <$> db_holdings (out_db (holdings_PUT db body)) !! id
           = hr_buy_date <$> db_holdings db !! id)
  /\ db_holdings (out_db (holdings_PUT sample_db sample_edit)) !! 1%Z
     = Some (mkHoldingRow 1 "2024-01-10" (Js.Fin 101) (Js.Fin 12)).
Proof.
  split.
  - intros db body. unfold holdings_PUT, updateHolding. cbn.
    split; [reflexivity |]. split.
    + rewrite lookup_alter_eq. reflexivity.
    + intros id. destruct (decide (hu_id body = id)) as [<- | Hne].
      * rewrite lookup_alter_eq. destruct (db_holdings db !! hu_id body); reflexivity.
      * rewrite lookup_alter_ne by exact Hne. reflexivity.
  - vm_compute. reflexivity.
Qed.

(** ** Daily activity limits *)

Lemma incrementDailyBuy_lookup (db : Db) (date : string) :
  getDailyActivity (incrementDailyBuy db date) date
  = Some {| buy_count := buyCountOf (getDailyActivity db date) + 1;
            sell_count := sellCountOf (getDailyActivity db date) |}.
Proof.
  unfold getDailyActivity, incrementDailyBuy. cbn.
  destruct (db_daily_activity db !! date) as [a |]; rewrite lookup_insert_eq; reflexivity.
Qed.

Lemma incrementDailySell_lookup (db : Db) (date : string) :
  getDailyActivity (incrementDailySell db date) date
  = Some {| buy_count := buyCountOf (getDailyActivity db date);
            sell_count := sellCountOf (getDailyActivity db date) + 1 |}.
Proof.
  unfold getDailyActivity, incrementDailySell. cbn.
  destruct (db_daily_activity db !! date) as [a |]; rewrite lookup_insert_eq; reflexivity.
Qed.

(** C3: the daily caps are advisory.  Whatever the settings and whatever the
    counter of the day already is, a purchase (or a sale) of a known
    instrument whose row can be stored is answered with success, the row is
    stored, and the day's buy (sell) counter grows by exactly one.  The
    answer and the stored rows are the same for every settings table and
    every state of the counters; in particular the two failures of the
    handlers (404 for an unknown instrument, 500 for a row that the table
    refuses) do not depend on the cap.  With a cap of one per day, three
    purchases and three sales on one day all succeed and leave the counters
    at 3, the second and third purchase with a warning. *)
Theorem daily_limits_never_block :
  (forall (db : Db) (body : HoldingPostBody) (etf : EtfRow),
      getETFBySymbol db (hp_etfSymbol body) = Some etf ->
      isNaN (hp_buyPrice body) = false -> isNaN (hp_quantity body) = false ->
      let out := holdings_POST db body in
      let before := getDailyActivity db (hp_buyDate body) in
      out_response out = Created (db_holdings_seq db + 1)
      /\ db_holdings (out_db out) !! (db_holdings_seq db + 1)%Z
         = Some (mkHoldingRow (er_id etf) (hp_buyDate body) (hp_buyPrice body)
                              (hp_quantity body))
      /\ getDailyActivity (out_db out) (hp_buyDate body)
         = Some {| buy_count := buyCountOf before + 1;
                   sell_count := sellCountOf before |})
  /\ (forall (getTime : string -> Js.num) (db : Db) (body : TradePostBody)
             (etf : EtfRow),
      getETFBySymbol db (tp_etfSymbol body) = Some etf ->
      let row := tradeRow getTime (er_id etf) (tp_buyDate body) (tp_sellDate body)
                          (tp_buyPrice body) (tp_sellPrice body) (tp_quantity body) in
      let out := trades_POST getTime db body in
      let before := getDailyActivity db (tp_sellDate body) in
      (bindable row = true ->
       out_response out = Created (db_trades_seq db + 1)
       /\ db_trades (out_db out) !! (db_trades_seq db + 1)%Z = Some row
       /\ getDailyActivity (out_db out) (tp_sellDate body)
          = Some {| buy_count := buyCountOf before;
                    sell_count := sellCountOf before + 1 |})
      /\ (bindable row = false ->
          out_response out = Failure "Failed to add trade" 500 /\ out_db out = db))
  /\ (forall (getTime : string -> Js.num) (db : Db)
             (settings : gmap string string) (activity : gmap string DailyActivity)
             (buy : HoldingPostBody) (sell : TradePostBody),
      let db' := set_daily_activity (set_settings db settings) activity in
      out_response (holdings_POST db' buy) = out_response (holdings_POST db buy)
      /\ db_holdings (out_db (holdings_POST db' buy))
         = db_holdings (out_db (holdings_POST db buy))
      /\ out_response (trades_POST getTime db' sell)
         = out_response (trades_POST getTime db sell)
      /\ db_trades (out_db (trades_POST getTime db' sell))
         = db_trades (out_db (trades_POST getTime db sell)))
  /\ (maxDailyBuys (getSettings sample_db) = Some (Js.Fin 1)
      /\ maxDailySells (getSettings sample_db) = Some (Js.Fin 1)
      /\ map (fun n => holdings_POST (after_buys n sample_db sample_buy) sample_buy)
             [0%nat; 1%nat; 2%nat]
         = map (fun n =>
                  mkOutcome (after_buys (S n) sample_db sample_buy)
                            (Created (2 + Z.of_nat n))
                            (if (n =? 0)%nat then []
                             else [BuyLimitReached (Js.Fin 1) "2024-05-02"]))
               [0%nat; 1%nat; 2%nat]
      /\ getDailyActivity (after_buys 3 sample_db sample_buy) "2024-05-02"
         = Some {| buy_count := 3; sell_count := 0 |}
      /\ map (fun n => out_response
                         (trades_POST IsoDate.getTime
                            (after_sells IsoDate.getTime n sample_db sample_sell)
                            sample_sell))
             [0%nat; 1%nat; 2%nat]
         = [Created 1; Created 2; Created 3]
      /\ getDailyActivity (after_sells IsoDate.getTime 3 sample_db sample_sell)
                          "2024-05-02"
         = Some {| buy_count := 0; sell_count := 3 |}).
Proof.
  split; [| split; [| split]].
  - intros db body etf Hetf Hp Hq out before. subst out before.
    unfold holdings_POST. rewrite Hetf, Hp, Hq. cbn [orb addHolding out_response out_db].
    split; [reflexivity |]. split.
    + cbn. apply lookup_insert_eq.
    + rewrite incrementDailyBuy_lookup. reflexivity.
  - intros getTime db body etf Hetf row out before. subst out before.
    unfold trades_POST, addTrade. rewrite Hetf. fold row. split; intros Hrow; rewrite Hrow.
    + cbn [out_response out_db]. split; [reflexivity |]. split.
      * cbn. apply lookup_insert_eq.
      * rewrite incrementDailySell_lookup. reflexivity.
    + split; reflexivity.
  - intros getTime db settings activity buy sell db'. subst db'.
    unfold holdings_POST, trades_POST, addTrade.
    change (getETFBySymbol (set_daily_activity (set_settings db settings) activity))
      with (getETFBySymbol db).
    destruct (getETFBySymbol db (hp_etfSymbol buy));
      destruct (getETFBySymbol db (tp_etfSymbol sell));
      try destruct (isNaN (hp_buyPrice buy) || isNaN (hp_quantity buy));
      try destruct (bindable _); cbn;
      repeat split; reflexivity.
  - repeat split; vm_compute; reflexivity.
Qed.

(** The third purchase and the second sale of a day capped at one each. *)
Lemma daily_limits_never_block_witness :
  (out_response (holdings_POST (after_buys 2 sample_db sample_buy) sample_buy)
   = Created 4
   /\ limitReached (maxDailyBuys (getSettings (after_buys 2 sample_db sample_buy)))
                   (buyCountOf (getDailyActivity (after_buys 2 sample_db sample_buy)
                                                 "2024-05-02")) = true
   /\ getDailyActivity (after_buys 3 sample_db sample_buy) "2024-05-02"
      = Some {| buy_count := 2 + 1; sell_count := 0 |})
  /\ out_response
       (trades_POST IsoDate.getTime
          (after_sells IsoDate.getTime 1 sample_db sample_sell) sample_sell)
     = Created 2.
Proof.
  split.
  - destruct (proj1 daily_limits_never_block
                (after_buys 2 sample_db sample_buy) sample_buy
                (mkEtfRow 1 "NIFTYBEES" "NIFTYBEES.NS" "Nifty BeES" "Index")
                eq_refl eq_refl eq_refl) as (Hresp & _ & Hcount).
    split; [exact Hresp |]. split; [vm_compute; reflexivity |]. exact Hcount.
  - apply (proj1 (proj1 (proj2 daily_limits_never_block) IsoDate.getTime
                    (after_sells IsoDate.getTime 1 sample_db sample_sell) sample_sell
                    (mkEtfRow 1 "NIFTYBEES" "NIFTYBEES.NS" "Nifty BeES" "Index")
                    eq_refl)).
    vm_compute. reflexivity.
Defined.

(** ** Settings defaults *)

Lemma or_else_truthy (a d : Js.num) :
  Js.truthy d = true -> Js.truthy (Js.or_else a d) = true.
Proof.
  intros Hd. unfold Js.or_else. destruct (Js.truthy a) eqn:E; assumption.
Qed.

Lemma or_else_falsy (a d : Js.num) :
  Js.truthy a = false -> Js.or_else a d = d.
Proof. intros H. unfold Js.or_else. rewrite H. reflexivity. Qed.

Lemma truthy_not_zero (a : Js.num) :
  Js.truthy a = true -> Js.eqb a (Js.Fin 0) = false /\ a <> Js.NaN.
Proof.
  destruct a as [x| | |]; cbn; try (split; congruence).
  rewrite negb_true_iff. intros H. split; [exact H | discriminate].
Qed.

(** C10: every numeric field of [getSettings] is [parseFloat(stored) ||
    default], so the default replaces the stored value whenever that is
    absent or parses to NaN or to 0, and no field is ever 0 (or NaN).  A
    stored [min_profit_amount] of "0" is reported as 500 and a stored
    [profit_target_percent] of "0" as 6. *)
Theorem getSettings_never_zero :
  (forall db : Db,
      let s := getSettings db in
      usable (profitTargetPercent s) /\ usable (minProfitAmount s)
      /\ usable (perTransactionAmount s) /\ usable (totalCapital s)
      /\ (exists v, minVolume s = Some v /\ usable v)
      /\ (exists v, averagingThreshold s = Some v /\ usable v)
      /\ (exists v, maxDailyBuys s = Some v /\ usable v)
      /\ (exists v, maxDailySells s = Some v /\ usable v))
  /\ (forall db : Db,
      let s := getSettings db in
      profitTargetPercent s = reported db "profit_target_percent" (Js.Fin 6)
      /\ minProfitAmount s = reported db "min_profit_amount" (Js.Fin 500)
      /\ perTransactionAmount s = reported db "per_transaction_amount" (Js.Fin 10000)
      /\ totalCapital s = reported db "total_capital" (Js.Fin 500000)
      /\ minVolume s = Some (reported db "min_volume" (Js.Fin 15000))
      /\ averagingThreshold s = Some (reported db "averaging_threshold" (Js.Fin 2.5))
      /\ maxDailyBuys s = Some (reported db "max_daily_buys" (Js.Fin 1))
      /\ maxDailySells s = Some (reported db "max_daily_sells" (Js.Fin 1)))
  /\ (forall (db : Db) (key : string) (d : Js.num),
      (db_settings db !! key = None -> reported db key d = d)
      /\ (forall stored, db_settings db !! key = Some stored ->
            ParseFloat.parse stored = Js.NaN -> reported db key d = d)
      /\ (forall stored z, db_settings db !! key = Some stored ->
            ParseFloat.parse stored = Js.Fin z -> z == 0 -> reported db key d = d))
  /\ (db_settings zeroed_db !! "min_profit_amount" = Some "0"
      /\ db_settings zeroed_db !! "profit_target_percent" = Some "0"
      /\ ParseFloat.parse "0" = Js.Fin 0
      /\ minProfitAmount (getSettings zeroed_db) = Js.Fin 500
      /\ profitTargetPercent (getSettings zeroed_db) = Js.Fin 6).
Proof.
  split; [| split; [| split]].
  - intros db s. subst s. unfold getSettings.
    cbn [profitTargetPercent minProfitAmount perTransactionAmount totalCapital
         minVolume averagingThreshold maxDailyBuys maxDailySells].
    repeat match goal with
           | |- _ /\ _ => split
           | |- exists v, Some _ = Some v /\ _ => eexists; split; [reflexivity |]
           | |- usable _ => apply truthy_not_zero, or_else_truthy; reflexivity
           end.
  - intros db s. repeat split.
  - intros db key d. unfold reported. split; [| split].
    + intros ->. reflexivity.
    + intros stored -> Hnan. cbn. rewrite Hnan. reflexivity.
    + intros stored z -> Hz Hzero. cbn. rewrite Hz.
      apply or_else_falsy. cbn. apply Qeqb_eq in Hzero. rewrite Hzero. reflexivity.
  - repeat split; vm_compute; reflexivity.
Qed.

(** A stored "0", a missing row and a stored word each give the default. *)
Lemma getSettings_never_zero_witness :
  reported zeroed_db "min_profit_amount" (Js.Fin 500) = Js.Fin 500
  /\ reported (set_settings sample_db ∅) "total_capital" (Js.Fin 500000)
     = Js.Fin 500000
  /\ reported (set_settings sample_db {[ "min_volume" := "plenty" ]})
              "min_volume" (Js.Fin 15000)
     = Js.Fin 15000.
Proof.
  split; [| split].
  - apply (proj2 (proj2 (proj1 (proj2 (proj2 getSettings_never_zero))
                          zeroed_db "min_profit_amount" (Js.Fin 500)))
             "0" 0); reflexivity.
  - apply (proj1 (proj1 (proj2 (proj2 getSettings_never_zero))
                    (set_settings sample_db ∅) "total_capital" (Js.Fin 500000))).
    reflexivity.
  - apply (proj1 (proj2 (proj1 (proj2 (proj2 getSettings_never_zero))
                           (set_settings sample_db {[ "min_volume" := "plenty" ]})
                           "min_volume" (Js.Fin 15000)))
             "plenty"); reflexivity.
Defined.

(** * Further properties of the code *)

(** ** Average price *)

(** The two running sums of [calculateAveragePrice] over priced lots stay
    finite, and the value sum stays between [lo] and [hi] times the quantity
    sum. *)
Lemma average_sums (lo hi : Q) (hs : list Holding) :
  Forall (pricedWithin lo hi) hs ->
  forall v t : Q,
    lo * t <= v -> v <= hi * t -> 0 <= t ->
    exists v' t' : Q,
      fold_left (fun sum h => (sum + buyPrice h * quantity h)%js) hs (Js.Fin v)
      = Js.Fin v'
      /\ fold_left (fun sum h => (sum + quantity h)%js) hs (Js.Fin t) = Js.Fin t'
      /\ lo * t' <= v' /\ v' <= hi * t' /\ t <= t'
      /\ (hs <> [] -> t < t').
Proof.
  induction 1 as [| h hs (p & x & Hp & Hx & Hpos & Hlo & Hhi) Hall IH];
    intros v t Hv1 Hv2 Ht.
  - exists v, t. cbn.
    split; [reflexivity |]. split; [reflexivity |]. split; [assumption |].
    split; [assumption |]. split; [lra | congruence].
  - cbn [fold_left]. rewrite Hp, Hx. cbn [Js.mul Js.add].
    assert (H1 : lo * x <= p * x) by (apply Qmult_le_compat_r; lra).
    assert (H2 : p * x <= hi * x) by (apply Qmult_le_compat_r; lra).
    destruct (IH (v + p * x) (t + x)) as (v' & t' & Ev & Et & B1 & B2 & B3 & _);
      [ring_simplify; ring_simplify in H1; lra
      | ring_simplify; ring_simplify in H2; lra | lra |].
    exists v', t'.
    split; [assumption |]. split; [assumption |]. split; [assumption |].
    split; [assumption |]. split; [lra | intros _; lra].
Qed.

Lemma wholeLot_pricedWithin (lo hi : Z) (h : Holding) :
  wholeLot lo hi h -> pricedWithin (inject_Z lo) (inject_Z hi) h.
Proof.
  intros (p & x & Hp & Hx & Hpos & Hlo & Hhi).
  exists (inject_Z p), (inject_Z x).
  split; [exact Hp |]. split; [exact Hx |].
  split; [change 0 with (inject_Z 0); rewrite <- Zlt_Qlt; exact Hpos |].
  split; rewrite <- Zle_Qle; assumption.
Qed.

(** X1: for a non-empty group of lots with finite non-negative prices and
    positive quantities, [calculateAveragePrice] is a finite number that is
    not negative; for lots with whole prices and quantities (and a total
    value of at most 2^53) it lies between the lowest and the highest
    purchase price of the group, so it is the price itself when all lots
    have one price; for lots that all have quantity 0 it is 0 rather than a
    division by zero. *)
Theorem calculateAveragePrice_between (hs : list Holding) :
  (forall lo hi : Q,
      hs <> [] -> 0 <= lo -> Forall (pricedWithin lo hi) hs ->
      exists a : Q, calculateAveragePrice hs = Js.Fin a /\ 0 <= a)
  /\ (forall lo hi : Z,
        hs <> [] -> (0 <= lo)%Z -> Forall (wholeLot lo hi) hs ->
        Js.leb (fold_left (fun sum h => (sum + buyPrice h * quantity h)%js) hs (Js.Fin 0))
               exactBound = true ->
        exists a : Q,
          calculateAveragePrice hs = Js.Fin a /\ inject_Z lo <= a /\ a <= inject_Z hi)
  /\ (Forall (fun h => exists p : Q, buyPrice h = Js.Fin p /\ quantity h = Js.Fin 0) hs ->
      calculateAveragePrice hs = Js.Fin 0).
Proof.
  assert (Hbetween : forall lo hi : Q,
             hs <> [] -> Forall (pricedWithin lo hi) hs ->
             exists a : Q, calculateAveragePrice hs = Js.Fin a /\ lo <= a /\ a <= hi).
  { intros lo hi Hne Hall.
    destruct (average_sums lo hi hs Hall 0 0) as (v & t & Ev & Et & B1 & B2 & _ & Hpos);
      try lra.
    specialize (Hpos Hne).
    unfold calculateAveragePrice. destruct hs as [| h hs]; [congruence |].
    rewrite Ev, Et. unfold Js.gtb. cbn [Js.ltb].
    assert (Ht : Js.Qltb 0 t = true) by (apply Qltb_lt; exact Hpos).
    rewrite Ht. rewrite div_finite by lra.
    exists (v / t). split; [reflexivity |]. split.
    + apply Qle_shift_div_l; assumption.
    + apply Qle_shift_div_r; assumption. }
  split; [| split].
  - intros lo hi Hne Hlo Hall.
    destruct (Hbetween lo hi Hne Hall) as (a & Ea & B1 & _).
    exists a. split; [exact Ea | lra].
  - intros lo hi Hne _ Hall _.
    apply Hbetween; [exact Hne |].
    eapply Forall_impl; [exact Hall |]. intros h. apply wholeLot_pricedWithin.
  - intros Hzero. unfold calculateAveragePrice. destruct hs as [| h hs]; [reflexivity |].
    assert (E : forall l, Forall (fun h => exists p : Q,
                              buyPrice h = Js.Fin p /\ quantity h = Js.Fin 0) l ->
                forall t, t == 0 ->
                exists t', fold_left (fun sum h => (sum + quantity h)%js) l (Js.Fin t)
                           = Js.Fin t' /\ t' == 0).
    { induction 1 as [| h' l (p & _ & Hq) _ IH]; intros t Ht.
      - exists t. split; [reflexivity | exact Ht].
      - cbn [fold_left]. rewrite Hq. cbn [Js.add]. apply IH. rewrite Ht. reflexivity. }
    destruct (E (h :: hs) Hzero 0) as (t' & Et & Hz); [reflexivity |].
    rewrite Et. unfold Js.gtb. cbn [Js.ltb].
    assert (Hf : Js.Qltb 0 t' = false) by (apply Qltb_ge; rewrite Hz; lra).
    rewrite Hf. reflexivity.
Qed.

(** The three sample lots (prices 100 to 120), and two empty lots. *)
Lemma calculateAveragePrice_between_witness :
  (exists a : Q, calculateAveragePrice [lot1; lot2; lot3] = Js.Fin a
                 /\ 100 <= a /\ a <= 120)
  /\ calculateAveragePrice [lot 1 "2024-01-10" 100 0; lot 2 "2024-02-10" 110 0]
     = Js.Fin 0.
Proof.
  split.
  - apply (proj1 (proj2 (calculateAveragePrice_between [lot1; lot2; lot3]))
             100%Z 120%Z); [discriminate | lia | | reflexivity].
    repeat constructor.
    + exists 100%Z, 10%Z. repeat split; (reflexivity || lia).
    + exists 110%Z, 10%Z. repeat split; (reflexivity || lia).
    + exists 120%Z, 10%Z. repeat split; (reflexivity || lia).
  - apply (proj2 (proj2 (calculateAveragePrice_between _))).
    repeat constructor; eexists; split; reflexivity.
Defined.

(** ** Averaging and SIP signals *)

Lemma dropPercent_finite (l c : Q) :
  ~ l == 0 ->
  dropPercent (Js.Fin l) (Js.Fin c) = Js.Fin ((l + - c) / l * 100).
Proof.
  intros Hl. unfold dropPercent. cbn [Js.sub Js.neg Js.add].
  rewrite div_finite by exact Hl. reflexivity.
Qed.

Lemma drop_exceeds (l c k : Q) :
  0 < l -> (k < (l + - c) / l * 100 <-> c < (1 - k / 100) * l).
Proof.
  intros Hl.
  assert (Hy : (l + - c) / l * l == l - c) by (field; lra).
  remember ((l + - c) / l) as y eqn:Ey. clear Ey.
  assert (E : (1 - k / 100) * l == l - k * (1 # 100) * l) by field.
  pose proof (Qmult_lt_r (k * (1 # 100)) y l Hl) as Hmul.
  split; intros H.
  - assert (H' : k * (1 # 100) < y) by lra.
    apply Hmul in H'. lra.
  - assert (H' : k * (1 # 100) * l < y * l) by lra.
    apply Hmul in H'. lra.
Qed.

(** X2: a SIP recommendation always comes with an averaging recommendation.
    For a positive last purchase price, neither is recommended while the
    current price is at or above it; a fall of 6% or more is an averaging
    signal and one of 4% or less is not, a fall of 11% or more is a SIP
    signal and one of 9% or less is not (the thresholds themselves are 5%
    and 10% of the computed drop).  For a last purchase price of 0 and a
    non-negative current price neither is recommended. *)
Theorem averaging_signals :
  (forall last cur : Js.num,
      shouldSIP last cur = true -> shouldAverage last cur = true)
  /\ (forall l c : Q, 0 < l ->
        (l <= c ->
         shouldAverage (Js.Fin l) (Js.Fin c) = false
         /\ shouldSIP (Js.Fin l) (Js.Fin c) = false)
        /\ (c <= 0.94 * l -> shouldAverage (Js.Fin l) (Js.Fin c) = true)
        /\ (0.96 * l <= c -> shouldAverage (Js.Fin l) (Js.Fin c) = false)
        /\ (c <= 0.89 * l -> shouldSIP (Js.Fin l) (Js.Fin c) = true)
        /\ (0.91 * l <= c -> shouldSIP (Js.Fin l) (Js.Fin c) = false))
  /\ (forall l c : Q, l == 0 -> 0 <= c ->
        shouldAverage (Js.Fin l) (Js.Fin c) = false
        /\ shouldSIP (Js.Fin l) (Js.Fin c) = false).
Proof.
  split; [| split].
  - intros last cur. unfold shouldSIP, shouldAverage, Js.gtb.
    destruct (dropPercent last cur) as [d| | |]; cbn; try congruence.
    rewrite !Qltb_lt. intros; lra.
  - intros l c Hl.
    assert (Havg : forall b : bool,
               (if b then c < 0.95 * l else ~ c < 0.95 * l) ->
               shouldAverage (Js.Fin l) (Js.Fin c) = b).
    { intros b Hb. unfold shouldAverage, Js.gtb.
      rewrite dropPercent_finite by lra. cbn [Js.ltb].
      assert (E : (1 - 5 / 100) * l == 0.95 * l) by field.
      pose proof (drop_exceeds l c 5 Hl) as D.
      destruct b.
      - apply Qltb_lt. apply D. lra.
      - apply Qltb_ge. apply Qnot_lt_le. intros H. apply D in H. lra. }
    assert (Hsip : forall b : bool,
               (if b then c < 0.9 * l else ~ c < 0.9 * l) ->
               shouldSIP (Js.Fin l) (Js.Fin c) = b).
    { intros b Hb. unfold shouldSIP, Js.gtb.
      rewrite dropPercent_finite by lra. cbn [Js.ltb].
      assert (E : (1 - 10 / 100) * l == 0.9 * l) by field.
      pose proof (drop_exceeds l c 10 Hl) as D.
      destruct b.
      - apply Qltb_lt. apply D. lra.
      - apply Qltb_ge. apply Qnot_lt_le. intros H. apply D in H. lra. }
    split; [| split; [| split; [| split]]].
    + intros H. split; [apply (Havg false) | apply (Hsip false)]; cbv iota; lra.
    + intros H. apply (Havg true). cbv iota. lra.
    + intros H. apply (Havg false). cbv iota. lra.
    + intros H. apply (Hsip true). cbv iota. lra.
    + intros H. apply (Hsip false). cbv iota. lra.
  - intros l c Hl Hc. unfold shouldAverage, shouldSIP, dropPercent, Js.gtb.
    cbn [Js.sub Js.neg Js.add Js.div].
    assert (E : Js.Qeqb l 0 = true) by (apply Qeqb_eq; exact Hl).
    rewrite E. unfold Js.Qsgn.
    assert (Hneg : (Qnum (l + - c) <= 0)%Z).
    { assert (H : l + - c <= 0) by lra.
      unfold Qle in H. cbn [Qnum Qden] in H. cbn [Qnum]. lia. }
    match goal with |- context [Z.sgn ?z] => destruct z eqn:En end;
      cbn; try (split; reflexivity).
    exfalso. lia.
Qed.

(** A fall from 100 to 89, a rise from 100 to 101, and a lot bought at 0. *)
Lemma averaging_signals_witness :
  shouldAverage (Js.Fin 100) (Js.Fin 89) = true
  /\ shouldSIP (Js.Fin 100) (Js.Fin 89) = true
  /\ shouldAverage (Js.Fin 100) (Js.Fin 101) = false
  /\ shouldAverage (Js.Fin 0) (Js.Fin 50) = false.
Proof.
  assert (Hpos : 0 < 100) by reflexivity.
  destruct (proj1 (proj2 averaging_signals) 100 89 Hpos) as (_ & _ & _ & Hsip & _).
  assert (Hs : shouldSIP (Js.Fin 100) (Js.Fin 89) = true) by (apply Hsip; discriminate).
  split; [| split; [| split]].
  - apply (proj1 averaging_signals). exact Hs.
  - exact Hs.
  - apply (proj1 (proj2 averaging_signals) 100 101 Hpos). discriminate.
  - apply (proj2 (proj2 averaging_signals) 0 50); [reflexivity | discriminate].
Defined.

(** ** Distance from the 52-week low and high *)

Lemma eqb_zero_finite (x : Q) : Js.eqb (Js.Fin x) (Js.Fin 0) = Js.Qeqb x 0.
Proof. reflexivity. Qed.

(** X3: for finite prices [distanceFromLow] and [distanceFromHigh] always
    return a finite number (0 for a reference price of 0, never a division by
    zero); for a positive reference the distance is non-negative exactly
    when the price is on or above the low, respectively on or below the
    high, and it is 0 when the price is the reference itself. *)
Theorem distance_from_reference (cur ref : Q) :
  (exists d : Q,
      distanceFromLow (Js.Fin cur) (Js.Fin ref) = Js.Fin d
      /\ (ref == 0 -> d == 0)
      /\ (0 < ref -> (0 <= d <-> ref <= cur))
      /\ (cur == ref -> d == 0))
  /\ (exists d : Q,
      distanceFromHigh (Js.Fin cur) (Js.Fin ref) = Js.Fin d
      /\ (ref == 0 -> d == 0)
      /\ (0 < ref -> (0 <= d <-> cur <= ref))
      /\ (cur == ref -> d == 0)).
Proof.
  unfold distanceFromLow, distanceFromHigh. rewrite eqb_zero_finite.
  destruct (Js.Qeqb ref 0) eqn:E.
  - apply Qeqb_eq in E.
    split; exists 0; (split; [reflexivity |]); (split; [reflexivity |]);
      (split; [intros; exfalso; lra | reflexivity]).
  - apply Qeqb_neq in E. cbn [Js.sub Js.neg Js.add].
    rewrite !div_finite by exact E. cbn [Js.mul].
    split.
    + exists ((cur + - ref) / ref * 100). split; [reflexivity |].
      split; [tauto |]. split.
      * intros Hpos.
        assert (Hy : (cur + - ref) / ref * ref == cur - ref) by (field; exact E).
        remember ((cur + - ref) / ref) as y eqn:Ey. clear Ey.
        pose proof (Qmult_le_r 0 y ref Hpos) as Hmul.
        split; intros H.
        -- assert (H' : 0 <= y) by lra. apply Hmul in H'. lra.
        -- assert (H' : 0 * ref <= y * ref) by lra. apply Hmul in H'. lra.
      * intros Hsame. rewrite Hsame. field. exact E.
    + exists ((ref + - cur) / ref * 100). split; [reflexivity |].
      split; [tauto |]. split.
      * intros Hpos.
        assert (Hy : (ref + - cur) / ref * ref == ref - cur) by (field; exact E).
        remember ((ref + - cur) / ref) as y eqn:Ey. clear Ey.
        pose proof (Qmult_le_r 0 y ref Hpos) as Hmul.
        split; intros H.
        -- assert (H' : 0 <= y) by lra. apply Hmul in H'. lra.
        -- assert (H' : 0 * ref <= y * ref) by lra. apply Hmul in H'. lra.
      * intros Hsame. rewrite Hsame. field. exact E.
Qed.

(** A price of 120 against a low of 100, and against a low of 0. *)
Lemma distance_from_reference_witness :
  (exists d : Q, distanceFromLow (Js.Fin 120) (Js.Fin 100) = Js.Fin d /\ 0 <= d)
  /\ (exists d : Q, distanceFromLow (Js.Fin 120) (Js.Fin 0) = Js.Fin d /\ d == 0).
Proof.
  split.
  - destruct (proj1 (distance_from_reference 120 100)) as (d & Hd & _ & Hsign & _).
    exists d. split; [exact Hd |].
    apply Hsign; [reflexivity | discriminate].
  - destruct (proj1 (distance_from_reference 120 0)) as (d & Hd & Hz & _).
    exists d. split; [exact Hd | apply Hz; reflexivity].
Defined.

(** ** Holding period *)

(** X4: for two readable dates [calculateHoldingDays] is the whole number of
    elapsed 24-hour days, rounded down: d days with d x 86400000 <= sell - buy
    < (d + 1) x 86400000 milliseconds.  It is negative exactly when the sale
    is dated before the purchase (which it does not reject), and it is NaN
    when either date cannot be read. *)
Theorem calculateHoldingDays_floor (getTime : string -> Js.num) (buy sell : string) :
  (forall tb ts : Q,
      getTime buy = Js.Fin tb -> getTime sell = Js.Fin ts ->
      exists d : Z,
        calculateHoldingDays getTime buy sell = Js.ofZ d
        /\ inject_Z d * 86400000 <= ts - tb
        /\ ts - tb < (inject_Z d + 1) * 86400000
        /\ ((d < 0)%Z <-> ts < tb))
  /\ (getTime buy = Js.NaN \/ getTime sell = Js.NaN ->
      calculateHoldingDays getTime buy sell = Js.NaN).
Proof.
  split.
  - intros tb ts Hb Hs. unfold calculateHoldingDays. rewrite Hb, Hs.
    cbn [Js.sub Js.neg Js.add]. rewrite div_finite by discriminate.
    cbn [Math_floor].
    set (x := (ts + - tb) / 86400000).
    assert (Hx : x * 86400000 == ts - tb) by (unfold x; field).
    pose proof (Qfloor_le x) as Hlo. pose proof (Qlt_floor x) as Hhi.
    rewrite inject_Z_plus in Hhi. change (inject_Z 1) with 1 in Hhi.
    exists (Qfloor x). split; [reflexivity |].
    clearbody x. split; [lra |]. split; [lra |].
    split; intros H.
    + assert (H' : inject_Z (Qfloor x + 1) <= inject_Z 0)
        by (rewrite <- Zle_Qle; lia).
      rewrite inject_Z_plus in H'.
      change (inject_Z 1) with 1 in H'. change (inject_Z 0) with 0 in H'.
      lra.
    + assert (Hneg : x < 0) by lra.
      destruct (Z_lt_le_dec (Qfloor x) 0) as [Hlt | Hge]; [exact Hlt | exfalso].
      assert (H' : inject_Z 0 <= inject_Z (Qfloor x))
        by (rewrite <- Zle_Qle; exact Hge).
      change (inject_Z 0) with 0 in H'.
      lra.
  - intros [H | H]; unfold calculateHoldingDays; rewrite H.
    + destruct (getTime sell); reflexivity.
    + destruct (getTime buy); reflexivity.
Qed.

(** From 10 January to 10 March 2024, and with an unreadable sale date. *)
Lemma calculateHoldingDays_floor_witness :
  (exists d : Z,
      calculateHoldingDays IsoDate.getTime "2024-01-10" "2024-03-10" = Js.ofZ d
      /\ inject_Z d * 86400000 <= 1710028800000 - 1704844800000
      /\ 1710028800000 - 1704844800000 < (inject_Z d + 1) * 86400000)
  /\ calculateHoldingDays IsoDate.getTime "2024-01-10" "unknown" = Js.NaN.
Proof.
  split.
  - destruct (proj1 (calculateHoldingDays_floor IsoDate.getTime "2024-01-10" "2024-03-10")
                1704844800000 1710028800000 eq_refl eq_refl)
      as (d & Hd & Hlo & Hhi & _).
    exists d. split; [exact Hd |]. split; [exact Hlo | exact Hhi].
  - apply (proj2 (calculateHoldingDays_floor IsoDate.getTime "2024-01-10" "unknown")).
    right. reflexivity.
Defined.

(** ** More on lot matching *)

Lemma with_quantity_same (h : Holding) : with_quantity h (quantity h) = h.
Proof. destruct h; reflexivity. Qed.

Lemma lotOf_cons (h : Holding) (l : list Holding) (h' : Holding) :
  lotOf l h' -> lotOf (h :: l) h'.
Proof. intros (h0 & Hin & E). exists h0. split; [right; exact Hin | exact E]. Qed.

Lemma soldFrom_cons (h : Holding) (l : list Holding) (s : SoldHolding) :
  soldFrom l s -> soldFrom (h :: l) s.
Proof. intros [Hin H]. split; [right; exact Hin | exact H]. Qed.

Lemma lotOf_self (l : list Holding) : Forall (lotOf l) l.
Proof.
  apply List.Forall_forall. intros h Hin. exists h.
  split; [exact Hin | symmetry; apply with_quantity_same].
Qed.

(** What a sale of a finite quantity from positive lots can contain. *)
Lemma Matches_parts (l : list Holding) (qn : Js.num)
    (sold : list SoldHolding) (rest : list Holding) :
  Matches l qn sold rest ->
  forall q : Q, qn = Js.Fin q -> positiveLots l ->
    Forall (soldFrom l) sold
    /\ positiveLots rest
    /\ Forall (lotOf l) rest
    /\ (length l <= length sold + length rest <= S (length l))%nat.
Proof.
  induction 1 as [qn | lots qn Hq | h lots qn sold rest H0 Hq HM IH | h lots qn H0 Hq];
    intros q -> Hpos.
  - repeat split; try constructor; cbn; lia.
  - split; [constructor |]. split; [exact Hpos |]. split; [apply lotOf_self |].
    cbn; lia.
  - inversion Hpos as [| ? ? (x & Hx & Hxpos) Hpos']; subst.
    rewrite Hx in *. cbn in H0, Hq. apply Qleb_gt in H0. apply Qleb_le in Hq.
    destruct (IH (q + - x) eq_refl Hpos') as (Hsold & Hrest & Hlot & Hlen).
    split; [| split; [exact Hrest | split]].
    + constructor.
      * split; [left; reflexivity |]. exists x, x. cbn.
        split; [reflexivity |]. split; [exact Hx |]. split; lra.
      * eapply List.Forall_impl; [| exact Hsold]. intros s. apply soldFrom_cons.
    + eapply List.Forall_impl; [| exact Hlot]. intros h'. apply lotOf_cons.
    + cbn [length]. lia.
  - inversion Hpos as [| ? ? (x & Hx & Hxpos) Hpos']; subst.
    rewrite Hx in *. cbn in H0, Hq. apply Qleb_gt in H0. apply Qleb_gt in Hq.
    split; [| split; [| split]].
    + constructor; [| constructor].
      split; [left; reflexivity |]. exists q, x. cbn.
      split; [reflexivity |]. split; [exact Hx |]. split; lra.
    + constructor; [| exact Hpos'].
      exists (x + - q). cbn. split; [reflexivity | lra].
    + constructor.
      * exists h. split; [left; reflexivity | reflexivity].
      * eapply List.Forall_impl; [| apply lotOf_self]. intros h'. apply lotOf_cons.
    + cbn [length]. lia.
Qed.

Lemma soldFrom_perm (l l' : list Holding) (s : SoldHolding) :
  Permutation l l' -> soldFrom l s -> soldFrom l' s.
Proof.
  intros HP [Hin H]. split; [eapply Permutation_in; eauto | exact H].
Qed.

Lemma lotOf_perm (l l' : list Holding) (h' : Holding) :
  Permutation l l' -> lotOf l h' -> lotOf l' h'.
Proof.
  intros HP (h & Hin & E). exists h. split; [eapply Permutation_in; eauto | exact E].
Qed.

(** X5: from lots of positive quantity [sellFIFO] never sells more than a lot
    holds and never leaves an empty lot behind: every sale is a positive part
    of one of the given lots, every remaining lot is one of the given lots
    with a positive (possibly reduced) quantity and otherwise unchanged, and
    at most one lot appears on both sides. *)
Theorem sellFIFO_never_oversells
    (getTime : string -> Js.num) (hs : list Holding) (q : Q) :
  positiveLots hs ->
  let r := sellFIFO getTime hs (Js.Fin q) in
  Forall (soldFrom hs) (soldHoldings r)
  /\ positiveLots (remaining r)
  /\ Forall (lotOf hs) (remaining r)
  /\ (length hs <= length (soldHoldings r) + length (remaining r) <= S (length hs))%nat.
Proof.
  intros Hpos r. subst r. unfold sellFIFO.
  set (sorted := js_sort (byBuyDate getTime) hs).
  assert (HP : Permutation sorted hs) by apply js_sort_perm.
  assert (Hpos' : positiveLots sorted)
    by (eapply Permutation_Forall; [symmetry; exact HP | exact Hpos]).
  destruct (Matches_parts sorted (Js.Fin q) _ _ (consume_matches sorted (Js.Fin q))
              q eq_refl Hpos') as (Hsold & Hrest & Hlot & Hlen).
  split; [| split; [exact Hrest | split]].
  - eapply List.Forall_impl; [| exact Hsold]. intros s. apply soldFrom_perm. exact HP.
  - eapply List.Forall_impl; [| exact Hlot]. intros h'. apply lotOf_perm. exact HP.
  - rewrite <- (Permutation_length HP). exact Hlen.
Qed.

(** Selling 15 of the 30 sample units. *)
Lemma sellFIFO_never_oversells_witness :
  Forall (soldFrom [lot3; lot1; lot2])
         (soldHoldings (sellFIFO IsoDate.getTime [lot3; lot1; lot2] (Js.Fin 15)))
  /\ positiveLots (remaining (sellFIFO IsoDate.getTime [lot3; lot1; lot2] (Js.Fin 15))).
Proof.
  destruct (sellFIFO_never_oversells IsoDate.getTime [lot3; lot1; lot2] 15
              sample_lots_positive) as (Hsold & Hrest & _).
  split; [exact Hsold | exact Hrest].
Defined.

Section SortedInput.

Context {A : Type}.
Variable cmp : A -> A -> Js.num.
Variable key : A -> Js.num.
Hypothesis cmp_key : forall a b, cmp a b = (key a - key b)%js.

(** Sorting an array that is already in ascending order changes nothing. *)
Lemma js_sort_fixed (l : list A) :
  Forall (fun a => Js.is_finite (key a) = true) l ->
  StronglySorted (key_le key) l ->
  js_sort cmp l = l.
Proof.
  intros Hfin Hs. induction Hs as [| x l Hs IH Hx]; [reflexivity |].
  inversion Hfin as [| ? ? Hfx Hfl]; subst.
  cbn [js_sort fold_right]. fold (js_sort cmp l). rewrite (IH Hfl).
  destruct l as [| y l']; [reflexivity |]. cbn [sort_insert].
  inversion Hx as [| ? ? Hxy _]; subst. inversion Hfl as [| ? ? Hfy _]; subst.
  destruct (key x) as [tx| | |] eqn:Ex; try discriminate.
  destruct (key y) as [ty| | |] eqn:Ey; try discriminate.
  rewrite (cmp_positive cmp key cmp_key x y tx ty Ex Ey).
  unfold key_le in Hxy. rewrite Ex, Ey in Hxy. cbn in Hxy. apply Qleb_le in Hxy.
  assert (E : Js.Qltb ty tx = false) by (apply Qltb_ge; exact Hxy).
  rewrite E. reflexivity.
Qed.

End SortedInput.

(** What is left after a sale is still in purchase order, with dates the
    input had. *)
Lemma Matches_keeps_order (getTime : string -> Js.num) (l : list Holding)
    (qn : Js.num) (sold : list SoldHolding) (rest : list Holding) :
  Matches l qn sold rest ->
  validDates getTime l -> StronglySorted (oldestFirst getTime) l ->
  validDates getTime rest /\ StronglySorted (oldestFirst getTime) rest.
Proof.
  induction 1 as [qn | lots qn Hq | h lots qn sold rest H0 Hq HM IH | h lots qn H0 Hq];
    intros Hv Hs.
  - split; constructor.
  - split; assumption.
  - inversion Hv; subst. inversion Hs; subst. apply IH; assumption.
  - inversion Hv as [| ? ? Hvh Hvl]; subst. inversion Hs as [| ? ? Hsl Hall]; subst.
    split; constructor; assumption.
Qed.

(** X6: what [sellFIFO] leaves is again a valid input in purchase order, so a
    second sale continues where the first stopped: sorting the remaining lots
    changes nothing, and for positive lots and non-negative quantities within
    the total, selling q1 and then q2 sells exactly q2 in the second step and
    leaves the total less q1 + q2, still oldest first. *)
Theorem sellFIFO_in_two_steps
    (getTime : string -> Js.num) (hs : list Holding) (q1 q2 : Q) :
  validDates getTime hs -> positiveLots hs ->
  0 <= q1 -> 0 <= q2 -> q1 + q2 <= totalUnits hs ->
  let r1 := sellFIFO getTime hs (Js.Fin q1) in
  let r2 := sellFIFO getTime (remaining r1) (Js.Fin q2) in
  js_sort (byBuyDate getTime) (remaining r1) = remaining r1
  /\ totalSold (soldHoldings r1) == q1
  /\ totalSold (soldHoldings r2) == q2
  /\ totalUnits (remaining r2) == totalUnits hs - q1 - q2
  /\ StronglySorted (oldestFirst getTime) (remaining r2).
Proof.
  intros Hv Hpos Hq1 Hq2 Hsum r1 r2.
  set (sorted := js_sort (byBuyDate getTime) hs).
  assert (HP : Permutation sorted hs) by apply js_sort_perm.
  assert (Hv' : validDates getTime sorted)
    by (eapply Permutation_Forall; [symmetry; exact HP | exact Hv]).
  assert (Hpos' : positiveLots sorted)
    by (eapply Permutation_Forall; [symmetry; exact HP | exact Hpos]).
  assert (Hs : StronglySorted (oldestFirst getTime) sorted)
    by (apply sellFIFO_sorted; exact Hv).
  pose proof (consume_matches sorted (Js.Fin q1)) as HM1.
  assert (E1 : consume sorted (Js.Fin q1) [] [] = r1) by reflexivity.
  rewrite E1 in HM1.
  destruct (Matches_keeps_order getTime _ _ _ _ HM1 Hv' Hs) as [Hv1 Hs1].
  destruct (Matches_totals _ _ _ _ HM1 q1 eq_refl Hpos') as (Hsum1 & _ & Hmid1 & _).
  destruct (Matches_parts _ _ _ _ HM1 q1 eq_refl Hpos') as (_ & Hpos1 & _).
  rewrite (totalUnits_perm _ _ HP) in Hsum1, Hmid1.
  assert (Hfix : js_sort (byBuyDate getTime) (remaining r1) = remaining r1).
  { apply (js_sort_fixed (byBuyDate getTime) (fun h => getTime (buyDate h)));
      [reflexivity | exact Hv1 | exact Hs1]. }
  pose proof (consume_matches (remaining r1) (Js.Fin q2)) as HM2.
  assert (E2 : consume (remaining r1) (Js.Fin q2) [] [] = r2).
  { subst r2. unfold sellFIFO at 1. rewrite Hfix. reflexivity. }
  rewrite E2 in HM2.
  destruct (Matches_keeps_order getTime _ _ _ _ HM2 Hv1 Hs1) as [_ Hs2].
  destruct (Matches_totals _ _ _ _ HM2 q2 eq_refl Hpos1) as (Hsum2 & _ & Hmid2 & _).
  specialize (Hmid1 Hq1). specialize (Hmid2 Hq2).
  assert (H1 : totalSold (soldHoldings r1) == q1) by (apply Hmid1; lra).
  assert (H2 : totalSold (soldHoldings r2) == q2) by (apply Hmid2; lra).
  split; [exact Hfix |]. split; [exact H1 |]. split; [exact H2 |].
  split; [lra | exact Hs2].
Qed.

(** Selling 15 and then 10 of the 30 sample units. *)
Lemma sellFIFO_in_two_steps_witness :
  totalUnits
    (remaining
       (sellFIFO IsoDate.getTime
          (remaining (sellFIFO IsoDate.getTime [lot3; lot1; lot2] (Js.Fin 15)))
          (Js.Fin 10)))
  == totalUnits [lot3; lot1; lot2] - 15 - 10.
Proof.
  apply (sellFIFO_in_two_steps IsoDate.getTime [lot3; lot1; lot2] 15 10).
  - repeat constructor.
  - exact sample_lots_positive.
  - discriminate.
  - discriminate.
  - vm_compute. discriminate.
Defined.

(** ** Cash flows of the XIRR solver *)

Lemma newton_run_entered (f f' : Js.num -> Js.num) (fuel : nat) (rate : Js.num) :
  (1 <= snd (fst (newton_run f f' (S fuel) rate)))%nat.
Proof.
  cbn [newton_run].
  destruct (Js.ltb (Js.abs (f' rate)) (Js.Fin 1e-10)); [cbn; lia |].
  destruct (Js.ltb _ (Js.Fin 1e-7)); [cbn; lia |].
  destruct (newton_run f f' fuel _) as [[r n] e]. cbn. lia.
Qed.

Lemma buildFlows_perm (getTime : string -> Js.num) (now : Js.num)
    (cashFlows : list CashFlow) (currentValue : Js.num) :
  Permutation (buildFlows getTime now cashFlows currentValue)
              (map (fun cf => mkFlow (getTime (cf_date cf)) (signedAmount cf)) cashFlows
               ++ [mkFlow now currentValue]).
Proof. apply js_sort_perm. Qed.

(** X7: the flow list the solver works on holds every cash flow once plus the
    current value (one entry more than the input).  Every entry of the list
    is the current value at the valuation time or carries the date of an
    input cash flow and its amount signed by its type alone: of the stored
    magnitude, never positive for investments and capital additions, never
    negative for returns and withdrawals, whatever sign was stored.  When all dates are
    readable the list is in ascending time order, so every year fraction
    measured from its first entry is a finite number that is not negative. *)
Theorem buildFlows_ordered
    (getTime : string -> Js.num) (now : Js.num)
    (cashFlows : list CashFlow) (currentValue : Js.num) :
  let allFlows := buildFlows getTime now cashFlows currentValue in
  length allFlows = S (length cashFlows)
  /\ (forall flow : Flow,
        In flow allFlows ->
        flow = mkFlow now currentValue
        \/ exists cf : CashFlow,
             In cf cashFlows
             /\ f_time flow = getTime (cf_date cf)
             /\ f_amount flow = signedAmount cf
             /\ forall a : Q,
                  cf_amount cf = Js.Fin a ->
                  exists s : Q,
                    f_amount flow = Js.Fin s /\ Qabs s == Qabs a
                    /\ match cf_type cf with
                       | INVESTMENT | CAPITAL_ADD => s <= 0
                       | RETURN | CAPITAL_WITHDRAW => 0 <= s
                       end)
  /\ (Forall (fun cf => Js.is_finite (getTime (cf_date cf)) = true) cashFlows ->
      Js.is_finite now = true ->
      StronglySorted (key_le f_time) allFlows
      /\ forall (first : Flow) (rest : list Flow),
           allFlows = first :: rest ->
           Forall (fun flow => exists y : Q,
                       yearsSince (f_time first) flow = Js.Fin y /\ 0 <= y)
                  (first :: rest)).
Proof.
  intros allFlows. subst allFlows.
  pose proof (buildFlows_perm getTime now cashFlows currentValue) as HP.
  split; [| split].
  - rewrite (Permutation_length HP), length_app, length_map. cbn. lia.
  - intros flow Hin.
    apply (Permutation_in _ HP) in Hin. apply List.in_app_or in Hin.
    destruct Hin as [Hin | [<- | []]]; [right | left; reflexivity].
    apply List.in_map_iff in Hin. destruct Hin as (cf & <- & Hcf).
    exists cf. split; [exact Hcf |]. split; [reflexivity |]. split; [reflexivity |].
    intros a Ha. cbn [f_amount]. unfold signedAmount. rewrite Ha.
    pose proof (Qabs_nonneg a) as Hnn.
    destruct (cf_type cf); cbn [Js.abs Js.neg].
    + exists (- Qabs a). split; [reflexivity |].
      split; [rewrite Qabs_opp; apply Qabs_pos; exact Hnn | lra].
    + exists (Qabs a). split; [reflexivity |].
      split; [apply Qabs_pos; exact Hnn | exact Hnn].
    + exists (- Qabs a). split; [reflexivity |].
      split; [rewrite Qabs_opp; apply Qabs_pos; exact Hnn | lra].
    + exists (Qabs a). split; [reflexivity |].
      split; [apply Qabs_pos; exact Hnn | exact Hnn].
  - intros Hdates Hnow.
    assert (Hfin : Forall (fun fl => Js.is_finite (f_time fl) = true)
                     (map (fun cf => mkFlow (getTime (cf_date cf)) (signedAmount cf))
                          cashFlows ++ [mkFlow now currentValue])).
    { apply List.Forall_app. split.
      - apply List.Forall_map. exact Hdates.
      - constructor; [exact Hnow | constructor]. }
    assert (Hs : StronglySorted (key_le f_time)
                   (buildFlows getTime now cashFlows currentValue)).
    { apply (js_sort_sorted byTime f_time); [reflexivity | exact Hfin]. }
    split; [exact Hs |].
    intros first rest E. rewrite E in Hs, HP.
    assert (Hfin' : Forall (fun fl => Js.is_finite (f_time fl) = true) (first :: rest))
      by (eapply Permutation_Forall; [symmetry; exact HP | exact Hfin]).
    inversion Hs as [| ? ? _ Hle]; subst.
    inversion Hfin' as [| ? ? Hf1 Hfr]; subst.
    destruct (f_time first) as [t0| | |] eqn:E0; try discriminate.
    assert (Hyears : forall fl t, f_time fl = Js.Fin t -> t0 <= t ->
                     exists y : Q, yearsSince (Js.Fin t0) fl = Js.Fin y /\ 0 <= y).
    { intros fl t Et Hle0. unfold yearsSince. rewrite Et.
      cbn [Js.sub Js.neg Js.add]. rewrite div_finite by discriminate.
      eexists. split; [reflexivity |].
      apply Qle_shift_div_l; [reflexivity | lra]. }
    constructor.
    + apply (Hyears first t0 E0). lra.
    + rewrite List.Forall_forall in Hle, Hfr. apply List.Forall_forall.
      intros fl Hin. specialize (Hle fl Hin). specialize (Hfr fl Hin).
      unfold key_le in Hle. rewrite E0 in Hle.
      destruct (f_time fl) as [t| | |] eqn:Et; try discriminate.
      cbn in Hle. apply Qleb_le in Hle. apply (Hyears fl t Et Hle).
Qed.

(** Two purchases and a sale, valued on 10 March 2024. *)
Lemma buildFlows_ordered_witness :
  let cashFlows := [mkCashFlow "2024-02-10" (Js.Fin 1100) RETURN;
                    mkCashFlow "2024-01-10" (Js.Fin 1000) INVESTMENT] in
  let allFlows := buildFlows IsoDate.getTime (IsoDate.getTime "2024-03-10")
                             cashFlows (Js.Fin 500) in
  StronglySorted (key_le f_time) allFlows
  /\ (mkFlow (IsoDate.getTime "2024-01-10") (Js.Fin (-1000))
      = mkFlow (IsoDate.getTime "2024-03-10") (Js.Fin 500)
      \/ exists cf : CashFlow,
           In cf cashFlows /\ signedAmount cf = Js.Fin (-1000)).
Proof.
  intros cashFlows allFlows.
  pose proof (buildFlows_ordered IsoDate.getTime (IsoDate.getTime "2024-03-10")
                cashFlows (Js.Fin 500)) as H.
  cbv zeta in H. destruct H as (_ & Hflows & Hsorted).
  split.
  - apply Hsorted; [repeat constructor | reflexivity].
  - destruct (Hflows (mkFlow (IsoDate.getTime "2024-01-10") (Js.Fin (-1000))))
      as [Hnow | (cf & Hin & _ & Hamount & _)].
    + vm_compute. left. reflexivity.
    + left. exact Hnow.
    + right. exists cf. split; [exact Hin | symmetry; exact Hamount].
Defined.

(** X8: for a non-empty list of cash flows [calculateXIRR] always reaches the
    Newton loop and enters its body at least once and at most 100 times: with
    the current value appended there are at least two flows, so the
    second early return (fewer than two flows) is never taken. *)
Theorem calculateXIRR_enters_loop
    (getTime : string -> Js.num) (now : Js.num)
    (Math_pow : Js.num -> Js.num -> Js.num)
    (cf : CashFlow) (cashFlows : list CashFlow) (currentValue : Js.num) :
  exists (r : Js.num) (n : nat) (e : XirrExit),
    calculateXIRR_run getTime now Math_pow (cf :: cashFlows) currentValue
    = (r, n, Some e)
    /\ r = calculateXIRR getTime now Math_pow (cf :: cashFlows) currentValue
    /\ (1 <= n <= 100)%nat.
Proof.
  pose proof (buildFlows_perm getTime now (cf :: cashFlows) currentValue) as HP.
  apply Permutation_length in HP. rewrite length_app, length_map in HP.
  unfold calculateXIRR_run, calculateXIRR.
  destruct (buildFlows getTime now (cf :: cashFlows) currentValue)
    as [| first [| second rest]];
    [cbn [length] in HP; lia | cbn [length] in HP; lia |].
  set (f := npv Math_pow (first :: second :: rest) (f_time first)).
  set (f' := npvDerivative Math_pow (first :: second :: rest) (f_time first)).
  pose proof (newton_run_value f f' 100 (Js.Fin 0.1)) as Hval.
  pose proof (newton_run_bound f f' 100 (Js.Fin 0.1)) as Hbound.
  pose proof (newton_run_entered f f' 99 (Js.Fin 0.1)) as Hent.
  destruct (newton_run f f' 100 (Js.Fin 0.1)) as [[r n] e].
  cbn [fst snd] in Hval, Hbound, Hent.
  exists r, n, e. split; [reflexivity |]. split; [exact Hval | lia].
Qed.

(** ** Grouping in the store *)

(** Appending each element to the array stored under its key collects, under
    every key, the elements with that key in their original order. *)
Lemma grouping_lookup {K : Type} `{Countable K} {A : Type} (key : A -> K) (l : list A) :
  forall (m : gmap K (list A)) (k : K),
    default [] (fold_left
                  (fun (m : gmap K (list A)) x =>
                     <[key x := default [] (m !! key x) ++ [x]]> m) l m !! k)
    = default [] (m !! k) ++ filter (fun x => key x = k) l.
Proof.
  induction l as [| x l IH]; intros m k; cbn [fold_left].
  - rewrite filter_nil, app_nil_r. reflexivity.
  - rewrite IH. destruct (decide (key x = k)) as [E | E].
    + rewrite filter_cons_True by exact E. subst k.
      rewrite lookup_insert_eq. cbn [default from_option id].
      rewrite <- List.app_assoc. reflexivity.
    + rewrite filter_cons_False by exact E.
      rewrite lookup_insert_ne by exact E. reflexivity.
Qed.

Lemma groupByETF_lookup (hs : list Holding) (k : Z) :
  default [] (groupByETF hs !! k) = filter (fun h => etfId h = k) hs.
Proof.
  unfold groupByETF. rewrite (grouping_lookup etfId hs ∅ k).
  rewrite lookup_empty. reflexivity.
Qed.

(** X9: [getHoldingsWithCalculations] returns one entry per holding, in the
    order of the holdings; the average price and total quantity of an entry
    are those of all holdings with the same [etfId], in their stored order,
    so two lots of one ETF always share average price, total quantity and
    target price; [getGroupedHoldings] puts under each symbol exactly the
    entries with that symbol, in order. *)
Theorem holdings_grouped_by_etf (getTime : string -> Js.num) (st : StoreState) :
  let rs := getHoldingsWithCalculations getTime st in
  map hc_holding rs = st_holdings st
  /\ (forall r, In r rs ->
        let same := filter (fun h => etfId h = etfId (hc_holding r)) (st_holdings st) in
        hc_avgPrice r = calculateAveragePrice same
        /\ hc_totalQuantity r
           = fold_left (fun sum h => (sum + quantity h)%js) same (Js.Fin 0)
        /\ hc_targetPrice r
           = calculateTargetPrice (hc_avgPrice r) (hc_totalQuantity r) (st_settings st))
  /\ (forall r1 r2, In r1 rs -> In r2 rs ->
        etfId (hc_holding r1) = etfId (hc_holding r2) ->
        hc_avgPrice r1 = hc_avgPrice r2
        /\ hc_totalQuantity r1 = hc_totalQuantity r2
        /\ hc_targetPrice r1 = hc_targetPrice r2)
  /\ (forall symbol : string,
        default [] (getGroupedHoldings getTime st !! symbol)
        = filter (fun r => etfSymbol (hc_holding r) = symbol) rs).
Proof.
  intros rs.
  assert (Hparts : forall r, In r rs ->
            let same := filter (fun h => etfId h = etfId (hc_holding r)) (st_holdings st) in
            hc_avgPrice r = calculateAveragePrice same
            /\ hc_totalQuantity r
               = fold_left (fun sum h => (sum + quantity h)%js) same (Js.Fin 0)
            /\ hc_targetPrice r
               = calculateTargetPrice (hc_avgPrice r) (hc_totalQuantity r)
                                      (st_settings st)).
  { intros r Hin. subst rs. unfold getHoldingsWithCalculations in Hin.
    apply List.in_map_iff in Hin. destruct Hin as (h & <- & _).
    cbn [holdingCalculations hc_holding hc_avgPrice hc_totalQuantity hc_targetPrice].
    rewrite groupByETF_lookup. repeat split. }
  split; [| split; [exact Hparts | split]].
  - subst rs. unfold getHoldingsWithCalculations. rewrite List.map_map.
    cbn [holdingCalculations hc_holding]. apply List.map_id.
  - intros r1 r2 H1 H2 E.
    destruct (Hparts r1 H1) as (A1 & Q1 & T1). destruct (Hparts r2 H2) as (A2 & Q2 & T2).
    cbv zeta in A1, Q1, A2, Q2. rewrite E in A1, Q1.
    assert (EA : hc_avgPrice r1 = hc_avgPrice r2) by congruence.
    assert (EQ : hc_totalQuantity r1 = hc_totalQuantity r2) by congruence.
    split; [exact EA |]. split; [exact EQ |]. rewrite T1, T2, EA, EQ. reflexivity.
  - intros symbol. unfold getGroupedHoldings. fold rs.
    rewrite (grouping_lookup (fun r => etfSymbol (hc_holding r)) rs ∅ symbol).
    rewrite lookup_empty. reflexivity.
Qed.

(** ** The holdings table *)

Lemma set_holdings_same (db : Db) :
  set_holdings db (db_holdings db) (db_holdings_seq db) = db.
Proof. destruct db; reflexivity. Qed.

Lemma alter_missing {V : Type} (f : V -> V) (m : gmap Z V) (i : Z) :
  m !! i = None -> alter f i m = m.
Proof.
  intros Hnone. apply map_eq. intros j. destruct (decide (i = j)) as [<- | Hne].
  - rewrite lookup_alter_eq, Hnone. reflexivity.
  - rewrite lookup_alter_ne by exact Hne. reflexivity.
Qed.

(** X10: ids of holdings are never reused.  While every stored id is at most
    the largest id handed out (which adding, editing and deleting all
    preserve), [addHolding] returns an id that is unused and larger than
    every stored id, stores exactly the given row under it and leaves all
    other rows as they are; deleting that row restores the table, and the
    next added row still gets the following id, not the freed one. *)
Theorem holding_ids_never_reused (db : Db) :
  holdingIdsIssued db ->
  (forall (etf : Z) (date : string) (price qty : Js.num),
      let db1 := fst (addHolding db etf date price qty) in
      let id := snd (addHolding db etf date price qty) in
      holdingIdsIssued db1
      /\ db_holdings db !! id = None
      /\ db_holdings db1 !! id = Some (mkHoldingRow etf date price qty)
      /\ (forall (id' : Z) (row : HoldingRow),
            db_holdings db !! id' = Some row ->
            (id' < id)%Z /\ db_holdings db1 !! id' = Some row)
      /\ db_holdings (deleteHolding db1 id) = db_holdings db
      /\ (forall (etf2 : Z) (date2 : string) (price2 qty2 : Js.num),
            snd (addHolding (deleteHolding db1 id) etf2 date2 price2 qty2)
            = (id + 1)%Z))
  /\ (forall id : Z, holdingIdsIssued (deleteHolding db id))
  /\ (forall (id : Z) (price qty : Js.num),
        holdingIdsIssued (updateHolding db id price qty)).
Proof.
  intros Hwf.
  assert (Hfresh : db_holdings db !! (db_holdings_seq db + 1)%Z = None).
  { destruct (db_holdings db !! (db_holdings_seq db + 1)%Z) as [row |] eqn:E;
      [| reflexivity].
    apply Hwf in E. lia. }
  split; [| split].
  - intros etf date price qty db1 id. subst db1 id. cbn.
    split; [| split; [exact Hfresh | split; [apply lookup_insert_eq | split; [| split]]]].
    + intros id' row. cbn. rewrite lookup_insert.
      destruct (decide (db_holdings_seq db + 1 = id')%Z) as [<- | Hne];
        [intros _; lia |].
      intros E. apply Hwf in E. lia.
    + intros id' row E. pose proof (Hwf _ _ E) as Hle.
      split; [lia |]. rewrite lookup_insert_ne by lia. exact E.
    + rewrite delete_insert_eq. apply delete_id. exact Hfresh.
    + intros. reflexivity.
  - intros id id' row. cbn. intros E.
    apply lookup_delete_Some in E. destruct E as [_ E]. eapply Hwf; eauto.
  - intros id price qty id' row. cbn. intros E.
    apply lookup_alter_Some in E.
    destruct E as [(_ & row0 & E & _) | (_ & E)]; eapply Hwf; eauto.
Qed.

(** The sample database (one holding, id 1). *)
Lemma holding_ids_never_reused_witness :
  snd (addHolding sample_db 1 "2024-06-01" (Js.Fin 90) (Js.Fin 5)) = 2%Z
  /\ db_holdings sample_db !! 2%Z = None
  /\ holdingIdsIssued (deleteHolding sample_db 1).
Proof.
  assert (Hwf : holdingIdsIssued sample_db).
  { intros id row. cbn. intros E. apply lookup_singleton_Some in E.
    destruct E as [<- _]. reflexivity. }
  destruct (holding_ids_never_reused sample_db Hwf) as (Hadd & Hdel & _).
  destruct (Hadd 1%Z "2024-06-01" (Js.Fin 90) (Js.Fin 5)) as (_ & Hfresh & _).
  split; [reflexivity |]. split; [exact Hfresh | apply Hdel].
Defined.

(** X11: editing or deleting a holding that does not exist is not an error:
    [PUT /api/holdings] with an unknown id, and [DELETE /api/holdings] with
    an id that parses to an unknown non-zero number, both answer success and
    leave the database exactly as it was. *)
Theorem unknown_holding_is_no_error (db : Db) :
  (forall body : HoldingPutBody,
      db_holdings db !! hu_id body = None ->
      holdings_PUT db body = mkOutcome db Success [])
  /\ (forall (s : string) (id : Z),
        ParseInt.parse s = Some id -> id <> 0%Z ->
        db_holdings db !! id = None ->
        holdings_DELETE db (Some s) = mkOutcome db Success []).
Proof.
  split.
  - intros body Hnone. unfold holdings_PUT, updateHolding.
    rewrite alter_missing by exact Hnone. rewrite set_holdings_same. reflexivity.
  - intros s id Hparse Hnz Hnone. unfold holdings_DELETE.
    destruct s as [| c s']; [discriminate Hparse |].
    rewrite Hparse. apply Z.eqb_neq in Hnz. rewrite Hnz.
    unfold deleteHolding. rewrite delete_id by exact Hnone.
    rewrite set_holdings_same. reflexivity.
Qed.

(** Holding 9 of the sample database, which has holding 1 only. *)
Lemma unknown_holding_is_no_error_witness :
  holdings_PUT sample_db
    {| hu_id := 9; hu_buyPrice := Js.Fin 1; hu_quantity := Js.Fin 1;
       hu_buyDate := "2024-01-01" |}
  = mkOutcome sample_db Success []
  /\ holdings_DELETE sample_db (Some "9") = mkOutcome sample_db Success [].
Proof.
  split.
  - apply (proj1 (unknown_holding_is_no_error sample_db)). reflexivity.
  - apply (proj2 (unknown_holding_is_no_error sample_db) "9" 9%Z);
      [reflexivity | discriminate | reflexivity].
Defined.

(** X12: [DELETE /api/holdings] answers 400 and changes nothing when the id
    parameter is missing, empty, not a number or 0; otherwise it answers
    success, the holding whose id is the integer [parseInt] reads from the
    parameter (its leading digits, base 16 after [0x]) is gone, every other
    holding is untouched and the id counter is unchanged. *)
Theorem holdings_DELETE_outcome (db : Db) :
  holdings_DELETE db None = mkOutcome db (Failure "ID is required" 400) []
  /\ holdings_DELETE db (Some "") = mkOutcome db (Failure "ID is required" 400) []
  /\ (forall s : string,
        ParseInt.parse s = None \/ ParseInt.parse s = Some 0%Z ->
        holdings_DELETE db (Some s) = mkOutcome db (Failure "ID is required" 400) [])
  /\ (forall (s : string) (id : Z),
        ParseInt.parse s = Some id -> id <> 0%Z ->
        let out := holdings_DELETE db (Some s) in
        out_response out = Success
        /\ db_holdings (out_db out) !! id = None
        /\ (forall id' : Z, id' <> id ->
              db_holdings (out_db out) !! id' = db_holdings db !! id')
        /\ db_holdings_seq (out_db out) = db_holdings_seq db
        /\ db_trades (out_db out) = db_trades db
        /\ db_daily_activity (out_db out) = db_daily_activity db).
Proof.
  split; [reflexivity |]. split; [reflexivity |]. split.
  - intros s Hs. unfold holdings_DELETE.
    destruct s as [| c s']; [reflexivity |].
    destruct Hs as [-> | ->]; reflexivity.
  - intros s id Hparse Hnz out. subst out. unfold holdings_DELETE.
    destruct s as [| c s']; [discriminate Hparse |].
    rewrite Hparse. apply Z.eqb_neq in Hnz. rewrite Hnz. cbn.
    split; [reflexivity |]. split; [apply lookup_delete_eq |].
    split; [| repeat split].
    intros id' Hne. apply lookup_delete_ne. congruence.
Qed.

(** Parameters [1px] (reads 1), [0x1] (reads 1) and [abc]. *)
Lemma holdings_DELETE_outcome_witness :
  db_holdings (out_db (holdings_DELETE sample_db (Some "1px"))) !! 1%Z = None
  /\ out_response (holdings_DELETE sample_db (Some "0x1")) = Success
  /\ holdings_DELETE sample_db (Some "abc")
     = mkOutcome sample_db (Failure "ID is required" 400) [].
Proof.
  pose proof (holdings_DELETE_outcome sample_db) as (_ & _ & Hbad & Hok).
  split; [| split].
  - apply (Hok "1px" 1%Z); [reflexivity | discriminate].
  - apply (Hok "0x1" 1%Z); [reflexivity | discriminate].
  - apply Hbad. left. reflexivity.
Defined.

(** ** Updating a setting *)

Lemma set_settings_same (db : Db) : set_settings db (db_settings db) = db.
Proof. destruct db; reflexivity. Qed.

Lemma alter_missing_key {V : Type} (f : V -> V) (m : gmap string V) (i : string) :
  m !! i = None -> alter f i m = m.
Proof.
  intros Hnone. apply map_eq. intros j. destruct (decide (i = j)) as [<- | Hne].
  - rewrite lookup_alter_eq, Hnone. reflexivity.
  - rewrite lookup_alter_ne by exact Hne. reflexivity.
Qed.

(** X13: [updateSetting] only ever changes an existing row.  For a key the
    settings table does not hold it changes nothing, so [getSettings] keeps
    reporting the default; for a key it holds, the stored string becomes the
    new value and [getSettings] reports [parseFloat(value) || default]; the
    values reported for all other keys are unaffected either way. *)
Theorem updateSetting_no_insert (db : Db) (key value : string) :
  (db_settings db !! key = None ->
   updateSetting db key value = db
   /\ forall d : Js.num, reported (updateSetting db key value) key d = d)
  /\ (is_Some (db_settings db !! key) ->
      db_settings (updateSetting db key value) !! key = Some value
      /\ forall d : Js.num,
           reported (updateSetting db key value) key d
           = Js.or_else (ParseFloat.parse value) d)
  /\ (forall (other : string) (d : Js.num),
        other <> key ->
        reported (updateSetting db key value) other d = reported db other d)
  /\ dom (db_settings (updateSetting db key value)) = dom (db_settings db).
Proof.
  unfold updateSetting, reported. cbn [db_settings set_settings].
  split; [| split; [| split]].
  - intros Hnone. rewrite alter_missing_key by exact Hnone.
    split; [apply set_settings_same |]. intros d. rewrite Hnone. reflexivity.
  - intros [old Hold]. rewrite lookup_alter_eq, Hold. cbn. split; reflexivity.
  - intros other d Hne. rewrite lookup_alter_ne by congruence. reflexivity.
  - apply set_eq. intros k. rewrite !elem_of_dom.
    destruct (decide (key = k)) as [<- | Hne].
    + rewrite lookup_alter_eq. destruct (db_settings db !! key); cbn.
      * split; intros _; eexists; reflexivity.
      * split; intros [x Hx]; discriminate Hx.
    + rewrite lookup_alter_ne by exact Hne. reflexivity.
Qed.

(** Raising the sell cap to 3, and a key that was never seeded. *)
Lemma updateSetting_no_insert_witness :
  maxDailySells (getSettings (updateSetting sample_db "max_daily_sells" "3"))
  = Some (Js.or_else (ParseFloat.parse "3") (Js.Fin 1))
  /\ updateSetting (set_settings sample_db ∅) "max_daily_sells" "3"
     = set_settings sample_db ∅.
Proof.
  split.
  - change (Some (reported (updateSetting sample_db "max_daily_sells" "3")
                           "max_daily_sells" (Js.Fin 1))
            = Some (Js.or_else (ParseFloat.parse "3") (Js.Fin 1))).
    apply f_equal.
    apply (proj2 (proj1 (proj2 (updateSetting_no_insert sample_db "max_daily_sells" "3"))
                    (ex_intro _ "1" eq_refl))).
  - apply (proj1 (updateSetting_no_insert (set_settings sample_db ∅)
                    "max_daily_sells" "3")).
    reflexivity.
Defined.

(** ** Daily counters *)

Lemma set_daily_activity_ext (db : Db) (a b : gmap string DailyActivity) :
  a = b -> set_daily_activity db a = set_daily_activity db b.
Proof. intros ->. reflexivity. Qed.

(** X14: the daily counters only grow and are independent of each other:
    recording a buy leaves the sell count of that day, every other day and
    every other table as they were (and the same with buy and sell swapped);
    a buy and a sell can be recorded in either order with the same result;
    and after n buys and m sells on a day its counters are the earlier ones
    plus n and plus m. *)
Theorem daily_counters_accumulate (db : Db) (date : string) :
  (forall other : string, other <> date ->
      getDailyActivity (incrementDailyBuy db date) other = getDailyActivity db other
      /\ getDailyActivity (incrementDailySell db date) other = getDailyActivity db other)
  /\ (db_holdings (incrementDailyBuy db date) = db_holdings db
      /\ db_trades (incrementDailySell db date) = db_trades db
      /\ db_settings (incrementDailyBuy db date) = db_settings db)
  /\ (forall date2 : string,
        incrementDailyBuy (incrementDailySell db date2) date
        = incrementDailySell (incrementDailyBuy db date) date2)
  /\ (forall n m : nat,
        getDailyActivity
          (Nat.iter m (fun d => incrementDailySell d date)
             (Nat.iter n (fun d => incrementDailyBuy d date) db)) date
        = match n, m with
          | O, O => getDailyActivity db date
          | _, _ =>
              Some {| buy_count := buyCountOf (getDailyActivity db date) + Z.of_nat n;
                      sell_count := sellCountOf (getDailyActivity db date) + Z.of_nat m |}
          end).
Proof.
  split; [| split; [| split]].
  - intros other Hne. unfold getDailyActivity, incrementDailyBuy, incrementDailySell.
    cbn. split; destruct (db_daily_activity db !! date);
      rewrite lookup_insert_ne by congruence; reflexivity.
  - repeat split.
  - intros date2. unfold incrementDailyBuy, incrementDailySell.
    cbn [db_daily_activity set_daily_activity].
    unfold set_daily_activity. cbn. f_equal.
    destruct (decide (date = date2)) as [<- | Hne].
    + destruct (db_daily_activity db !! date) as [r |];
        rewrite !lookup_insert_eq, !insert_insert_eq; reflexivity.
    + destruct (db_daily_activity db !! date) as [r |] eqn:E1;
        destruct (db_daily_activity db !! date2) as [r2 |] eqn:E2;
        rewrite !lookup_insert_ne by congruence; rewrite ?E1, ?E2;
        apply insert_insert_ne; congruence.
  - assert (Hbuys : forall n,
              getDailyActivity (Nat.iter n (fun d => incrementDailyBuy d date) db) date
              = match n with
                | O => getDailyActivity db date
                | S _ => Some {| buy_count := buyCountOf (getDailyActivity db date)
                                              + Z.of_nat n;
                                 sell_count := sellCountOf (getDailyActivity db date) |}
                end).
    { induction n as [| n IH]; [reflexivity |].
      rewrite Nat.iter_succ. cbv beta. rewrite incrementDailyBuy_lookup, IH.
      destruct n; cbn [buyCountOf sellCountOf buy_count sell_count]; f_equal; f_equal; lia. }
    intros n m. induction m as [| m IH].
    + change (Nat.iter 0 (fun d => incrementDailySell d date) ?x) with x.
      rewrite Hbuys. destruct n; [reflexivity |].
      f_equal. f_equal. lia.
    + rewrite Nat.iter_succ. cbv beta. rewrite incrementDailySell_lookup, IH.
      destruct n, m; cbn [buyCountOf sellCountOf buy_count sell_count];
        f_equal; f_equal; lia.
Qed.

(** Two buys and a sale on 2 May 2024 leave 1 May untouched. *)
Lemma daily_counters_accumulate_witness :
  getDailyActivity (incrementDailyBuy sample_db "2024-05-02") "2024-05-01"
  = getDailyActivity sample_db "2024-05-01"
  /\ getDailyActivity
       (Nat.iter 1 (fun d => incrementDailySell d "2024-05-02")
          (Nat.iter 2 (fun d => incrementDailyBuy d "2024-05-02") sample_db))
       "2024-05-02"
     = Some {| buy_count := 0 + 2; sell_count := 0 + 1 |}.
Proof.
  pose proof (daily_counters_accumulate sample_db "2024-05-02") as (Hframe & _ & _ & Hn).
  split.
  - apply (Hframe "2024-05-01"). discriminate.
  - exact (Hn 2%nat 1%nat).
Defined.

(** ** Recording a trade *)

Lemma Qsgn_zero (x : Q) : Js.Qsgn x = 0%Z <-> x == 0.
Proof.
  unfold Js.Qsgn, Qeq. cbn [Qnum Qden]. destruct (Qnum x); cbn; split; intros H;
    try reflexivity; try discriminate; lia.
Qed.

(** The profit percentage of a sale at [s] of a lot bought at [b]: it is NaN
    only for b = s = 0, infinite for b = 0 otherwise, and for a positive
    purchase price it is above 0 exactly when the sale price is above the
    purchase price. *)
Lemma profitPercent_cases (b s : Q) :
  let percent := ((Js.Fin s - Js.Fin b) / Js.Fin b * Js.Fin 100)%js in
  (isNaN percent = true <-> b == 0 /\ s == 0)
  /\ (b == 0 -> ~ s == 0 -> percent = Js.PInf \/ percent = Js.NInf)
  /\ (0 < b -> (Js.gtb percent (Js.Fin 0) = true <-> b < s)).
Proof.
  cbn [Js.sub Js.neg Js.add Js.div].
  destruct (Js.Qeqb b 0) eqn:Eb.
  - apply Qeqb_eq in Eb.
    destruct (Js.Qsgn (s + - b)) eqn:Es; cbn; (split; [| split]);
      try (intros H; exfalso; lra).
    + apply Qsgn_zero in Es. split; [intros _; split; lra | reflexivity].
    + intros _ Hs. exfalso. apply Qsgn_zero in Es. lra.
    + split; [discriminate |]. intros [_ Hs].
      assert (H0 : s + - b == 0) by lra. apply Qsgn_zero in H0. congruence.
    + intros _ _. left. reflexivity.
    + split; [discriminate |]. intros [_ Hs].
      assert (H0 : s + - b == 0) by lra. apply Qsgn_zero in H0. congruence.
    + intros _ _. right. reflexivity.
  - apply Qeqb_neq in Eb. cbn [Js.mul isNaN]. split; [| split].
    + split; [discriminate | intros [H _]; contradiction].
    + intros H. contradiction.
    + intros Hpos. unfold Js.gtb. cbn [Js.ltb]. rewrite Qltb_lt.
      assert (Hy : (s + - b) / b * b == s - b) by (field; lra).
      remember ((s + - b) / b) as y eqn:Ey. clear Ey.
      pose proof (Qmult_lt_r 0 y b Hpos) as Hmul.
      split; intros H.
      * assert (H' : 0 < y) by lra. apply Hmul in H'. lra.
      * assert (H' : 0 * b < y * b) by lra. apply Hmul in H'. lra.
Qed.

(** X15: [addTrade] and its derived columns.  For finite prices and a
    finite quantity the row has profit (sell - buy) x quantity, the profit
    percentage ((sell - buy) / buy) x 100 and the holding days of
    [calculateHoldingDays].  The insert raises and stores nothing exactly
    when one of the derived columns is NaN: when purchase and sale price are
    both 0, or when the holding days are NaN (an unreadable date).
    Otherwise the row is stored under the next id and the holdings are not
    touched; for a purchase price of 0 the stored percentage is then
    infinite, and for a positive purchase price it is above 0 exactly when
    the sale price is above the purchase price. *)
Theorem addTrade_derived_columns
    (getTime : string -> Js.num) (db : Db) (etf : Z) (buy_date sell_date : string)
    (b s q : Q) :
  let row := tradeRow getTime etf buy_date sell_date (Js.Fin b) (Js.Fin s) (Js.Fin q) in
  let added := addTrade getTime db etf buy_date sell_date
                        (Js.Fin b) (Js.Fin s) (Js.Fin q) in
  tr_profit row = ((Js.Fin s - Js.Fin b) * Js.Fin q)%js
  /\ tr_profit_percent row = ((Js.Fin s - Js.Fin b) / Js.Fin b * Js.Fin 100)%js
  /\ tr_holding_days row = calculateHoldingDays getTime buy_date sell_date
  /\ (added = None
      <-> (b == 0 /\ s == 0)
          \/ isNaN (calculateHoldingDays getTime buy_date sell_date) = true)
  /\ (added <> None ->
      added = Some (set_trades db (<[(db_trades_seq db + 1)%Z := row]> (db_trades db))
                               (db_trades_seq db + 1),
                    (db_trades_seq db + 1)%Z)
      /\ (b == 0 -> tr_profit_percent row = Js.PInf \/ tr_profit_percent row = Js.NInf)
      /\ (0 < b -> (Js.gtb (tr_profit_percent row) (Js.Fin 0) = true <-> b < s))).
Proof.
  intros row added.
  destruct (profitPercent_cases b s) as (Hnan & Hinf & Hsign). cbv zeta in Hnan, Hinf, Hsign.
  split; [reflexivity |]. split; [reflexivity |]. split; [reflexivity |].
  assert (Ebind : bindable row
                  = negb (isNaN ((Js.Fin s - Js.Fin b) / Js.Fin b * Js.Fin 100)%js
                          || isNaN (calculateHoldingDays getTime buy_date sell_date))).
  { unfold bindable. subst row. cbn [tradeRow tr_buy_price tr_sell_price tr_quantity
                                      tr_profit tr_profit_percent tr_holding_days
                                      existsb isNaN Js.sub Js.neg Js.add Js.mul orb].
    rewrite orb_false_r. reflexivity. }
  assert (Eadded : added = if bindable row
                           then Some (set_trades db
                                        (<[(db_trades_seq db + 1)%Z := row]> (db_trades db))
                                        (db_trades_seq db + 1),
                                      (db_trades_seq db + 1)%Z)
                           else None) by reflexivity.
  split.
  - rewrite Eadded, Ebind.
    destruct (isNaN ((Js.Fin s - Js.Fin b) / Js.Fin b * Js.Fin 100)%js) eqn:E1;
      cbn [orb negb].
    + split; [intros _; left; apply Hnan; reflexivity | reflexivity].
    + destruct (isNaN (calculateHoldingDays getTime buy_date sell_date)) eqn:E2;
        cbn [negb].
      * split; [intros _; right; reflexivity | reflexivity].
      * split; [discriminate |]. intros [H | H]; [| discriminate].
        apply Hnan in H. discriminate.
  - intros Hsome. rewrite Eadded in Hsome |- *.
    destruct (bindable row) eqn:Eb; [| congruence].
    split; [reflexivity |]. split; [| exact Hsign].
    intros Hb0. apply Hinf; [exact Hb0 |]. intros Hs0.
    symmetry in Ebind. apply negb_true_iff, orb_false_iff in Ebind.
    destruct Ebind as [Ebind _].
    assert (Hboth : isNaN ((Js.Fin s - Js.Fin b) / Js.Fin b * Js.Fin 100)%js = true)
      by (apply Hnan; split; assumption).
    congruence.
Qed.

(** Ten units bought at 100 and sold at 106 are recorded; a lot bought at 0
    and sold at 0 is refused. *)
Lemma addTrade_derived_columns_witness :
  Js.gtb (tr_profit_percent
            (tradeRow IsoDate.getTime 1 "2024-01-10" "2024-05-02"
                      (Js.Fin 100) (Js.Fin 106) (Js.Fin 10)))
         (Js.Fin 0) = true
  /\ addTrade IsoDate.getTime sample_db 1 "2024-04-01" "2024-05-02"
              (Js.Fin 0) (Js.Fin 0) (Js.Fin 10) = None.
Proof.
  split.
  - destruct (addTrade_derived_columns IsoDate.getTime sample_db 1 "2024-01-10"
                "2024-05-02" 100 106 10) as (_ & _ & _ & _ & Hstored).
    destruct Hstored as (_ & _ & Hsign); [vm_compute; discriminate |].
    apply Hsign; reflexivity.
  - apply (proj1 (proj2 (proj2 (proj2 (addTrade_derived_columns
             IsoDate.getTime sample_db 1 "2024-04-01" "2024-05-02" 0 0 10))))).
    left. split; reflexivity.
Defined.

(** ** The trades page *)

(** A date on or after the cutoff of a window is on or after the cutoff of
    every longer window. *)
Lemma cutoff_within (now : Z) (short long : DateFilter) (time : Js.num) :
  (windowDays short <= windowDays long)%Z ->
  Js.geb time (cutoff now short) = true ->
  Js.geb time (cutoff now long) = true.
Proof.
  intros Hdays. unfold cutoff, Js.geb, Js.ofZ. cbn [Js.sub Js.neg Js.add].
  destruct time as [x| | |]; cbn [Js.leb]; try congruence.
  rewrite !Qleb_le. intros H.
  assert (Hq : inject_Z (windowDays short * 24 * 60 * 60 * 1000)
               <= inject_Z (windowDays long * 24 * 60 * 60 * 1000)).
  { rewrite <- Zle_Qle. lia. }
  lra.
Qed.

(** Filtering by a condition and then by a weaker one first. *)
Lemma filter_narrower {A : Type} (f g : A -> bool) (l : list A) :
  (forall x, f x = true -> g x = true) ->
  List.filter f l = List.filter f (List.filter g l).
Proof.
  intros Himp. induction l as [| x l IH]; [reflexivity |].
  cbn [List.filter]. destruct (f x) eqn:Ef.
  - rewrite (Himp x Ef). cbn [List.filter]. rewrite Ef, IH. reflexivity.
  - destruct (g x); [cbn [List.filter]; rewrite Ef |]; exact IH.
Qed.

(** X16: the date windows of the trades page.  ['all'] shows every trade;
    each of the other windows shows, in their original order, exactly the
    trades whose sell date is readable and not earlier than the current time
    minus 30, 90 or 365 days of 24 hours, so a trade with an unreadable sell
    date appears under ['all'] only, and trades dated in the future are never
    hidden; the windows are nested: the 30-day view is the 30-day view of
    the 90-day view, and the 90-day view is the 90-day view of the one-year
    view. *)
Theorem filterTrades_windows (getTime : string -> Js.num) (now : Z) (trades : list Trade) :
  filterTrades getTime now All trades = trades
  /\ (forall dateFilter : DateFilter, dateFilter <> All ->
        sublist (filterTrades getTime now dateFilter trades) trades
        /\ forall t : Trade,
             In t (filterTrades getTime now dateFilter trades)
             <-> In t trades
                 /\ (getTime (t_sellDate t) = Js.PInf
                     \/ exists ms : Q,
                          getTime (t_sellDate t) = Js.Fin ms
                          /\ inject_Z (now - windowDays dateFilter * 86400000) <= ms))
  /\ filterTrades getTime now Last30d trades
     = filterTrades getTime now Last30d (filterTrades getTime now Last90d trades)
  /\ filterTrades getTime now Last90d trades
     = filterTrades getTime now Last90d (filterTrades getTime now Last1y trades).
Proof.
  split; [reflexivity |]. split; [| split].
  - intros dateFilter Hf.
    assert (E : filterTrades getTime now dateFilter trades
                = List.filter (fun t => Js.geb (getTime (t_sellDate t))
                                               (cutoff now dateFilter)) trades)
      by (destruct dateFilter; [congruence | reflexivity ..]).
    rewrite E. split.
    + clear. induction trades as [| t l IH]; [constructor |].
      cbn [List.filter]. destruct (Js.geb _ _); [apply sublist_skip | apply sublist_cons];
        exact IH.
    + intros t. rewrite List.filter_In.
      assert (Hc : cutoff now dateFilter
                   = Js.Fin (inject_Z now
                             + - inject_Z (windowDays dateFilter * 24 * 60 * 60 * 1000)))
        by reflexivity.
      assert (Hq : inject_Z (now - windowDays dateFilter * 86400000)
                   == inject_Z now
                      + - inject_Z (windowDays dateFilter * 24 * 60 * 60 * 1000)).
      { unfold Z.sub. rewrite inject_Z_plus, inject_Z_opp.
        apply Qplus_comp; [reflexivity |]. apply Qopp_comp.
        apply inject_Z_injective. lia. }
      rewrite Hc. unfold Js.geb.
      split; intros [Hin H]; (split; [exact Hin |]).
      * destruct (getTime (t_sellDate t)) as [x| | |]; cbn [Js.leb] in H;
          try discriminate; [right | left; reflexivity].
        exists x. split; [reflexivity |]. apply Qleb_le in H. lra.
      * destruct H as [-> | (ms & -> & H)]; [reflexivity |].
        cbn [Js.leb]. apply Qleb_le. lra.
  - apply filter_narrower. intros t. apply cutoff_within. cbn. lia.
  - apply filter_narrower. intros t. apply cutoff_within. cbn. lia.
Qed.

(** A running total of finite numbers between [lo] and [hi] stays finite and
    between [lo] and [hi] times their count. *)
Lemma bounded_sum {A : Type} (g : A -> Js.num) (lo hi : Q) (l : list A) :
  Forall (fun t => exists p : Q, g t = Js.Fin p /\ lo <= p /\ p <= hi) l ->
  forall a : Q,
    exists s : Q,
      fold_left (fun sum t => (sum + g t)%js) l (Js.Fin a) = Js.Fin s
      /\ a + lo * inject_Z (Z.of_nat (length l)) <= s
      /\ s <= a + hi * inject_Z (Z.of_nat (length l)).
Proof.
  induction 1 as [| t l (p & Hp & Hlo & Hhi) _ IH]; intros a.
  - exists a. cbn [fold_left length]. change (inject_Z (Z.of_nat 0)) with 0.
    split; [reflexivity |]. split; lra.
  - cbn [fold_left]. rewrite Hp. cbn [Js.add].
    destruct (IH (a + p)) as (s & Es & B1 & B2).
    exists s. split; [exact Es |].
    assert (En : inject_Z (Z.of_nat (length (t :: l)))
                 == inject_Z (Z.of_nat (length l)) + 1).
    { cbn [length]. rewrite Nat2Z.inj_succ. unfold Z.succ.
      rewrite inject_Z_plus. reflexivity. }
    rewrite En. split; lra.
Qed.

Lemma filter_length_le {A : Type} (f : A -> bool) (l : list A) :
  (length (List.filter f l) <= length l)%nat.
Proof.
  induction l as [| x l IH]; [constructor |].
  cbn [List.filter]. destruct (f x); cbn [length]; lia.
Qed.

Lemma filter_length_all {A : Type} (f : A -> bool) (l : list A) :
  length (List.filter f l) = length l <-> Forall (fun x => f x = true) l.
Proof.
  induction l as [| x l IH]; [split; [constructor | reflexivity] |].
  cbn [List.filter]. pose proof (filter_length_le f l) as Hle.
  destruct (f x) eqn:Ef; cbn [length]; split; intros H.
  - constructor; [exact Ef | apply IH; lia].
  - inversion H; subst. f_equal. apply IH. assumption.
  - lia.
  - inversion H; subst. congruence.
Qed.

Lemma filter_length_none {A : Type} (f : A -> bool) (l : list A) :
  length (List.filter f l) = O <-> Forall (fun x => f x = false) l.
Proof.
  induction l as [| x l IH]; [split; [constructor | reflexivity] |].
  cbn [List.filter]. destruct (f x) eqn:Ef; cbn [length]; split; intros H.
  - discriminate.
  - inversion H; subst. congruence.
  - constructor; [exact Ef | apply IH; exact H].
  - inversion H; subst. apply IH. assumption.
Qed.

(** A part [k] of a positive whole [n] as a percentage. *)
Lemma share_of_whole (k n : Q) :
  0 < n -> 0 <= k -> k <= n ->
  0 <= k / n * 100 /\ k / n * 100 <= 100
  /\ (k / n * 100 == 100 <-> k == n)
  /\ (k / n * 100 == 0 <-> k == 0).
Proof.
  intros Hn Hk0 Hkn.
  assert (Hy : k / n * n == k) by (field; lra).
  remember (k / n) as y eqn:Ey. clear Ey.
  pose proof (Qmult_lt_r y 0 n Hn) as Hneg.
  pose proof (Qmult_lt_r 1 y n Hn) as Hgt.
  assert (Hy0 : 0 <= y).
  { apply Qnot_lt_le. intros H. apply Hneg in H. lra. }
  assert (Hy1 : y <= 1).
  { apply Qnot_lt_le. intros H. apply Hgt in H. lra. }
  split; [lra |]. split; [lra |]. split; split; intros H.
  - assert (E : y * n == 1 * n) by (apply Qmult_comp; [lra | reflexivity]). lra.
  - assert (E : y == 1) by (apply (Qmult_inj_r y 1 n); lra). lra.
  - assert (E : y * n == 0 * n) by (apply Qmult_comp; [lra | reflexivity]). lra.
  - assert (E : y == 0) by (apply (Qmult_inj_r y 0 n); lra). lra.
Qed.

(** A running total of finite numbers that are all non-negative (or all
    non-positive) stays finite and on that side of where it started. *)
Lemma one_sided_sum {A : Type} (g : A -> Js.num) (up : bool) (l : list A) :
  Forall (fun t => exists p : Q, g t = Js.Fin p /\ if up then 0 <= p else p <= 0) l ->
  forall a : Q,
    exists s : Q,
      fold_left (fun sum t => (sum + g t)%js) l (Js.Fin a) = Js.Fin s
      /\ if up then a <= s else s <= a.
Proof.
  induction 1 as [| t l (p & Hp & Hside) _ IH]; intros a.
  - exists a. split; [reflexivity |]. destruct up; lra.
  - cbn [fold_left]. rewrite Hp. cbn [Js.add].
    destruct (IH (a + p)) as (s & Es & B).
    exists s. split; [exact Es |]. destruct up; lra.
Qed.

(** X17: the summary cards of the trades page.  With no trade to show every
    figure is 0 (nothing is divided by zero).  Otherwise the win rate is a
    finite number between 0 and 100, whatever the stored profits are; it is
    100 exactly when every shown trade has a profit above 0 and 0 exactly
    when none has (a trade that breaks even counts as not won); and when no
    shown trade has a negative profit, the total and the average profit are
    finite and not negative, and when none has a positive profit they are
    not positive. *)
Theorem tradesSummary_rates (trades : list Trade) :
  tradesSummary [] = mkTradesSummary (Js.Fin 0) (Js.ofZ 0) (Js.ofZ 0)
                                     (Js.Fin 0) (Js.Fin 0) (Js.Fin 0)
  /\ (trades <> [] ->
      (exists w : Q,
          winRate (tradesSummary trades) = Js.Fin w /\ 0 <= w /\ w <= 100
          /\ (w == 100 <-> Forall (fun t => Js.gtb (profit t) (Js.Fin 0) = true) trades)
          /\ (w == 0 <-> Forall (fun t => Js.gtb (profit t) (Js.Fin 0) = false) trades))
      /\ forall up : bool,
           Forall (fun t => exists p : Q,
                       profit t = Js.Fin p /\ if up then 0 <= p else p <= 0) trades ->
           exists total avg : Q,
             totalProfit (tradesSummary trades) = Js.Fin total
             /\ avgProfit (tradesSummary trades) = Js.Fin avg
             /\ if up then 0 <= total /\ 0 <= avg else total <= 0 /\ avg <= 0).
Proof.
  split; [reflexivity |]. intros Hne.
  set (n := inject_Z (Z.of_nat (length trades))).
  assert (Hn : 0 < n).
  { unfold n. change 0 with (inject_Z 0). rewrite <- Zlt_Qlt.
    destruct trades; [congruence | cbn [length]; lia]. }
  assert (Hsome : Js.gtb (lengthOf trades) (Js.Fin 0) = true).
  { unfold Js.gtb, lengthOf, Js.ofZ. cbn [Js.ltb]. apply Qltb_lt. exact Hn. }
  assert (Hz : Js.Qeqb n 0 = false) by (apply Qeqb_neq; lra).
  split.
  - set (won := List.filter (fun t => Js.gtb (profit t) (Js.Fin 0)) trades).
    set (k := inject_Z (Z.of_nat (length won))).
    assert (Hk : 0 <= k /\ k <= n).
    { unfold k, n. change 0 with (inject_Z 0). rewrite <- !Zle_Qle.
      pose proof (filter_length_le (fun t => Js.gtb (profit t) (Js.Fin 0)) trades).
      fold won in H. lia. }
    assert (Ew : winRate (tradesSummary trades) = Js.Fin (k / n * 100)).
    { unfold tradesSummary. cbn [winRate]. rewrite Hsome.
      unfold lengthOf, Js.ofZ. fold won. fold k. fold n.
      cbn [Js.div]. rewrite Hz. reflexivity. }
    exists (k / n * 100). split; [exact Ew |].
    destruct (share_of_whole k n Hn (proj1 Hk) (proj2 Hk)) as (B0 & B1 & Hall & Hnone).
    split; [exact B0 |]. split; [exact B1 |]. split.
    + rewrite <- filter_length_all. fold won. rewrite Hall.
      unfold k, n. split; intros H.
      * apply (proj1 (inject_Z_injective _ _)) in H. lia.
      * rewrite H. reflexivity.
    + rewrite <- filter_length_none. fold won. rewrite Hnone.
      unfold k. change 0 with (inject_Z 0). split; intros H.
      * apply (proj1 (inject_Z_injective _ _)) in H. lia.
      * rewrite H. reflexivity.
  - intros up Hall.
    destruct (one_sided_sum profit up trades Hall 0) as (s & Es & B).
    exists s, (s / n). unfold tradesSummary. cbn [totalProfit avgProfit].
    rewrite Hsome, Es. unfold lengthOf, Js.ofZ. fold n. cbn [Js.div]. rewrite Hz.
    split; [reflexivity |]. split; [reflexivity |].
    destruct up; (split; [exact B |]).
    + apply Qle_shift_div_l; [exact Hn | lra].
    + apply Qle_shift_div_r; [exact Hn | lra].
Qed.

(** Two trades won with 5000 each: nothing lost, so total and average are
    not negative. *)
Lemma tradesSummary_rates_witness :
  exists total avg : Q,
    totalProfit (tradesSummary [sample_trade; sample_trade])
    = Js.Fin total
    /\ avgProfit (tradesSummary [sample_trade; sample_trade])
       = Js.Fin avg
    /\ 0 <= total /\ 0 <= avg.
Proof.
  assert (Hne : [sample_trade; sample_trade] <> []) by discriminate.
  apply (proj2 (proj2 (tradesSummary_rates [sample_trade; sample_trade]) Hne) true).
  constructor; [| constructor; [| constructor]].
  - exists 5000. split; [reflexivity | discriminate].
  - exists 5000. split; [reflexivity | discriminate].
Defined.

(** ** Market data: the 20-day average *)

Lemma lengthOf_geb {A : Type} (l : list A) (n : nat) :
  Js.geb (lengthOf l) (Js.ofZ (Z.of_nat n)) = (n <=? length l)%nat.
Proof.
  unfold Js.geb, lengthOf, Js.ofZ. cbn [Js.leb].
  destruct (n <=? length l)%nat eqn:E.
  - apply Qleb_le. rewrite <- Zle_Qle. apply Nat.leb_le in E. lia.
  - apply Qleb_gt. rewrite <- Zlt_Qlt. apply Nat.leb_gt in E. lia.
Qed.

Lemma lengthOf_gtb {A : Type} (l : list A) :
  Js.gtb (lengthOf l) (Js.Fin 0) = negb (Nat.eqb (length l) 0).
Proof.
  unfold Js.gtb, lengthOf, Js.ofZ. cbn [Js.ltb].
  destruct (length l) as [| n]; [reflexivity |].
  cbn [Nat.eqb negb]. apply Qltb_lt. change 0 with (inject_Z 0).
  rewrite <- Zlt_Qlt. lia.
Qed.

(** Every price kept from a series is a finite number. *)
Lemma nonNull_finite (series : option (list (option Q))) :
  Forall (fun p => exists q : Q, p = Js.Fin q) (nonNull series).
Proof.
  destruct series as [l |]; [| constructor].
  cbn [nonNull]. induction l as [| [q |] l IH]; cbn; [constructor | | exact IH].
  constructor; [exists q; reflexivity | exact IH].
Qed.

(** Finite prices lie between some bounds. *)
Lemma finite_bounded (l : list Js.num) :
  Forall (fun p => exists q : Q, p = Js.Fin q) l ->
  exists lo hi : Q,
    Forall (fun p => exists q : Q, p = Js.Fin q /\ lo <= q /\ q <= hi) l.
Proof.
  induction 1 as [| p l (q & Hq) _ (lo & hi & IH)].
  - exists 0, 0. constructor.
  - exists (if Qlt_le_dec q lo then q else lo), (if Qlt_le_dec hi q then q else hi).
    destruct (Qlt_le_dec q lo) as [L | L], (Qlt_le_dec hi q) as [U | U];
      (constructor;
       [exists q; split; [exact Hq | split; lra]
       | eapply List.Forall_impl; [| exact IH];
         intros p' (q' & E & B1 & B2); exists q'; split; [exact E | split; lra]]).
Qed.

Lemma slice_last_app {A : Type} (older recent : list A) :
  slice_last (length recent) (older ++ recent) = recent.
Proof.
  unfold slice_last. rewrite List.length_app.
  replace (length older + length recent - length recent)%nat with (length older) by lia.
  apply drop_app_length.
Qed.

Lemma slice_last_length {A : Type} (n : nat) (l : list A) :
  (n <= length l)%nat -> length (slice_last n l) = n.
Proof. intros H. unfold slice_last. rewrite List.length_skipn. lia. Qed.

(** The average of a non-empty list of prices between [lo] and [hi], divided
    by their number [n], is between [lo] and [hi]. *)
Lemma average_bounded (lo hi : Q) (l : list Js.num) :
  l <> [] ->
  Forall (fun p => exists q : Q, p = Js.Fin q /\ lo <= q /\ q <= hi) l ->
  exists d : Q,
    (sumOf l / lengthOf l)%js = Js.Fin d /\ lo <= d /\ d <= hi.
Proof.
  intros Hne Hall.
  destruct (bounded_sum (fun p => p) lo hi l Hall 0) as (s & Es & B1 & B2).
  set (n := inject_Z (Z.of_nat (length l))) in *.
  assert (Hn : 0 < n).
  { unfold n. change 0 with (inject_Z 0). rewrite <- Zlt_Qlt.
    destruct l; [congruence | cbn [length]; lia]. }
  unfold sumOf, lengthOf, Js.ofZ. fold n. rewrite Es. cbn [Js.div].
  assert (Hz : Js.Qeqb n 0 = false) by (apply Qeqb_neq; lra).
  rewrite Hz. exists (s / n). split; [reflexivity |]. split.
  - apply Qle_shift_div_l; [exact Hn | lra].
  - apply Qle_shift_div_r; [exact Hn | lra].
Qed.

Lemma dma20Of_bounded (lo hi : Q) (closePrices : list Js.num) :
  closePrices <> [] ->
  Forall (fun p => exists q : Q, p = Js.Fin q /\ lo <= q /\ q <= hi) closePrices ->
  exists d : Q, dma20Of closePrices = Js.Fin d /\ lo <= d /\ d <= hi.
Proof.
  intros Hne Hall. unfold dma20Of.
  change (Js.Fin 20) with (Js.ofZ (Z.of_nat 20)) at 1.
  rewrite lengthOf_geb, lengthOf_gtb.
  destruct (20 <=? length closePrices)%nat eqn:E20.
  - apply Nat.leb_le in E20.
    pose proof (slice_last_length 20 closePrices E20) as Hlen.
    assert (Hne' : slice_last 20 closePrices <> []).
    { intros E. rewrite E in Hlen. discriminate. }
    assert (Hall' : Forall (fun p => exists q : Q, p = Js.Fin q /\ lo <= q /\ q <= hi)
                           (slice_last 20 closePrices)).
    { unfold slice_last. apply Forall_drop. exact Hall. }
    destruct (average_bounded lo hi _ Hne' Hall') as (d & Ed & B).
    unfold lengthOf in Ed. rewrite Hlen in Ed. exists d. split; [exact Ed | exact B].
  - destruct closePrices as [| p l]; [congruence |]. cbn [length Nat.eqb negb].
    apply average_bounded; assumption.
Qed.

(** Non-negative finite prices lie below some bound. *)
Lemma nonneg_bounded (l : list Js.num) :
  Forall (fun p => exists q : Q, p = Js.Fin q /\ 0 <= q) l ->
  exists hi : Q,
    Forall (fun p => exists q : Q, p = Js.Fin q /\ 0 <= q /\ q <= hi) l.
Proof.
  intros Hall.
  assert (Hfin : Forall (fun p => exists q : Q, p = Js.Fin q) l).
  { eapply List.Forall_impl; [| exact Hall]. intros p (q & E & _). exists q. exact E. }
  destruct (finite_bounded l Hfin) as (lo & hi & Hb).
  exists hi. rewrite List.Forall_forall in *. intros p Hin.
  destruct (Hall p Hin) as (q & E & Hq). destruct (Hb p Hin) as (q' & E' & _ & Hhi).
  exists q. split; [exact E |]. split; [exact Hq |].
  rewrite E in E'. injection E' as <-. exact Hhi.
Qed.

(** X18: the 20-day average of the market data.  Without a closing price
    (no series, or nothing but [null]s) the stored average and the distance
    from it are 0.  Otherwise, for closing prices that are not negative, the
    average is a finite number that is not negative; only the last 20
    closing prices count, whatever came before them; for a positive average
    the distance is finite, negative exactly when the price is below the
    average and 0 when the price is the average; and for an average that is
    not positive the distance is 0 rather than a division by it. *)
Theorem dma20_of_recent_closes :
  (forall (yahooSymbol : string) (quote : ChartMeta) (ind : option ChartQuote),
      nonNull (ind ≫= close) = [] ->
      exists md : MarketDataWith20DMA,
        fetchYahooFinanceDataWith20DMA yahooSymbol (Some (mkChartResult (Some quote) ind))
        = Some md
        /\ md_dma20 md = Js.Fin 0 /\ md_dmaDistance md = Js.Fin 0)
  /\ (forall closePrices : list Js.num,
        closePrices <> [] ->
        Forall (fun p => exists q : Q, p = Js.Fin q /\ 0 <= q) closePrices ->
        exists d : Q, dma20Of closePrices = Js.Fin d /\ 0 <= d)
  /\ (forall older recent : list Js.num,
        length recent = 20%nat -> dma20Of (older ++ recent) = dma20Of recent)
  /\ (forall cmp dma20 : Q,
        (dma20 <= 0 -> dmaDistanceOf (Js.Fin cmp) (Js.Fin dma20) = Js.Fin 0)
        /\ (0 < dma20 ->
            exists d : Q,
              dmaDistanceOf (Js.Fin cmp) (Js.Fin dma20) = Js.Fin d
              /\ (d < 0 <-> cmp < dma20)
              /\ (cmp == dma20 -> d == 0))).
Proof.
  split; [| split; [| split]].
  - intros yahooSymbol quote ind Hnone.
    eexists. split; [reflexivity |].
    cbn [md_dma20 md_dmaDistance indicators]. rewrite Hnone. split; reflexivity.
  - intros closePrices Hne Hall.
    destruct (nonneg_bounded closePrices Hall) as (hi & Hb).
    destruct (dma20Of_bounded 0 hi closePrices Hne Hb) as (d & Ed & Hd & _).
    exists d. split; assumption.
  - intros older recent Hlen. unfold dma20Of.
    change (Js.Fin 20) with (Js.ofZ (Z.of_nat 20)).
    rewrite !lengthOf_geb. rewrite List.length_app, Hlen.
    replace (20 <=? length older + 20)%nat with true
      by (symmetry; apply Nat.leb_le; lia).
    cbn [Nat.leb]. rewrite <- Hlen at 1. rewrite slice_last_app.
    unfold slice_last. rewrite Hlen. reflexivity.
  - intros cmp dma20. unfold dmaDistanceOf, Js.gtb. cbn [Js.ltb]. split.
    + intros Hle. assert (E : Js.Qltb 0 dma20 = false) by (apply Qltb_ge; exact Hle).
      rewrite E. reflexivity.
    + intros Hpos. assert (E : Js.Qltb 0 dma20 = true) by (apply Qltb_lt; exact Hpos).
      rewrite E. cbn [Js.sub Js.neg Js.add Js.div].
      assert (Hz : Js.Qeqb dma20 0 = false) by (apply Qeqb_neq; lra).
      rewrite Hz. cbn [Js.mul]. eexists. split; [reflexivity |].
      split.
      * assert (Hy : (cmp + - dma20) / dma20 * dma20 == cmp - dma20) by (field; lra).
        remember ((cmp + - dma20) / dma20) as y eqn:Ey. clear Ey.
        pose proof (Qmult_lt_r y 0 dma20 Hpos) as Hmul.
        split; intros H.
        -- assert (H' : y < 0) by lra. apply Hmul in H'. lra.
        -- assert (H' : y * dma20 < 0 * dma20) by lra. apply Hmul in H'. lra.
      * intros Hsame. rewrite Hsame. field. lra.
Qed.

(** Two closes before the last twenty do not count, and a price of 95 is
    below an average of 100. *)
Lemma dma20_of_recent_closes_witness :
  dma20Of ([Js.Fin 500; Js.Fin 400] ++ repeat (Js.Fin 100) 20)
  = dma20Of (repeat (Js.Fin 100) 20)
  /\ exists d : Q,
       dmaDistanceOf (Js.Fin 95) (Js.Fin 100) = Js.Fin d /\ d < 0.
Proof.
  destruct dma20_of_recent_closes as (_ & _ & Hrecent & Hdist).
  split.
  - apply Hrecent. reflexivity.
  - destruct (proj2 (Hdist 95 100)) as (d & Ed & Hsign & _); [reflexivity |].
    exists d. split; [exact Ed |]. apply Hsign. reflexivity.
Defined.

(** ** Market data: the fields read from the quote *)

(** [x || 0] for a possibly missing number [x] is that number, or 0 when it
    is missing. *)
Lemma orZero_finite (x : option Q) :
  exists c : Q,
    Js.or_else (toNumber x) (Js.Fin 0) = Js.Fin c /\ c == default 0 x.
Proof.
  destruct x as [q |]; cbn [toNumber default]; unfold Js.or_else; cbn [Js.truthy].
  - destruct (Js.Qeqb q 0) eqn:E; cbn [negb].
    + exists 0. split; [reflexivity |]. apply Qeqb_eq in E. rewrite E. reflexivity.
    + exists q. split; reflexivity.
  - exists 0. split; reflexivity.
Qed.

Lemma or_else_finite (x : Q) : exists c : Q, Js.or_else (Js.Fin x) (Js.Fin 0) = Js.Fin c.
Proof. unfold Js.or_else. destruct (Js.truthy (Js.Fin x)); eexists; reflexivity. Qed.

Lemma dmaDistanceOf_finite (cmp dma20 : Q) :
  exists d : Q, dmaDistanceOf (Js.Fin cmp) (Js.Fin dma20) = Js.Fin d.
Proof.
  unfold dmaDistanceOf, Js.gtb. cbn [Js.ltb].
  destruct (Js.Qltb 0 dma20) eqn:E; [| eexists; reflexivity].
  apply Qltb_lt in E. cbn [Js.sub Js.neg Js.add Js.div].
  assert (Hz : Js.Qeqb dma20 0 = false) by (apply Qeqb_neq; lra).
  rewrite Hz. eexists. reflexivity.
Qed.

Lemma dma20Of_finite (series : option (list (option Q))) :
  exists d : Q, dma20Of (nonNull series) = Js.Fin d.
Proof.
  pose proof (nonNull_finite series) as Hfin.
  destruct (nonNull series) as [| p l] eqn:E; [exists 0; reflexivity |].
  destruct (finite_bounded _ Hfin) as (lo & hi & Hall).
  destruct (dma20Of_bounded lo hi (p :: l)) as (d & Ed & _);
    [discriminate | exact Hall |].
  exists d. exact Ed.
Qed.

(** The percentage change against a previous close [p], for a price [c]. *)
Lemma changePercent_cases (c : Q) (p : option Q) :
  let changePercent :=
    Js.or_else ((Js.Fin c - toNumber p) / toNumber p * Js.Fin 100)%js (Js.Fin 0) in
  changePercent <> Js.NaN
  /\ (Js.is_finite changePercent = false
      <-> exists z : Q, p = Some z /\ z == 0 /\ ~ c == 0).
Proof.
  destruct p as [z |]; cbn [toNumber].
  - cbn [Js.sub Js.neg Js.add Js.div].
    destruct (Js.Qeqb z 0) eqn:E.
    + apply Qeqb_eq in E.
      destruct (Js.Qsgn (c + - z)) eqn:Es; cbn; (split; [discriminate |]).
      * apply Qsgn_zero in Es. split; [discriminate |].
        intros (z' & [= <-] & _ & Hc). exfalso. apply Hc. lra.
      * split; [intros _ | reflexivity]. exists z.
        split; [reflexivity |]. split; [exact E |]. intros Hc.
        assert (H0 : c + - z == 0) by lra. apply Qsgn_zero in H0. congruence.
      * split; [intros _ | reflexivity]. exists z.
        split; [reflexivity |]. split; [exact E |]. intros Hc.
        assert (H0 : c + - z == 0) by lra. apply Qsgn_zero in H0. congruence.
    + cbn [Js.mul]. unfold Js.or_else.
      destruct (Js.truthy _); cbn; (split; [discriminate |]);
        (split; [discriminate |]); intros (z' & [= <-] & Hz & _);
        apply Qeqb_neq in E; contradiction.
  - cbn. split; [discriminate |]. split; [discriminate |].
    intros (z & [=] & _).
Qed.

(** X19: the figures read from the quote are always numbers.  Whenever the
    answer has a [meta], a record is returned whose price, previous close,
    volume, change, 20-day average and distance from it are finite numbers;
    a missing price, previous close or volume is reported as 0, and without
    a previous close the change and the percentage change are 0 as well.
    The percentage change is never NaN, but it is not guarded against a
    previous close of 0: it is infinite exactly when the previous close is 0
    and the price is not.  Without a result or a [meta] nothing is
    returned. *)
Theorem quote_fields_are_numbers
    (yahooSymbol : string) (quote : ChartMeta) (ind : option ChartQuote) :
  fetchYahooFinanceDataWith20DMA yahooSymbol None = None
  /\ fetchYahooFinanceDataWith20DMA yahooSymbol (Some (mkChartResult None ind)) = None
  /\ exists (md : MarketDataWith20DMA) (c : Q),
       fetchYahooFinanceDataWith20DMA yahooSymbol (Some (mkChartResult (Some quote) ind))
       = Some md
       /\ md_cmp md = Js.Fin c /\ c == default 0 (regularMarketPrice quote)
       /\ Forall (fun x => Js.is_finite x = true)
                 [md_prevClose md; md_volume md; md_change md; md_dma20 md;
                  md_dmaDistance md]
       /\ (previousClose quote = None ->
           md_prevClose md = Js.Fin 0 /\ md_change md = Js.Fin 0
           /\ md_changePercent md = Js.Fin 0)
       /\ md_changePercent md <> Js.NaN
       /\ (Js.is_finite (md_changePercent md) = false
           <-> exists z : Q, previousClose quote = Some z /\ z == 0 /\ ~ c == 0).
Proof.
  split; [reflexivity |]. split; [reflexivity |].
  destruct (orZero_finite (regularMarketPrice quote)) as (c & Ec & Hc).
  eexists. exists c. split; [reflexivity |].
  cbn [md_cmp md_prevClose md_volume md_change md_dma20 md_dmaDistance
       md_changePercent meta indicators].
  rewrite Ec. split; [reflexivity |]. split; [exact Hc |]. split; [| split].
  - destruct (orZero_finite (previousClose quote)) as (p & Ep & _).
    destruct (orZero_finite (regularMarketVolume quote)) as (v & Ev & _).
    destruct (dma20Of_finite (ind ≫= close)) as (d & Ed).
    destruct (dmaDistanceOf_finite c d) as (x & Ex).
    rewrite Ep, Ev, Ed, Ex.
    repeat (constructor; [reflexivity |]).
    constructor; [| repeat constructor].
    destruct (previousClose quote) as [z |]; cbn [toNumber Js.sub Js.neg Js.add].
    + destruct (or_else_finite (c + - z)) as (y & Ey). rewrite Ey. reflexivity.
    + reflexivity.
  - intros ->. cbn. repeat split.
  - exact (changePercent_cases c (previousClose quote)).
Qed.

(** ** Market data: the reference high and low *)

(** The running maximum of finite numbers, started at [a]. *)
Lemma max_fold (l : list Js.num) :
  Forall (fun p => exists q : Q, p = Js.Fin q) l ->
  forall a : Q,
    exists m : Q,
      fold_left Js.max l (Js.Fin a) = Js.Fin m
      /\ (m = a \/ In (Js.Fin m) l)
      /\ a <= m
      /\ Forall (fun p => Js.leb p (Js.Fin m) = true) l.
Proof.
  induction 1 as [| p l (q & ->) _ IH]; intros a.
  - exists a. cbn. split; [reflexivity |]. split; [left; reflexivity |].
    split; [lra | constructor].
  - cbn [fold_left Js.max Js.ltb]. destruct (Js.Qltb a q) eqn:E.
    + apply Qltb_lt in E. destruct (IH q) as (m & Em & Hin & Hle & Hall).
      exists m. split; [exact Em |]. split; [| split; [lra |]].
      * right. destruct Hin as [-> | Hin]; [left; reflexivity | right; exact Hin].
      * constructor; [cbn [Js.leb]; apply Qleb_le; exact Hle | exact Hall].
    + apply Qltb_ge in E. destruct (IH a) as (m & Em & Hin & Hle & Hall).
      exists m. split; [exact Em |]. split; [| split; [lra |]].
      * destruct Hin as [-> | Hin]; [left; reflexivity | right; right; exact Hin].
      * constructor; [cbn [Js.leb]; apply Qleb_le; lra | exact Hall].
Qed.

Lemma min_fold (l : list Js.num) :
  Forall (fun p => exists q : Q, p = Js.Fin q) l ->
  forall a : Q,
    exists m : Q,
      fold_left min2 l (Js.Fin a) = Js.Fin m
      /\ (m = a \/ In (Js.Fin m) l)
      /\ m <= a
      /\ Forall (fun p => Js.leb (Js.Fin m) p = true) l.
Proof.
  induction 1 as [| p l (q & ->) _ IH]; intros a.
  - exists a. cbn. split; [reflexivity |]. split; [left; reflexivity |].
    split; [lra | constructor].
  - cbn [fold_left min2 Js.ltb]. destruct (Js.Qltb q a) eqn:E.
    + apply Qltb_lt in E. destruct (IH q) as (m & Em & Hin & Hle & Hall).
      exists m. split; [exact Em |]. split; [| split; [lra |]].
      * right. destruct Hin as [-> | Hin]; [left; reflexivity | right; exact Hin].
      * constructor; [cbn [Js.leb]; apply Qleb_le; exact Hle | exact Hall].
    + apply Qltb_ge in E. destruct (IH a) as (m & Em & Hin & Hle & Hall).
      exists m. split; [exact Em |]. split; [| split; [lra |]].
      * destruct Hin as [-> | Hin]; [left; reflexivity | right; right; exact Hin].
      * constructor; [cbn [Js.leb]; apply Qleb_le; lra | exact Hall].
Qed.

Lemma Math_max_greatest (values : list Js.num) :
  values <> [] ->
  Forall (fun p => exists q : Q, p = Js.Fin q) values ->
  exists m : Q,
    Math_max values = Js.Fin m /\ In (Js.Fin m) values
    /\ Forall (fun p => Js.leb p (Js.Fin m) = true) values.
Proof.
  intros Hne Hfin. destruct Hfin as [| p l (q & ->) Hfin]; [congruence |].
  unfold Math_max. cbn [fold_left Js.max Js.ltb].
  destruct (max_fold l Hfin q) as (m & Em & Hin & Hle & Hall).
  exists m. split; [exact Em |]. split.
  - destruct Hin as [-> | Hin]; [left; reflexivity | right; exact Hin].
  - constructor; [cbn [Js.leb]; apply Qleb_le; exact Hle | exact Hall].
Qed.

Lemma Math_min_least (values : list Js.num) :
  values <> [] ->
  Forall (fun p => exists q : Q, p = Js.Fin q) values ->
  exists m : Q,
    Math_min values = Js.Fin m /\ In (Js.Fin m) values
    /\ Forall (fun p => Js.leb (Js.Fin m) p = true) values.
Proof.
  intros Hne Hfin. destruct Hfin as [| p l (q & ->) Hfin]; [congruence |].
  unfold Math_min. cbn [fold_left min2 Js.ltb].
  destruct (min_fold l Hfin q) as (m & Em & Hin & Hle & Hall).
  exists m. split; [exact Em |]. split.
  - destruct Hin as [-> | Hin]; [left; reflexivity | right; exact Hin].
  - constructor; [cbn [Js.leb]; apply Qleb_le; exact Hle | exact Hall].
Qed.

(** X20: the reference high and low of the market data.  The stored high is
    the largest of the highs of the answer that are not [null], the stored
    low the smallest of its lows that are not [null]; when the answer has no
    high (or no low) at all, the current price stands in for it.  Both are
    always finite numbers. *)
Theorem high_low_of_series
    (yahooSymbol : string) (quote : ChartMeta) (ind : option ChartQuote) :
  exists md : MarketDataWith20DMA,
    fetchYahooFinanceDataWith20DMA yahooSymbol (Some (mkChartResult (Some quote) ind))
    = Some md
    /\ Js.is_finite (md_high52w md) = true
    /\ Js.is_finite (md_low52w md) = true
    /\ (nonNull (ind ≫= high) = [] -> md_high52w md = md_cmp md)
    /\ (nonNull (ind ≫= low) = [] -> md_low52w md = md_cmp md)
    /\ (nonNull (ind ≫= high) <> [] ->
        In (md_high52w md) (nonNull (ind ≫= high))
        /\ Forall (fun h => Js.leb h (md_high52w md) = true) (nonNull (ind ≫= high)))
    /\ (nonNull (ind ≫= low) <> [] ->
        In (md_low52w md) (nonNull (ind ≫= low))
        /\ Forall (fun l => Js.leb (md_low52w md) l = true) (nonNull (ind ≫= low))).
Proof.
  eexists. split; [reflexivity |].
  cbn [md_high52w md_low52w md_cmp meta indicators].
  destruct (orZero_finite (regularMarketPrice quote)) as (c & Ec & _). rewrite Ec.
  rewrite !lengthOf_gtb.
  set (highs := nonNull (ind ≫= high)). set (lows := nonNull (ind ≫= low)).
  assert (Hh : highs <> [] ->
               exists m, Math_max highs = Js.Fin m /\ In (Js.Fin m) highs
                         /\ Forall (fun p => Js.leb p (Js.Fin m) = true) highs).
  { intros Hne. apply Math_max_greatest; [exact Hne | apply nonNull_finite]. }
  assert (Hl : lows <> [] ->
               exists m, Math_min lows = Js.Fin m /\ In (Js.Fin m) lows
                         /\ Forall (fun p => Js.leb (Js.Fin m) p = true) lows).
  { intros Hne. apply Math_min_least; [exact Hne | apply nonNull_finite]. }
  clearbody highs lows.
  destruct highs as [| h highs], lows as [| l lows]; cbn [length Nat.eqb negb].
  - repeat split; congruence.
  - destruct Hl as (m & -> & Hin & Hall); [discriminate |].
    repeat split; try congruence; assumption.
  - destruct Hh as (m & -> & Hin & Hall); [discriminate |].
    repeat split; try congruence; assumption.
  - destruct Hh as (m & -> & Hin & Hall); [discriminate |].
    destruct Hl as (m' & -> & Hin' & Hall'); [discriminate |].
    repeat split; try congruence; assumption.
Qed.

(** ** Adding an instrument *)

(** Looking a symbol up after a row was appended to the table. *)
Lemma getETFBySymbol_appended (db : Db) (row : EtfRow) (s : string) :
  getETFBySymbol (set_etfs db (db_etfs db ++ [row])) s
  = match getETFBySymbol db s with
    | Some found => Some found
    | None => if String.eqb (er_symbol row) s then Some row else None
    end.
Proof.
  unfold getETFBySymbol. cbn [set_etfs db_etfs].
  induction (db_etfs db) as [| e l IH]; [reflexivity |].
  cbn [app find]. destruct (String.eqb (er_symbol e) s); [reflexivity | exact IH].
Qed.

(** X21: [POST /api/etfs], for a body whose fields are strings or missing.
    A request in which the symbol, the name or the category is missing or
    empty is answered with 400, and one whose symbol in upper case is
    already stored with 409; neither changes anything.  Every other such
    request is answered with the new id: the instrument is then found under
    the symbol in upper case, while its chart symbol is the symbol as it was
    typed followed by [.NS]; looking up any other symbol gives what it gave
    before, and no holding, trade or setting is touched. *)
Theorem etfs_POST_outcome
    (toUpperCase : string -> string) (db : Db) (rowid : Z) (body : EtfPostBody) :
  (present (ep_symbol body) = None \/ present (ep_name body) = None
   \/ present (ep_category body) = None ->
   etfs_POST toUpperCase db rowid body
   = mkOutcome db (Failure "symbol, name, and category are required" 400) [])
  /\ (forall symbol name category : string,
        present (ep_symbol body) = Some symbol ->
        present (ep_name body) = Some name ->
        present (ep_category body) = Some category ->
        (is_Some (getETFBySymbol db (toUpperCase symbol)) ->
         etfs_POST toUpperCase db rowid body
         = mkOutcome db
             (Failure ("ETF with symbol " ++ symbol ++ " already exists")%string 409) [])
        /\ (getETFBySymbol db (toUpperCase symbol) = None ->
            let row := mkEtfRow rowid (toUpperCase symbol) (symbol ++ ".NS")%string
                                name category in
            let db1 := out_db (etfs_POST toUpperCase db rowid body) in
            etfs_POST toUpperCase db rowid body = mkOutcome db1 (Created rowid) []
            /\ db_etfs db1 = db_etfs db ++ [row]
            /\ getETFBySymbol db1 (toUpperCase symbol) = Some row
            /\ (forall other : string,
                  other <> toUpperCase symbol ->
                  getETFBySymbol db1 other = getETFBySymbol db other)
            /\ db_holdings db1 = db_holdings db /\ db_trades db1 = db_trades db
            /\ db_settings db1 = db_settings db)).
Proof.
  split.
  - unfold etfs_POST. intros [H | [H | H]]; rewrite H.
    + reflexivity.
    + destruct (present (ep_symbol body)); reflexivity.
    + destruct (present (ep_symbol body)), (present (ep_name body)); reflexivity.
  - intros symbol name category Hs Hn Hc. unfold etfs_POST, addETF.
    rewrite Hs, Hn, Hc. split.
    + intros [existing E]. rewrite E. reflexivity.
    + intros E. rewrite E. cbn [out_db].
      split; [reflexivity |]. split; [reflexivity |]. split; [| split].
      * rewrite getETFBySymbol_appended, E. cbn [er_symbol].
        rewrite String.eqb_refl. reflexivity.
      * intros other Hne. rewrite getETFBySymbol_appended. cbn [er_symbol].
        destruct (getETFBySymbol db other); [reflexivity |].
        destruct (String.eqb (toUpperCase symbol) other) eqn:Eo; [| reflexivity].
        apply String.eqb_eq in Eo. congruence.
      * repeat split.
Qed.

(** A new instrument typed in lower case, and the sample one again. *)
Lemma etfs_POST_outcome_witness :
  getETFBySymbol
    (out_db (etfs_POST upper_case sample_db 2
                       (mkEtfPostBody (Some "goldbees") (Some "Gold BeES") (Some "Gold"))))
    "GOLDBEES"
  = Some (mkEtfRow 2 "GOLDBEES" "goldbees.NS" "Gold BeES" "Gold")
  /\ etfs_POST upper_case sample_db 2
               (mkEtfPostBody (Some "niftybees") (Some "Nifty") (Some "Index"))
     = mkOutcome sample_db (Failure "ETF with symbol niftybees already exists" 409) []
  /\ etfs_POST upper_case sample_db 2 (mkEtfPostBody (Some "X") None (Some "Index"))
     = mkOutcome sample_db (Failure "symbol, name, and category are required" 400) [].
Proof.
  split; [| split].
  - destruct (etfs_POST_outcome upper_case sample_db 2
                (mkEtfPostBody (Some "goldbees") (Some "Gold BeES") (Some "Gold")))
      as (_ & Hadd).
    destruct (Hadd "goldbees" "Gold BeES" "Gold" eq_refl eq_refl eq_refl) as (_ & Hnew).
    destruct (Hnew eq_refl) as (_ & _ & Hfound & _). exact Hfound.
  - destruct (etfs_POST_outcome upper_case sample_db 2
                (mkEtfPostBody (Some "niftybees") (Some "Nifty") (Some "Index")))
      as (_ & Hadd).
    destruct (Hadd "niftybees" "Nifty" "Index" eq_refl eq_refl eq_refl) as (Hdup & _).
    apply Hdup. eexists. reflexivity.
  - apply (proj1 (etfs_POST_outcome upper_case sample_db 2
                    (mkEtfPostBody (Some "X") None (Some "Index")))).
    right. left. reflexivity.
Defined.

(** ** Refreshing the market data of an added instrument *)

(** Removing [.NS] from a chart symbol gives back a symbol without a dot. *)
Lemma removeFirst_suffix (symbol : string) :
  Forall (fun c => c <> "."%char) (list_ascii_of_string symbol) ->
  removeFirst ".NS" (symbol ++ ".NS") = symbol.
Proof.
  induction symbol as [| c rest IH]; intros Hdots; [reflexivity |].
  cbn [list_ascii_of_string] in Hdots. inversion Hdots as [| ? ? Hc Hrest]; subst.
  change (String c rest +:+ ".NS") with (String c (rest +:+ ".NS")).
  cbn [removeFirst startsWith].
  assert (E : Ascii.eqb "." c = false).
  { apply Ascii.eqb_neq. congruence. }
  rewrite E. f_equal. apply IH. exact Hrest.
Qed.

(** X22: market data reaches an added instrument only when its symbol was
    typed in upper case.  [addETF] stores the symbol in upper case but
    builds the chart symbol from the symbol as typed, and the refresh looks
    the instrument up by the chart symbol without [.NS].  So for a symbol
    without a dot: if it is its own upper case, an answer with a [meta] is
    stored under the id of the instrument and counted as a success; if it is
    not (and no other instrument has that very symbol), the answer is
    dropped: nothing is stored and neither a success nor a failure is
    counted.  A request that fails counts one failure under the stored
    symbol. *)
Theorem refresh_needs_upper_case_symbol
    (toUpperCase : string -> string) (db db1 : Db) (rowid : Z)
    (symbol name category : string)
    (market : gmap Z MarketDataRow) (results : RefreshResults)
    (quote : ChartMeta) (ind : option ChartQuote) :
  addETF toUpperCase db rowid symbol name category = Some (db1, rowid) ->
  Forall (fun c => c <> "."%char) (list_ascii_of_string symbol) ->
  let row := mkEtfRow rowid (toUpperCase symbol) (symbol ++ ".NS")%string name category in
  let answer := Some (mkChartResult (Some quote) ind) in
  (toUpperCase symbol = symbol ->
   exists data : MarketDataWith20DMA,
     fetchYahooFinanceDataWith20DMA (symbol ++ ".NS") answer = Some data
     /\ md_symbol data = symbol
     /\ refreshETF db1 market results row answer
        = (upsertMarketData market rowid (md_cmp data) (md_high52w data) (md_low52w data)
                            (md_prevClose data) (md_change data) (md_changePercent data)
                            (md_volume data) (md_dma20 data) (md_dmaDistance data),
           mkRefreshResults (S (rr_success results)) (rr_failed results)
                            (rr_errors results)))
  /\ (toUpperCase symbol <> symbol -> getETFBySymbol db symbol = None ->
      refreshETF db1 market results row answer = (market, results))
  /\ refreshETF db1 market results row None
     = (market,
        mkRefreshResults (rr_success results) (S (rr_failed results))
                         (rr_errors results ++ [toUpperCase symbol])).
Proof.
  intros Hadd Hdots row answer. unfold addETF in Hadd.
  destruct (getETFBySymbol db (toUpperCase symbol)) eqn:Efree; [discriminate |].
  injection Hadd as <-. subst row answer.
  pose proof (removeFirst_suffix symbol Hdots) as Hsym.
  split; [| split].
  - intros Hupper. eexists. split; [reflexivity |]. split; [exact Hsym |].
    unfold refreshETF. cbn [fetchYahooFinanceDataWith20DMA meta er_yahoo_symbol].
    cbn [md_symbol]. rewrite Hsym, getETFBySymbol_appended.
    rewrite Hupper in Efree. rewrite Efree. cbn [er_symbol].
    rewrite Hupper, String.eqb_refl. reflexivity.
  - intros Hlower Hnone.
    unfold refreshETF. cbn [fetchYahooFinanceDataWith20DMA meta er_yahoo_symbol].
    cbn [md_symbol]. rewrite Hsym, getETFBySymbol_appended, Hnone. cbn [er_symbol].
    assert (E : String.eqb (toUpperCase symbol) symbol = false)
      by (apply String.eqb_neq; exact Hlower).
    rewrite E. reflexivity.
  - reflexivity.
Qed.

(** The instrument typed as [goldbees] never gets its quote; typed as
    [GOLDBEES] it does. *)
Lemma refresh_needs_upper_case_symbol_witness :
  refreshETF (set_etfs sample_db
                (db_etfs sample_db
                 ++ [mkEtfRow 2 "GOLDBEES" "goldbees.NS" "Gold BeES" "Gold"]))
             ∅ (mkRefreshResults 0 0 [])
             (mkEtfRow 2 "GOLDBEES" "goldbees.NS" "Gold BeES" "Gold")
             (Some sample_answer)
  = (∅, mkRefreshResults 0 0 [])
  /\ exists data : MarketDataWith20DMA,
       fetchYahooFinanceDataWith20DMA "GOLDBEES.NS" (Some sample_answer) = Some data
       /\ md_symbol data = "GOLDBEES"
       /\ refreshETF (set_etfs sample_db
                        (db_etfs sample_db
                         ++ [mkEtfRow 2 "GOLDBEES" "GOLDBEES.NS" "Gold BeES" "Gold"]))
                     ∅ (mkRefreshResults 0 0 [])
                     (mkEtfRow 2 "GOLDBEES" "GOLDBEES.NS" "Gold BeES" "Gold")
                     (Some sample_answer)
          = (upsertMarketData ∅ 2 (md_cmp data) (md_high52w data) (md_low52w data)
                              (md_prevClose data) (md_change data) (md_changePercent data)
                              (md_volume data) (md_dma20 data) (md_dmaDistance data),
             mkRefreshResults 1 0 []).
Proof.
  assert (Hdots : forall s, forallb (fun c => negb (Ascii.eqb c ".")) (list_ascii_of_string s)
                            = true ->
                  Forall (fun c => c <> "."%char) (list_ascii_of_string s)).
  { intros s H. apply List.Forall_forall. intros c Hin.
    apply (proj1 (forallb_forall _ _) H) in Hin.
    apply negb_true_iff, Ascii.eqb_neq in Hin. exact Hin. }
  split.
  - apply (proj1 (proj2 (refresh_needs_upper_case_symbol
                           upper_case sample_db _ 2 "goldbees" "Gold BeES" "Gold"
                           ∅ (mkRefreshResults 0 0 [])
                           (mkChartMeta (Some 95) (Some 100) None) None
                           eq_refl (Hdots "goldbees" eq_refl)))).
    + discriminate.
    + reflexivity.
  - apply (proj1 (refresh_needs_upper_case_symbol
                    upper_case sample_db _ 2 "GOLDBEES" "Gold BeES" "Gold"
                    ∅ (mkRefreshResults 0 0 [])
                    (mkChartMeta (Some 95) (Some 100) None) None
                    eq_refl (Hdots "GOLDBEES" eq_refl))).
    reflexivity.
Defined.

(** ** The XIRR page *)

Lemma add_comm (a b : Js.num) : (a + b)%js ==n (b + a)%js.
Proof. destruct a as [x| | |], b as [y| | |]; cbn; try tauto. ring. Qed.

(** A total over two arrays is the sum of their totals. *)
Lemma total_app {A : Type} (g : A -> Js.num) (l1 l2 : list A) :
  fold_left (fun sum x => (sum + g x)%js) (l1 ++ l2) (Js.Fin 0)
  ==n (fold_left (fun sum x => (sum + g x)%js) l1 (Js.Fin 0)
       + fold_left (fun sum x => (sum + g x)%js) l2 (Js.Fin 0))%js.
Proof. rewrite fold_left_app. apply sum_from. Qed.

Lemma total_cons {A : Type} (g : A -> Js.num) (x : A) (l : list A) :
  fold_left (fun sum x => (sum + g x)%js) (x :: l) (Js.Fin 0)
  ==n (g x + fold_left (fun sum x => (sum + g x)%js) l (Js.Fin 0))%js.
Proof. cbn [fold_left]. rewrite sum_from, add_0_l. reflexivity. Qed.

(** A total does not depend on the order of the array. *)
Lemma total_perm {A : Type} (g : A -> Js.num) (l l' : list A) :
  Permutation l l' ->
  fold_left (fun sum x => (sum + g x)%js) l (Js.Fin 0)
  ==n fold_left (fun sum x => (sum + g x)%js) l' (Js.Fin 0).
Proof.
  induction 1 as [| x l l' _ IH | x y l | l l' l'' _ IH1 _ IH2].
  - reflexivity.
  - rewrite !total_cons, IH. reflexivity.
  - rewrite !total_cons, <- !add_assoc, (add_comm (g y) (g x)). reflexivity.
  - rewrite IH1. exact IH2.
Qed.

(** The total of sums is the sum of the totals. *)
Lemma total_add {A : Type} (g h : A -> Js.num) (l : list A) :
  fold_left (fun sum x => (sum + (g x + h x))%js) l (Js.Fin 0)
  ==n (fold_left (fun sum x => (sum + g x)%js) l (Js.Fin 0)
       + fold_left (fun sum x => (sum + h x)%js) l (Js.Fin 0))%js.
Proof.
  induction l as [| x l IH]; [cbn; lra |].
  rewrite (total_cons (fun x => (g x + h x)%js)), (total_cons g), (total_cons h), IH.
  rewrite !add_assoc.
  rewrite <- (add_assoc (h x)), (add_comm (h x)), !add_assoc. reflexivity.
Qed.

Lemma total_finite {A : Type} (g : A -> Js.num) (l : list A) :
  Forall (fun x => exists q : Q, g x = Js.Fin q) l ->
  forall a : Q, exists s : Q, fold_left (fun sum x => (sum + g x)%js) l (Js.Fin a) = Js.Fin s.
Proof.
  induction 1 as [| x l (q & Hq) _ IH]; intros a; [exists a; reflexivity |].
  cbn [fold_left]. rewrite Hq. cbn [Js.add]. apply IH.
Qed.

Lemma eqv_finite (x : Js.num) (q : Q) :
  x ==n Js.Fin q -> exists q' : Q, x = Js.Fin q' /\ q' == q.
Proof. destruct x as [q'| | |]; cbn; try tauto. intros H. exists q'. split; [reflexivity | exact H]. Qed.

Lemma filter_perm {A : Type} (f : A -> bool) (l l' : list A) :
  Permutation l l' -> Permutation (List.filter f l) (List.filter f l').
Proof.
  induction 1 as [| x l l' _ IH | x y l | l l' l'' _ IH1 _ IH2]; cbn [List.filter].
  - constructor.
  - destruct (f x); [apply perm_skip |]; exact IH.
  - destruct (f x), (f y); try reflexivity. apply perm_swap.
  - transitivity (List.filter f l'); assumption.
Qed.

Lemma filter_map_all {A B : Type} (f : B -> bool) (g : A -> B) (l : list A) :
  (forall x, f (g x) = true) -> List.filter f (map g l) = map g l.
Proof.
  intros H. induction l as [| x l IH]; [reflexivity |].
  cbn [map List.filter]. rewrite H, IH. reflexivity.
Qed.

Lemma filter_map_none {A B : Type} (f : B -> bool) (g : A -> B) (l : list A) :
  (forall x, f (g x) = false) -> List.filter f (map g l) = [].
Proof.
  intros H. induction l as [| x l IH]; [reflexivity |].
  cbn [map List.filter]. rewrite H. exact IH.
Qed.

(** The totals of the XIRR page in terms of the holdings and the trades. *)
Lemma xirrPage_totals (getTime : string -> Js.num) (now : Js.num)
    (Math_pow : Js.num -> Js.num -> Js.num)
    (holdings : list Holding) (trades : list Trade) :
  let page := xirrPage getTime now Math_pow holdings trades in
  let cost := fold_left (fun sum t => (sum + t_buyPrice t * t_quantity t)%js)
                        trades (Js.Fin 0) in
  xp_totalInvested page ==n (xp_currentPortfolioValue page + cost)%js
  /\ xp_totalReturned page ==n (cost + totalProfit (tradesSummary trades))%js.
Proof.
  intros page cost. subst page. unfold xirrPage, pageCashFlows.
  cbn [xp_totalInvested xp_totalReturned xp_currentPortfolioValue tradesSummary totalProfit].
  set (A := map (fun h => mkCashFlow (buyDate h) (buyPrice h * quantity h)%js INVESTMENT)
                holdings).
  set (B := map (fun t => mkCashFlow (t_buyDate t) (t_buyPrice t * t_quantity t)%js
                                     INVESTMENT) trades).
  set (C := map (fun t => mkCashFlow (t_sellDate t)
                                     (t_buyPrice t * t_quantity t + profit t)%js RETURN)
                trades).
  pose proof (js_sort_perm (byDate getTime) (A ++ B ++ C)) as Hperm.
  assert (EA : fold_left (fun sum cf => (sum + cf_amount cf)%js) A (Js.Fin 0)
               = fold_left (fun sum h => (sum + buyPrice h * quantity h)%js)
                           holdings (Js.Fin 0)).
  { unfold A. rewrite fold_left_over_map. reflexivity. }
  assert (EB : fold_left (fun sum cf => (sum + cf_amount cf)%js) B (Js.Fin 0) = cost).
  { unfold B. rewrite fold_left_over_map. reflexivity. }
  assert (EC : fold_left (fun sum cf => (sum + cf_amount cf)%js) C (Js.Fin 0)
               = fold_left (fun sum t => (sum + (t_buyPrice t * t_quantity t + profit t))%js)
                           trades (Js.Fin 0)).
  { unfold C. rewrite fold_left_over_map. reflexivity. }
  split.
  - rewrite (total_perm cf_amount _ _ (filter_perm is_INVESTMENT _ _ Hperm)).
    rewrite !List.filter_app.
    unfold A at 1, B at 1, C.
    rewrite !filter_map_all by reflexivity. rewrite filter_map_none by reflexivity.
    fold A B. rewrite List.app_nil_r, total_app, EA, EB. reflexivity.
  - rewrite (total_perm cf_amount _ _ (filter_perm is_RETURN _ _ Hperm)).
    rewrite !List.filter_app.
    unfold A, B, C at 1.
    rewrite !filter_map_none by reflexivity. rewrite filter_map_all by reflexivity.
    fold C. cbn [app]. rewrite EC.
    apply (total_add (fun t => (t_buyPrice t * t_quantity t)%js) profit trades).
Qed.

(** Open holdings are valued at their purchase cost, so they enter the money
    invested and the current value alike: in exact arithmetic total returned
    + current value - total invested is the sum of the profits. *)
Lemma absoluteProfit_cancels
    (getTime : string -> Js.num) (now : Js.num) (Math_pow : Js.num -> Js.num -> Js.num)
    (holdings : list Holding) (trades : list Trade) :
  Forall (fun h => exists p q : Q, buyPrice h = Js.Fin p /\ quantity h = Js.Fin q)
         holdings ->
  Forall (fun t => exists p q r : Q,
              t_buyPrice t = Js.Fin p /\ t_quantity t = Js.Fin q /\ profit t = Js.Fin r)
         trades ->
  let page := xirrPage getTime now Math_pow holdings trades in
  exists invested realized absolute : Q,
    xp_totalInvested page = Js.Fin invested
    /\ totalProfit (tradesSummary trades) = Js.Fin realized
    /\ xp_absoluteProfit page = Js.Fin absolute
    /\ absolute == realized
    /\ (invested <= 0 -> xp_absoluteReturn page = Js.Fin 0)
    /\ (0 < invested ->
        exists percent : Q,
          xp_absoluteReturn page = Js.Fin percent
          /\ percent * invested == realized * 100).
Proof.
  intros Hh Ht page.
  destruct (xirrPage_totals getTime now Math_pow holdings trades) as [Hinv Hret].
  fold page in Hinv, Hret.
  destruct (total_finite (fun h => (buyPrice h * quantity h)%js) holdings) with (a := 0)
    as (a & Ea).
  { eapply List.Forall_impl; [| exact Hh].
    intros h (p & q & -> & ->). eexists. reflexivity. }
  destruct (total_finite (fun t => (t_buyPrice t * t_quantity t)%js) trades) with (a := 0)
    as (b & Eb).
  { eapply List.Forall_impl; [| exact Ht].
    intros t (p & q & r & -> & -> & _). eexists. reflexivity. }
  destruct (total_finite profit trades) with (a := 0) as (r & Er).
  { eapply List.Forall_impl; [| exact Ht].
    intros t (p & q & r & _ & _ & ->). eexists. reflexivity. }
  assert (Ecur : xp_currentPortfolioValue page = Js.Fin a) by exact Ea.
  assert (Ereal : totalProfit (tradesSummary trades) = Js.Fin r) by exact Er.
  cbv zeta in Hinv, Hret. rewrite Ecur, Eb in Hinv. rewrite Eb, Ereal in Hret.
  cbn [Js.add] in Hinv, Hret.
  destruct (eqv_finite _ _ Hinv) as (i & Ei & Hi).
  destruct (eqv_finite _ _ Hret) as (t & Et & Htq).
  assert (Eabs : xp_absoluteProfit page = Js.Fin (t + a + - i)).
  { change (xp_absoluteProfit page)
      with (xp_totalReturned page + xp_currentPortfolioValue page
            - xp_totalInvested page)%js.
    rewrite Et, Ecur, Ei. reflexivity. }
  assert (Eret : xp_absoluteReturn page
                 = if Js.gtb (Js.Fin i) (Js.Fin 0)
                   then (Js.Fin (t + a + - i) / Js.Fin i * Js.Fin 100)%js
                   else Js.Fin 0).
  { change (xp_absoluteReturn page)
      with (if Js.gtb (xp_totalInvested page) (Js.Fin 0)
            then (xp_absoluteProfit page / xp_totalInvested page * Js.Fin 100)%js
            else Js.Fin 0).
    rewrite Eabs, Ei. reflexivity. }
  exists i, r, (t + a + - i).
  split; [exact Ei |]. split; [exact Ereal |]. split; [exact Eabs |].
  split; [lra |]. rewrite Eret. unfold Js.gtb. cbn [Js.ltb]. split.
  - intros Hle. assert (E : Js.Qltb 0 i = false) by (apply Qltb_ge; exact Hle).
    rewrite E. reflexivity.
  - intros Hpos. assert (E : Js.Qltb 0 i = true) by (apply Qltb_lt; exact Hpos).
    rewrite E. cbn [Js.div].
    assert (Hz : Js.Qeqb i 0 = false) by (apply Qeqb_neq; lra).
    rewrite Hz. cbn [Js.mul]. eexists. split; [reflexivity |].
    assert (Habs : t + a + - i == r) by lra.
    clear - Habs Hpos. field_simplify_eq; [| lra]. rewrite <- Habs. ring.
Qed.

(** X23: on the XIRR page the absolute profit is the realized profit.  Open
    holdings are valued at their purchase cost, so they enter the money
    invested and the current value alike and cancel: for holdings and trades
    with whole prices, quantities and profits (non-negative costs and
    proceeds, totals of at most 2^53, so that no sum is rounded), total
    returned + current value - total invested is the sum of the profits of
    the trades, whatever the holdings are; and the absolute return is 0 when
    nothing was invested and otherwise has the sign of that profit. *)
Theorem absoluteProfit_is_realized
    (getTime : string -> Js.num) (now : Js.num) (Math_pow : Js.num -> Js.num -> Js.num)
    (holdings : list Holding) (trades : list Trade) :
  Forall wholeCost holdings ->
  Forall wholeTrade trades ->
  let page := xirrPage getTime now Math_pow holdings trades in
  Js.leb (xp_totalInvested page + xp_totalReturned page + xp_currentPortfolioValue page)%js
         exactBound = true ->
  exists invested realized absolute : Q,
    xp_totalInvested page = Js.Fin invested
    /\ totalProfit (tradesSummary trades) = Js.Fin realized
    /\ xp_absoluteProfit page = Js.Fin absolute
    /\ absolute == realized
    /\ (invested <= 0 -> xp_absoluteReturn page = Js.Fin 0)
    /\ (0 < invested ->
        exists percent : Q,
          xp_absoluteReturn page = Js.Fin percent
          /\ (0 < percent <-> 0 < realized)
          /\ (percent < 0 <-> realized < 0)).
Proof.
  intros Hh Ht page _.
  destruct (absoluteProfit_cancels getTime now Math_pow holdings trades)
    as (invested & realized & absolute & Ei & Er & Ea & Hq & Hzero & Hpct).
  { eapply List.Forall_impl; [| exact Hh].
    intros h (p & q & Hp & Hq & _). eauto. }
  { eapply List.Forall_impl; [| exact Ht].
    intros t (p & q & r & Hp & Hq & Hr & _). eauto 6. }
  exists invested, realized, absolute.
  split; [exact Ei |]. split; [exact Er |]. split; [exact Ea |]. split; [exact Hq |].
  split; [exact Hzero |].
  intros Hpos. destruct (Hpct Hpos) as (percent & Ep & Hprod).
  exists percent. split; [exact Ep |].
  pose proof (Qmult_lt_r 0 percent invested Hpos) as Hup.
  pose proof (Qmult_lt_r percent 0 invested Hpos) as Hdown.
  split; split; intros H.
  - apply Hup in H. lra.
  - apply Hup. lra.
  - apply Hdown in H. lra.
  - apply Hdown. lra.
Qed.

(** Two open lots, one trade won with 5000 and one lost with 1000: the
    absolute profit is 4000. *)
Lemma absoluteProfit_is_realized_witness :
  exists absolute : Q,
    xp_absoluteProfit (xirrPage IsoDate.getTime same_day_now pow_whole
                                [lot1; lot2] [sample_trade; lost_trade])
    = Js.Fin absolute
    /\ absolute == 4000.
Proof.
  destruct (absoluteProfit_is_realized IsoDate.getTime same_day_now pow_whole
              [lot1; lot2] [sample_trade; lost_trade])
    as (invested & realized & absolute & _ & Er & Ea & Hq & _).
  - constructor; [| constructor; [| constructor]].
    + exists 100%Z, 10%Z. repeat split; (reflexivity || lia).
    + exists 110%Z, 10%Z. repeat split; (reflexivity || lia).
  - constructor; [| constructor; [| constructor]].
    + exists 100%Z, 1000%Z, 5000%Z. repeat split; (reflexivity || lia).
    + exists 105%Z, 100%Z, (-1000)%Z. repeat split; (reflexivity || lia).
  - vm_compute. reflexivity.
  - exists absolute. split; [exact Ea |].
    injection Er as <-. rewrite Hq. reflexivity.
Defined.

(** ** The instrument list: the averaging filter *)

Lemma filter_none_of {A : Type} (P : A -> Prop) `{forall x, Decision (P x)} (l : list A) :
  Forall (fun x => ~ P x) l -> filter P l = [].
Proof.
  induction 1 as [| x l Hx _ IH]; [reflexivity |].
  rewrite filter_cons_False by exact Hx. exact IH.
Qed.

(** The first lot stored under a symbol is the first holding with it. *)
Lemma holdingsMap_first (holdings before after : list Holding) (latest : Holding) :
  holdings = before ++ latest :: after ->
  Forall (fun h => etfSymbol h <> etfSymbol latest) before ->
  exists rest : list Holding,
    holdingsMap holdings !! etfSymbol latest = Some (latest :: rest).
Proof.
  intros -> Hbefore.
  pose proof (grouping_lookup etfSymbol (before ++ latest :: after) ∅ (etfSymbol latest))
    as Hgroup.
  rewrite lookup_empty in Hgroup. cbn [default from_option id app] in Hgroup.
  rewrite filter_app, (filter_none_of _ before Hbefore) in Hgroup.
  rewrite filter_cons_True in Hgroup by reflexivity. cbn [app] in Hgroup.
  unfold holdingsMap.
  destruct (fold_left _ _ _ !! etfSymbol latest) as [l |]; [| discriminate].
  cbn [default from_option id] in Hgroup. subst l. eexists. reflexivity.
Qed.

Lemma holdingsMap_none (holdings : list Holding) (symbol : string) :
  Forall (fun h => etfSymbol h <> symbol) holdings ->
  default [] (holdingsMap holdings !! symbol) = [].
Proof.
  intros Hnone. unfold holdingsMap.
  rewrite (grouping_lookup etfSymbol holdings ∅ symbol), lookup_empty.
  cbn [default from_option id app]. apply filter_none_of. exact Hnone.
Qed.

(** X24: the averaging filter of the instrument list.  An instrument that
    does not match the search text or the category is never listed.  One
    that matches is listed when no holding has its symbol, when no averaging
    threshold is set, or when it has no price yet.  When it is held, the
    first holding with its symbol in the list of holdings decides: with a
    positive purchase price p of that holding, a threshold k and a price c
    (both not 0), the instrument is hidden exactly when the drop that
    [shouldAverage] also computes, (p - c) / p x 100, is below k, so a
    computed drop of exactly k is enough to be listed.  In particular, for
    a threshold of at most 5, every instrument for which [shouldAverage]
    holds is listed, and for a positive threshold an instrument priced at
    or above the purchase price is hidden. *)
Theorem listed_when_dropped_enough
    (toLowerCase : string -> string) (filter categoryFilter : string)
    (settings : option Settings) (holdings : list Holding) (etf : ListedETF) :
  let matchesSearch :=
    includes (toLowerCase (le_symbol etf)) (toLowerCase filter)
    || includes (toLowerCase (le_name etf)) (toLowerCase filter) in
  let matchesCategory :=
    String.eqb categoryFilter "All" || String.eqb (le_category etf) categoryFilter in
  let shown := listed toLowerCase filter categoryFilter settings holdings etf in
  (matchesSearch && matchesCategory = false -> shown = false)
  /\ (matchesSearch && matchesCategory = true ->
      (Forall (fun h => etfSymbol h <> le_symbol etf) holdings -> shown = true)
      /\ (settings ≫= averagingThreshold = None \/ le_cmp etf = None -> shown = true)
      /\ (forall (before after : list Holding) (latest : Holding) (p k c : Q),
            holdings = before ++ latest :: after ->
            Forall (fun h => etfSymbol h <> le_symbol etf) before ->
            etfSymbol latest = le_symbol etf ->
            buyPrice latest = Js.Fin p -> 0 < p ->
            settings ≫= averagingThreshold = Some (Js.Fin k) -> ~ k == 0 ->
            le_cmp etf = Some (Js.Fin c) -> ~ c == 0 ->
            shown = negb (Js.ltb (dropPercent (Js.Fin p) (Js.Fin c)) (Js.Fin k))
            /\ (k <= 5 -> shouldAverage (Js.Fin p) (Js.Fin c) = true -> shown = true)
            /\ (0 < k -> p <= c -> shown = false))).
Proof.
  intros matchesSearch matchesCategory shown. subst shown. unfold listed.
  fold matchesSearch matchesCategory.
  rewrite <- negb_andb.
  destruct (matchesSearch && matchesCategory); cbn [negb]; split; try discriminate.
  - intros _. split; [| split].
    + intros Hnone. pose proof (holdingsMap_none holdings _ Hnone) as E.
      destruct (holdingsMap holdings !! le_symbol etf) as [[| h l] |];
        [reflexivity | discriminate | reflexivity].
    + intros [E | E]; rewrite E.
      * destruct (holdingsMap holdings !! le_symbol etf) as [[| h l] |]; reflexivity.
      * destruct (holdingsMap holdings !! le_symbol etf) as [[| h l] |];
          try reflexivity.
        destruct (settings ≫= averagingThreshold); reflexivity.
    + intros before after latest p k c Hsplit Hbefore Hsym Hp Hpos Hk Hk0 Hc Hc0.
      rewrite <- Hsym in Hbefore |- *.
      destruct (holdingsMap_first holdings before after latest Hsplit Hbefore)
        as (rest & ->).
      rewrite Hk, Hc, Hp. cbn [Js.truthy].
      apply Qeqb_neq in Hk0, Hc0. rewrite Hk0, Hc0. cbn [negb andb].
      fold (dropPercent (Js.Fin p) (Js.Fin c)).
      assert (Eshown : (if Js.ltb (dropPercent (Js.Fin p) (Js.Fin c)) (Js.Fin k)
                        then false else true)
                       = negb (Js.ltb (dropPercent (Js.Fin p) (Js.Fin c)) (Js.Fin k)))
        by (destruct (Js.ltb _ _); reflexivity).
      rewrite Eshown. split; [reflexivity |].
      rewrite dropPercent_finite by lra. cbn [Js.ltb]. split.
      * intros Hk5 Havg.
        unfold shouldAverage in Havg. rewrite dropPercent_finite in Havg by lra.
        unfold Js.gtb in Havg. cbn [Js.ltb] in Havg. apply Qltb_lt in Havg.
        apply negb_true_iff. apply Qltb_ge. lra.
      * intros Hkpos Hle. apply negb_false_iff. apply Qltb_lt.
        assert (Hd : (p + - c) / p * 100 <= 0).
        { apply Qnot_lt_le. intros H.
          apply (drop_exceeds p c 0 Hpos) in H.
          assert (E : (1 - 0 / 100) * p == p) by field. lra. }
        lra.
  - intros _. reflexivity.
Qed.

(** The sample instrument, last bought at 120 and then at 100 (newest lot
    first): quoted at 94 it is an averaging candidate and is listed at a
    threshold of 2.5%; quoted at 101 it is hidden. *)
Lemma listed_when_dropped_enough_witness :
  listed lower_case "nifty" "All" (Some threshold_settings) [lot1; lot3]
         (mkListedETF "NIFTYBEES" "Nifty BeES" "Index" (Some (Js.Fin 94)))
  = true
  /\ listed lower_case "nifty" "All" (Some threshold_settings) [lot1; lot3]
            (mkListedETF "NIFTYBEES" "Nifty BeES" "Index" (Some (Js.Fin 101)))
     = false.
Proof.
  assert (Hpos : 0 < 100) by reflexivity.
  assert (Hk : ~ 2.5 == 0) by discriminate.
  split.
  - destruct (listed_when_dropped_enough lower_case "nifty" "All"
                (Some threshold_settings) [lot1; lot3]
                (mkListedETF "NIFTYBEES" "Nifty BeES" "Index" (Some (Js.Fin 94))))
      as (_ & Hshown).
    destruct (Hshown eq_refl) as (_ & _ & Hheld).
    assert (Hc : ~ 94 == 0) by discriminate.
    destruct (Hheld [] [lot3] lot1 100 2.5 94 eq_refl (List.Forall_nil _) eq_refl
                    eq_refl Hpos eq_refl Hk eq_refl Hc) as (_ & Havg & _).
    apply Havg; [discriminate | reflexivity].
  - destruct (listed_when_dropped_enough lower_case "nifty" "All"
                (Some threshold_settings) [lot1; lot3]
                (mkListedETF "NIFTYBEES" "Nifty BeES" "Index" (Some (Js.Fin 101))))
      as (_ & Hshown).
    destruct (Hshown eq_refl) as (_ & _ & Hheld).
    assert (Hc : ~ 101 == 0) by discriminate.
    destruct (Hheld [] [lot3] lot1 100 2.5 101 eq_refl (List.Forall_nil _) eq_refl
                    eq_refl Hpos eq_refl Hk eq_refl Hc) as (_ & _ & Hhidden).
    apply Hhidden; [reflexivity | discriminate].
Defined.

(** ** Selling a lot from the holdings page *)

Lemma digit_of_char (d : Z) :
  (0 <= d <= 9)%Z -> ParseFloat.digit_of (digit_char d) = Some d.
Proof.
  intros H.
  assert (C : (d = 0 \/ d = 1 \/ d = 2 \/ d = 3 \/ d = 4 \/ d = 5 \/ d = 6 \/ d = 7
               \/ d = 8 \/ d = 9)%Z) by lia.
  repeat (destruct C as [-> | C]; [reflexivity |]). subst d. reflexivity.
Qed.

(** Reading the digits just written gives the number back. *)
Lemma digits_decimal (fuel : nat) :
  forall (n : Z) (rest : string) (acc : Z) (count : nat),
    (0 <= n <= Z.of_nat fuel)%Z ->
    exists k : nat,
      ParseFloat.digits (decimal fuel n rest) acc count
      = ParseFloat.digits rest (acc * 10 ^ Z.of_nat (S k) + n)%Z (count + S k)%nat.
Proof.
  assert (Hlast : forall n rest acc count,
             (0 <= n < 10)%Z ->
             ParseFloat.digits (String (digit_char (n mod 10)) rest) acc count
             = ParseFloat.digits rest (acc * 10 ^ Z.of_nat 1 + n)%Z (count + 1)%nat).
  { intros n rest acc count Hn. cbn [ParseFloat.digits].
    rewrite Z.mod_small by lia. rewrite digit_of_char by lia.
    f_equal; [| lia]. change (10 ^ Z.of_nat 1)%Z with 10%Z. lia. }
  induction fuel as [| fuel IH]; intros n rest acc count Hn; cbn [decimal].
  - exists O. apply Hlast. lia.
  - destruct (n <? 10)%Z eqn:E.
    + apply Z.ltb_lt in E. exists O. apply Hlast. lia.
    + apply Z.ltb_ge in E.
      assert (Hdiv : (0 <= n / 10 <= Z.of_nat fuel)%Z).
      { split; [apply Z.div_pos; lia |].
        assert (n / 10 < n)%Z by (apply Z.div_lt; lia). lia. }
      destruct (IH (n / 10)%Z (String (digit_char (n mod 10)) rest) acc count Hdiv)
        as (k & Ek).
      exists (S k). rewrite Ek. cbn [ParseFloat.digits].
      rewrite digit_of_char by (pose proof (Z.mod_pos_bound n 10); lia).
      f_equal; [| lia].
      rewrite (Nat2Z.inj_succ (S k)), Z.pow_succ_r by lia.
      pose proof (Z.div_mod n 10). lia.
Qed.

(** What was written starts with a digit, and goes on with a digit or
    ends. *)
Lemma decimal_shape (fuel : nat) :
  forall (n : Z) (rest : string),
    (0 <= n)%Z ->
    exists (d : Z) (s : string),
      (0 <= d <= 9)%Z /\ decimal fuel n rest = String (digit_char d) s
      /\ (s = rest \/ exists (d' : Z) (s' : string),
                        (0 <= d' <= 9)%Z /\ s = String (digit_char d') s').
Proof.
  assert (Hmod : forall n, (0 <= n mod 10 <= 9)%Z).
  { intros n. pose proof (Z.mod_pos_bound n 10). lia. }
  induction fuel as [| fuel IH]; intros n rest Hn; cbn [decimal].
  - exists (n mod 10)%Z, rest. split; [apply Hmod |]. split; [reflexivity | left; reflexivity].
  - destruct (n <? 10)%Z.
    + exists (n mod 10)%Z, rest.
      split; [apply Hmod |]. split; [reflexivity | left; reflexivity].
    + destruct (IH (n / 10)%Z (String (digit_char (n mod 10)) rest))
        as (d & s & Hd & Es & Hs); [apply Z.div_pos; lia |].
      exists d, s. split; [exact Hd |]. split; [exact Es |]. right.
      destruct Hs as [-> | Hs]; [| exact Hs].
      exists (n mod 10)%Z, rest. split; [apply Hmod | reflexivity].
Qed.

(** Replaces the character of a known digit by the character itself. *)
Ltac known_digits :=
  repeat match goal with
         | |- context [digit_char ?d] =>
             let c := eval vm_compute in (digit_char d) in
             change (digit_char d) with c
         end;
  cbn [ParseFloat.skip_spaces ParseFloat.digits];
  repeat match goal with
         | |- context [ParseFloat.is_space ?c] =>
             let v := eval vm_compute in (ParseFloat.is_space c) in
             change (ParseFloat.is_space c) with v
         | |- context [ParseFloat.digit_of ?c] =>
             let v := eval vm_compute in (ParseFloat.digit_of c) in
             change (ParseFloat.digit_of c) with v
         end.

(** [parseInt] of a string of decimal digits reads its digits. *)
Lemma parse_digit_string (d : Z) (s : string) :
  (0 <= d <= 9)%Z ->
  (s = EmptyString
   \/ exists (d' : Z) (s' : string), (0 <= d' <= 9)%Z /\ s = String (digit_char d') s') ->
  ParseInt.parse (String (digit_char d) s)
  = let '(v, n, _) := ParseFloat.digits (String (digit_char d) s) 0%Z O in
    match n with
    | O => None
    | S _ => Some v
    end.
Proof.
  intros Hd Hs.
  assert (C : (d = 0 \/ d = 1 \/ d = 2 \/ d = 3 \/ d = 4 \/ d = 5 \/ d = 6 \/ d = 7
               \/ d = 8 \/ d = 9)%Z) by lia.
  destruct Hs as [-> | (d' & s' & Hd' & ->)].
  - repeat (destruct C as [-> | C]; [reflexivity |]). subst d. reflexivity.
  - assert (C' : (d' = 0 \/ d' = 1 \/ d' = 2 \/ d' = 3 \/ d' = 4 \/ d' = 5 \/ d' = 6
                  \/ d' = 7 \/ d' = 8 \/ d' = 9)%Z) by lia.
    assert (Hcase : forall c c' : Z,
               In c [0; 1; 2; 3; 4; 5; 6; 7; 8; 9]%Z ->
               In c' [0; 1; 2; 3; 4; 5; 6; 7; 8; 9]%Z ->
               ParseInt.parse (String (digit_char c) (String (digit_char c') s'))
               = let '(v, n, _) :=
                   ParseFloat.digits (String (digit_char c) (String (digit_char c') s'))
                                     0%Z O in
                 match n with
                 | O => None
                 | S _ => Some v
                 end).
    { intros c c' Hc Hc'. cbn [In] in Hc, Hc'.
      repeat (destruct Hc as [<- | Hc];
              [repeat (destruct Hc' as [<- | Hc'];
                       [unfold ParseInt.parse; repeat (progress (known_digits; cbn));
                        destruct (ParseFloat.digits s' _ _) as [[v n] r]; reflexivity |]);
               contradiction |]).
      contradiction. }
    apply Hcase; cbn [In]; lia.
Qed.

(** The id written into the request is the id [parseInt] reads from it. *)
Lemma parseInt_toString (id : Z) :
  (0 <= id)%Z -> ParseInt.parse (Number_toString id) = Some id.
Proof.
  intros Hid. unfold Number_toString.
  assert (E : (id <? 0)%Z = false) by (apply Z.ltb_ge; exact Hid). rewrite E.
  destruct (decimal_shape (Z.to_nat id) id EmptyString Hid) as (d & s & Hd & Es & Hs).
  destruct (digits_decimal (Z.to_nat id) id EmptyString 0%Z O) as (k & Ek); [lia |].
  rewrite Es in Ek |- *. rewrite parse_digit_string by assumption.
  rewrite Ek. cbn [ParseFloat.digits Nat.add]. f_equal; lia.
Qed.

(** The delete request the page sends for a holding removes that holding. *)
Lemma holdings_DELETE_by_id (db : Db) (id : Z) :
  (0 < id)%Z ->
  holdings_DELETE db (Some (Number_toString id)) = mkOutcome (deleteHolding db id) Success [].
Proof.
  intros Hid. pose proof (parseInt_toString id ltac:(lia)) as Hparse.
  unfold holdings_DELETE.
  destruct (Number_toString id) as [| c s] eqn:E; [discriminate |].
  rewrite Hparse.
  assert (E0 : (id =? 0)%Z = false) by (apply Z.eqb_neq; lia).
  rewrite E0. reflexivity.
Qed.

(** What [POST /api/trades] does with a sell request. *)
Lemma trades_POST_sellRequest (getTime : string -> Js.num) (today : string) (db : Db)
    (holding : Holding) (sellPrice : Js.num) :
  let tradeRes := trades_POST getTime db (sellRequest today holding sellPrice) in
  (getETFBySymbol db (etfSymbol holding) = None ->
   out_db tradeRes = db /\ out_response tradeRes = Failure "ETF not found" 404)
  /\ (forall etf : EtfRow,
        getETFBySymbol db (etfSymbol holding) = Some etf ->
        let row := tradeRow getTime (er_id etf) (buyDate holding) today
                            (buyPrice holding) sellPrice (quantity holding) in
        (bindable row = true ->
         out_response tradeRes = Created (db_trades_seq db + 1)
         /\ out_db tradeRes
            = incrementDailySell
                (set_trades db (<[(db_trades_seq db + 1)%Z := row]> (db_trades db))
                            (db_trades_seq db + 1))
                today)
        /\ (bindable row = false ->
            out_db tradeRes = db
            /\ out_response tradeRes = Failure "Failed to add trade" 500)).
Proof.
  intros tradeRes. subst tradeRes. unfold trades_POST, sellRequest, addTrade.
  cbn [tp_etfSymbol tp_buyDate tp_sellDate tp_buyPrice tp_sellPrice tp_quantity].
  split.
  - intros ->. split; reflexivity.
  - intros etf ->. cbv zeta. split; intros ->; split; reflexivity.
Qed.

(** X25: selling a lot from the holdings page ([executeSell]).  For a lot
    with a positive id whose instrument is known and whose trade row the
    database accepts (no NaN among its columns), the sale is recorded as a
    trade under the next trade id, with the lot's purchase date, price and
    quantity, the given sale price and today's date; the sell counter of
    today goes up by one; exactly that lot is removed from the holdings (the
    id written into the delete request is read back unchanged); and nothing
    is reported.  When the instrument is unknown, or the database refuses
    the row, the answer's error is reported and nothing changes: the lot
    stays.  Without a lot to sell nothing happens. *)
Theorem executeSell_moves_lot
    (getTime : string -> Js.num) (today : string) (db : Db) (holding : Holding)
    (sellPrice : Q) :
  (0 < h_id holding)%Z ->
  executeSell getTime today db None sellPrice = (db, None)
  /\ (getETFBySymbol db (etfSymbol holding) = None ->
      executeSell getTime today db (Some holding) sellPrice = (db, Some "ETF not found"))
  /\ (forall etf : EtfRow,
        getETFBySymbol db (etfSymbol holding) = Some etf ->
        let row := tradeRow getTime (er_id etf) (buyDate holding) today
                            (buyPrice holding) (Js.Fin sellPrice) (quantity holding) in
        let after := fst (executeSell getTime today db (Some holding) sellPrice) in
        (bindable row = false ->
         executeSell getTime today db (Some holding) sellPrice
         = (db, Some "Failed to add trade"))
        /\ (bindable row = true ->
            snd (executeSell getTime today db (Some holding) sellPrice) = None
            /\ db_holdings after = delete (h_id holding) (db_holdings db)
            /\ db_trades after
               = <[(db_trades_seq db + 1)%Z :=
                     mkTradeRow (er_id etf) (buyDate holding) today (buyPrice holding)
                                (Js.Fin sellPrice) (quantity holding)
                                ((Js.Fin sellPrice - buyPrice holding) * quantity holding)%js
                                ((Js.Fin sellPrice - buyPrice holding) / buyPrice holding
                                 * Js.Fin 100)%js
                                (calculateHoldingDays getTime (buyDate holding) today)]>
                   (db_trades db)
            /\ getDailyActivity after today
               = Some {| buy_count := buyCountOf (getDailyActivity db today);
                         sell_count := sellCountOf (getDailyActivity db today) + 1 |})).
Proof.
  intros Hid.
  destruct (trades_POST_sellRequest getTime today db holding (Js.Fin sellPrice))
    as [Hunknown Hknown].
  split; [reflexivity |]. split.
  - intros Hnone. destruct (Hunknown Hnone) as [Edb Eres].
    unfold executeSell. rewrite Eres, Edb. reflexivity.
  - intros etf Hetf row after. subst after.
    destruct (Hknown etf Hetf) as [Hstored Hrefused]. fold row in Hstored, Hrefused.
    split.
    + intros Hbind. destruct (Hrefused Hbind) as [Edb Eres].
      unfold executeSell. rewrite Eres, Edb. reflexivity.
    + intros Hbind. destruct (Hstored Hbind) as [Eres Edb].
      unfold executeSell. rewrite Eres, Edb. cbn [ok negb].
      rewrite holdings_DELETE_by_id by exact Hid.
      cbn [out_db out_response ok negb fst snd].
      split; [reflexivity |]. split; [reflexivity |]. split; [reflexivity |].
      unfold deleteHolding, getDailyActivity. cbn [set_holdings db_daily_activity].
      apply (incrementDailySell_lookup
               (set_trades db (<[(db_trades_seq db + 1)%Z := row]> (db_trades db))
                           (db_trades_seq db + 1))
               today).
Qed.

(** The sample lot sold at 106 on 2024-05-02. *)
Lemma executeSell_moves_lot_witness :
  db_holdings (fst (executeSell IsoDate.getTime "2024-05-02" sample_db (Some lot1) 106))
  = delete 1%Z (db_holdings sample_db)
  /\ snd (executeSell IsoDate.getTime "2024-05-02" sample_db (Some lot1) 106) = None.
Proof.
  assert (Hid : (0 < h_id lot1)%Z) by reflexivity.
  destruct (executeSell_moves_lot IsoDate.getTime "2024-05-02" sample_db lot1 106 Hid)
    as (_ & _ & Hsold).
  destruct (Hsold (mkEtfRow 1 "NIFTYBEES" "NIFTYBEES.NS" "Nifty BeES" "Index") eq_refl)
    as (_ & Hstored).
  destruct (Hstored eq_refl) as (Hquiet & Hgone & _).
  split; [exact Hgone | exact Hquiet].
Defined.

(** X26: the earlier [handleSell] removes the lot whether or not the sale
    was recorded.  Once a price has been typed, the lot with the given
    (positive) id is removed in every case; but when the instrument of the
    lot is unknown, or the typed text is not a finite number, or the
    database refuses the trade row, no trade is recorded, so the lot is lost
    without a trace.  When the instrument is known, the price finite and
    the row accepted, the row is stored under the next trade id.  When the
    prompt is cancelled or left empty nothing happens. *)
Theorem handleSell_deletes_regardless
    (getTime : string -> Js.num) (today : string) (db : Db) (holding : Holding)
    (sellPrice : string) :
  (0 < h_id holding)%Z -> sellPrice <> EmptyString ->
  handleSell getTime today db holding None = db
  /\ handleSell getTime today db holding (Some EmptyString) = db
  /\ db_holdings (handleSell getTime today db holding (Some sellPrice))
     = delete (h_id holding) (db_holdings db)
  /\ (getETFBySymbol db (etfSymbol holding) = None
      \/ Js.is_finite (ParseFloat.parse sellPrice) = false ->
      handleSell getTime today db holding (Some sellPrice)
      = deleteHolding db (h_id holding))
  /\ (forall etf : EtfRow,
        getETFBySymbol db (etfSymbol holding) = Some etf ->
        Js.is_finite (ParseFloat.parse sellPrice) = true ->
        let row := tradeRow getTime (er_id etf) (buyDate holding) today
                            (buyPrice holding) (ParseFloat.parse sellPrice)
                            (quantity holding) in
        (bindable row = false ->
         handleSell getTime today db holding (Some sellPrice)
         = deleteHolding db (h_id holding))
        /\ (bindable row = true ->
            db_trades (handleSell getTime today db holding (Some sellPrice))
            !! (db_trades_seq db + 1)%Z = Some row)).
Proof.
  intros Hid Htyped.
  destruct (trades_POST_sellRequest getTime today db holding (ParseFloat.parse sellPrice))
    as [Hunknown Hknown].
  split; [reflexivity |]. split; [reflexivity |].
  assert (E : handleSell getTime today db holding (Some sellPrice)
              = deleteHolding
                  (if Js.is_finite (ParseFloat.parse sellPrice)
                   then out_db (trades_POST getTime db
                                  (sellRequest today holding (ParseFloat.parse sellPrice)))
                   else db)
                  (h_id holding)).
  { unfold handleSell. destruct sellPrice as [| c s]; [congruence |].
    rewrite holdings_DELETE_by_id by exact Hid. reflexivity. }
  rewrite E. split; [| split].
  - destruct (Js.is_finite (ParseFloat.parse sellPrice)); [| reflexivity].
    destruct (getETFBySymbol db (etfSymbol holding)) as [etf |] eqn:Hetf.
    + destruct (Hknown etf eq_refl) as [Hstored Hrefused].
      destruct (bindable (tradeRow getTime (er_id etf) (buyDate holding) today
                                   (buyPrice holding) (ParseFloat.parse sellPrice)
                                   (quantity holding))) eqn:Hbind.
      * destruct (Hstored eq_refl) as [_ ->]. reflexivity.
      * destruct (Hrefused eq_refl) as [-> _]. reflexivity.
    + destruct (Hunknown eq_refl) as [-> _]. reflexivity.
  - intros [Hnone | Hnan].
    + destruct (Hunknown Hnone) as [-> _].
      destruct (Js.is_finite (ParseFloat.parse sellPrice)); reflexivity.
    + rewrite Hnan. reflexivity.
  - intros etf Hetf Hfin row. rewrite Hfin.
    destruct (Hknown etf Hetf) as [Hstored Hrefused]. fold row in Hstored, Hrefused.
    split; intros Hbind.
    + destruct (Hrefused Hbind) as [-> _]. reflexivity.
    + destruct (Hstored Hbind) as [_ ->]. cbn. apply lookup_insert_eq.
Qed.

(** The sample lot and the typed text [abc]: the lot is gone, and no trade
    was written. *)
Lemma handleSell_deletes_regardless_witness :
  handleSell IsoDate.getTime "2024-05-02" sample_db lot1 (Some "abc")
  = deleteHolding sample_db 1.
Proof.
  assert (Hid : (0 < h_id lot1)%Z) by reflexivity.
  assert (Htyped : "abc" <> EmptyString) by discriminate.
  destruct (handleSell_deletes_regardless IsoDate.getTime "2024-05-02" sample_db lot1
              "abc" Hid Htyped) as (_ & _ & _ & Hlost & _).
  apply Hlost. right. reflexivity.
Defined.

(** ** The suggested quantity *)

(** X27: the quantity the holdings page fills in when a price is typed.
    For a positive per-transaction amount a and a typed price that reads as
    a positive number p, the suggestion is a whole number q >= 1; when one
    unit is affordable (p <= a) it is the whole part of the quotient a / p,
    within one unit of what the amount buys: (q - 1) x p < a < (q + 1) x p;
    when not even one unit is affordable it is 1, which costs more than the
    amount allows.  Nothing is filled in while the settings are not loaded,
    for an empty text, or for a price that is not positive. *)
Theorem suggested_quantity (settings : Settings) (newPrice : string) (a p : Q) :
  perTransactionAmount settings = Js.Fin a -> 0 < a ->
  ParseFloat.parse newPrice = Js.Fin p ->
  handlePriceChange None newPrice = None
  /\ handlePriceChange (Some settings) EmptyString = None
  /\ (p <= 0 -> handlePriceChange (Some settings) newPrice = None)
  /\ (0 < p ->
      exists q : Z,
        handlePriceChange (Some settings) newPrice = Some (Js.ofZ q)
        /\ (1 <= q)%Z
        /\ (p <= a ->
            Js.ofZ q = Math_floor (Js.Fin a / Js.Fin p)%js
            /\ (inject_Z q - 1) * p < a /\ a < (inject_Z q + 1) * p)
        /\ (a < p -> q = 1%Z)).
Proof.
  intros Ha Hapos Hp.
  split; [destruct newPrice; reflexivity |]. split; [reflexivity |].
  assert (Hparse : newPrice <> EmptyString).
  { intros ->. discriminate. }
  destruct newPrice as [| c s]; [congruence |].
  unfold handlePriceChange. rewrite Hp, Ha. cbn [isNaN negb Js.truthy andb].
  assert (Ea : Js.Qeqb a 0 = false) by (apply Qeqb_neq; lra). rewrite Ea. cbn [negb].
  assert (Egt : Js.gtb (Js.Fin p) (Js.Fin 0) = Js.Qltb 0 p) by reflexivity.
  rewrite Egt. split.
  - intros Hle. assert (E : Js.Qltb 0 p = false) by (apply Qltb_ge; exact Hle).
    rewrite E. reflexivity.
  - intros Hpos. assert (E : Js.Qltb 0 p = true) by (apply Qltb_lt; exact Hpos).
    rewrite E. rewrite !div_finite by lra. cbn [Math_floor].
    pose proof (Qfloor_le (a / p)) as Hlo. pose proof (Qlt_floor (a / p)) as Hhi.
    rewrite inject_Z_plus in Hhi. change (inject_Z 1) with 1 in Hhi.
    assert (Hy : a / p * p == a) by (field; lra).
    remember (a / p) as y eqn:Ey. clear Ey.
    set (q0 := Qfloor y) in *.
    assert (Hmul1 : inject_Z q0 * p <= y * p) by (apply Qmult_le_compat_r; lra).
    assert (Hmul2 : y * p < (inject_Z q0 + 1) * p) by (apply Qmult_lt_r; lra).
    unfold Js.gtb, Js.ofZ. cbn [Js.ltb].
    destruct (Js.Qltb 0 (inject_Z q0)) eqn:Eq.
    + apply Qltb_lt in Eq. change 0 with (inject_Z 0) in Eq. rewrite <- Zlt_Qlt in Eq.
      exists q0. split; [reflexivity |]. split; [lia |]. split.
      * intros _. split; [reflexivity |]. split; lra.
      * intros Hlt. exfalso.
        assert (H1 : inject_Z 1 <= inject_Z q0) by (rewrite <- Zle_Qle; lia).
        change (inject_Z 1) with 1 in H1.
        assert (H2 : 1 * p <= inject_Z q0 * p) by (apply Qmult_le_compat_r; lra).
        lra.
    + apply Qltb_ge in Eq. change 0 with (inject_Z 0) in Eq. rewrite <- Zle_Qle in Eq.
      exists 1%Z. split; [reflexivity |]. split; [lia |]. split.
      * intros Hle. exfalso.
        assert (H1 : inject_Z q0 + 1 <= 1).
        { assert (H0 : inject_Z q0 <= inject_Z 0) by (rewrite <- Zle_Qle; exact Eq).
          change (inject_Z 0) with 0 in H0. lra. }
        assert (H2 : (inject_Z q0 + 1) * p <= 1 * p) by (apply Qmult_le_compat_r; lra).
        lra.
      * intros _. reflexivity.
Qed.

(** 10000 per purchase at a price of 250.5: 39 units; at a price of 12000:
    one unit. *)
Lemma suggested_quantity_witness :
  (exists q : Z,
      handlePriceChange (Some sample_settings) "250.5" = Some (Js.ofZ q)
      /\ (1 <= q)%Z
      /\ ((501 # 2) <= 10000
          -> Js.ofZ q = Math_floor (Js.Fin 10000 / Js.Fin (501 # 2))%js
             /\ (inject_Z q - 1) * (501 # 2) < 10000
             /\ 10000 < (inject_Z q + 1) * (501 # 2))
      /\ (10000 < (501 # 2) -> q = 1%Z))
  /\ handlePriceChange (Some sample_settings) "-3" = None.
Proof.
  assert (Ha : 0 < 10000) by reflexivity.
  split.
  - apply (proj2 (proj2 (proj2 (suggested_quantity sample_settings "250.5" 10000 (501 # 2)
                                   eq_refl Ha eq_refl)))).
    reflexivity.
  - apply (proj1 (proj2 (proj2 (suggested_quantity sample_settings "-3" 10000 (-3)
                                   eq_refl Ha eq_refl)))).
    discriminate.
Defined.

(** ** The holdings page: sell candidates *)

Lemma pageGroupedByETF_lookup (holdingsData : list Holding) (symbol : string) :
  default [] (pageGroupedByETF holdingsData !! symbol)
  = filter (fun h => etfSymbol h = symbol) holdingsData.
Proof.
  unfold pageGroupedByETF. rewrite (grouping_lookup etfSymbol holdingsData ∅ symbol).
  rewrite lookup_empty. reflexivity.
Qed.

(** The lots of one symbol, when every lot is priced. *)
Lemma group_priced (lo hi : Q) (holdingsData : list Holding) (h : Holding) :
  Forall (pricedWithin lo hi) holdingsData -> In h holdingsData ->
  let group := filter (fun x => etfSymbol x = etfSymbol h) holdingsData in
  group <> [] /\ Forall (pricedWithin lo hi) group.
Proof.
  intros Hall Hin group. split.
  - intros E. assert (Hh : h ∈ group).
    { apply list_elem_of_filter. split; [reflexivity | apply list_elem_of_In; exact Hin]. }
    rewrite E in Hh. inversion Hh.
  - apply List.Forall_forall. intros x Hx.
    apply list_elem_of_In, list_elem_of_filter in Hx. destruct Hx as [_ Hx].
    apply list_elem_of_In in Hx. exact (proj1 (List.Forall_forall _ _) Hall x Hx).
Qed.

(** The average price of a non-empty group of priced lots is the value of
    the group over its quantity. *)
Lemma calculateAveragePrice_value (lo hi : Q) (group : list Holding) :
  group <> [] -> Forall (pricedWithin lo hi) group ->
  exists value total : Q,
    fold_left (fun sum h => (sum + buyPrice h * quantity h)%js) group (Js.Fin 0)
    = Js.Fin value
    /\ fold_left (fun sum h => (sum + quantity h)%js) group (Js.Fin 0) = Js.Fin total
    /\ 0 < total
    /\ calculateAveragePrice group = Js.Fin (value / total)
    /\ lo <= value / total /\ value / total <= hi.
Proof.
  intros Hne Hall.
  destruct (average_sums lo hi group Hall 0 0) as (v & t & Ev & Et & B1 & B2 & _ & Hpos);
    try lra.
  specialize (Hpos Hne). exists v, t.
  split; [exact Ev |]. split; [exact Et |]. split; [exact Hpos |].
  split; [| split].
  - unfold calculateAveragePrice. destruct group as [| h hs]; [congruence |].
    rewrite Ev, Et. unfold Js.gtb. cbn [Js.ltb].
    assert (Ht : Js.Qltb 0 t = true) by (apply Qltb_lt; exact Hpos).
    rewrite Ht. rewrite div_finite by lra. reflexivity.
  - apply Qle_shift_div_l; assumption.
  - apply Qle_shift_div_r; assumption.
Qed.

(** X28: sell candidates come by instrument, and a candidate instrument has
    reached both profit goals.  All lots of one symbol share the target
    price and the quote, so either all of them are sell candidates or none
    is.  With a non-negative target percentage p and minimum profit m, and
    lots with finite prices and positive quantities, a lot is a candidate
    only if the quote c of its instrument is at least each of the two
    candidate prices computed from the average price of the instrument's
    lots: the average plus p per cent, and the price at which all of these
    lots bring m over their cost; for prices that are not negative the quote
    is then at least the average price. *)
Theorem sell_candidates_by_instrument
    (settings : Settings) (etfs : list ListedETF) (holdingsData : list Holding)
    (p m lo hi : Q) :
  profitTargetPercent settings = Js.Fin p -> minProfitAmount settings = Js.Fin m ->
  0 <= p -> 0 <= m ->
  Forall (pricedWithin lo hi) holdingsData ->
  let holdings := holdingsWithCalc settings holdingsData in
  (forall h1 h2 : HoldingWithCalc,
      In h1 holdings -> In h2 holdings ->
      etfSymbol (wc_holding h1) = etfSymbol (wc_holding h2) ->
      wc_targetPrice h1 = wc_targetPrice h2
      /\ isSellCandidate etfs h1 = isSellCandidate etfs h2)
  /\ (forall (h : HoldingWithCalc) (c : Q),
        In h holdings ->
        etfDataOf etfs h ≫= le_cmp = Some (Js.Fin c) ->
        isSellCandidate etfs h = true ->
        exists average total : Q,
          wc_avgPrice h = Js.Fin average
          /\ fold_left (fun sum x => (sum + quantity x)%js)
                       (filter (fun x => etfSymbol x = etfSymbol (wc_holding h)) holdingsData)
                       (Js.Fin 0)
             = Js.Fin total
          /\ 0 < total
          /\ Js.geb (Js.Fin c)
                    (Js.Fin average * (Js.Fin 1 + Js.Fin p / Js.Fin 100))%js = true
          /\ Js.geb (Js.Fin c)
                    ((Js.Fin average * Js.Fin total + Js.Fin m) / Js.Fin total)%js = true
          /\ (0 <= lo -> average <= c)).
Proof.
  intros Hp Hm Hp0 Hm0 Hall holdings. subst holdings. unfold holdingsWithCalc. split.
  - intros h1 h2 H1 H2 Hsym.
    apply List.in_map_iff in H1, H2.
    destruct H1 as (a & <- & _), H2 as (b & <- & _).
    cbn [withCalc wc_holding] in Hsym.
    assert (Et : wc_targetPrice (withCalc (pageGroupedByETF holdingsData) settings a)
                 = wc_targetPrice (withCalc (pageGroupedByETF holdingsData) settings b)).
    { cbn [withCalc wc_targetPrice]. rewrite Hsym. reflexivity. }
    split; [exact Et |].
    unfold isSellCandidate, etfDataOf. rewrite Et. cbn [withCalc wc_holding].
    rewrite Hsym. reflexivity.
  - intros h c Hin Hquote Hcand.
    apply List.in_map_iff in Hin. destruct Hin as (a & <- & Hin).
    unfold isSellCandidate in Hcand. rewrite Hquote in Hcand.
    destruct (Js.truthy (Js.Fin c)); [| discriminate].
    cbn [withCalc wc_holding wc_avgPrice wc_targetPrice] in Hcand |- *.
    rewrite pageGroupedByETF_lookup in Hcand |- *.
    destruct (group_priced lo hi holdingsData a Hall Hin) as [Hne Hgroup].
    destruct (calculateAveragePrice_value lo hi _ Hne Hgroup)
      as (v & t & _ & Et & Hpos & Eavg & Blo & Bhi).
    rewrite Eavg, Et in Hcand. rewrite Eavg, Et.
    exists (v / t), t. split; [reflexivity |]. split; [reflexivity |].
    split; [exact Hpos |].
    unfold calculateTargetPrice in Hcand. rewrite Hp, Hm in Hcand.
    rewrite (div_finite p 100) in Hcand |- * by discriminate.
    cbn [Js.add Js.mul] in Hcand |- *.
    rewrite div_finite in Hcand |- * by lra.
    unfold Js.geb, Js.max in Hcand. cbn [Js.ltb] in Hcand.
    unfold Js.geb. cbn [Js.leb]. rewrite !Qleb_le.
    remember (v / t) as avg eqn:Eavg'. clear Eavg' Eavg.
    remember ((avg * t + m) / t) as byMin eqn:Emin. clear Emin.
    assert (Hboth : avg * (1 + p / 100) <= c /\ byMin <= c).
    { destruct (Js.Qltb (avg * (1 + p / 100)) byMin) eqn:L;
        cbn [Js.leb] in Hcand; apply Qleb_le in Hcand.
      - apply Qltb_lt in L. split; lra.
      - apply Qltb_ge in L. split; lra. }
    destruct Hboth as [Hpct Hmin'].
    split; [exact Hpct |]. split; [exact Hmin' |].
    intros Hlo.
    assert (Hge : avg <= avg * (1 + p / 100)) by (apply percent_candidate_ge; lra).
    lra.
Qed.

(** The three sample lots (average 110, 30 units) with a quote of 130: the
    lot bought at 120 is a candidate, and the quote is at least the average
    price. *)
Lemma sell_candidates_by_instrument_witness :
  exists average total : Q,
    wc_avgPrice (withCalc (pageGroupedByETF [lot1; lot2; lot3]) sample_settings lot3)
    = Js.Fin average
    /\ fold_left (fun sum x => (sum + quantity x)%js)
                 (filter (fun x => etfSymbol x = "NIFTYBEES") [lot1; lot2; lot3])
                 (Js.Fin 0)
       = Js.Fin total
    /\ 0 < total
    /\ Js.geb (Js.Fin 130)
              (Js.Fin average * (Js.Fin 1 + Js.Fin 6 / Js.Fin 100))%js = true
    /\ Js.geb (Js.Fin 130)
              ((Js.Fin average * Js.Fin total + Js.Fin 500) / Js.Fin total)%js = true
    /\ (0 <= 100 -> average <= 130).
Proof.
  assert (Hall : Forall (pricedWithin 100 120) [lot1; lot2; lot3]).
  { constructor; [| constructor; [| constructor; [| constructor]]].
    - exists 100, 10. repeat split; discriminate.
    - exists 110, 10. repeat split; discriminate.
    - exists 120, 10. repeat split; discriminate. }
  assert (Hp : 0 <= 6) by discriminate.
  assert (Hm : 0 <= 500) by discriminate.
  apply (proj2 (sell_candidates_by_instrument
                  sample_settings
                  [mkListedETF "NIFTYBEES" "Nifty BeES" "Index" (Some (Js.Fin 130))]
                  [lot1; lot2; lot3] 6 500 100 120 eq_refl eq_refl Hp Hm Hall)
               (withCalc (pageGroupedByETF [lot1; lot2; lot3]) sample_settings lot3) 130).
  - right. right. left. reflexivity.
  - reflexivity.
  - vm_compute. reflexivity.
Defined.

(** ** The holdings page: the notional profit column *)

(** X29: the notional profit column of the holdings page carries no market
    information.  It is computed from the purchase price of the lot and the
    average purchase price of its instrument, without any quote: it is
    (purchase price - average price) x quantity, where the average is that
    of the lots with the symbol of the lot, so a lot with finite price and
    positive quantity shows a gain exactly when it was bought above that
    average and a loss exactly when it was bought below it. *)
Theorem notionalPL_against_average
    (settings : Settings) (holdingsData : list Holding) (lo hi : Q) :
  Forall (pricedWithin lo hi) holdingsData ->
  let holdings := holdingsWithCalc settings holdingsData in
  forall h : HoldingWithCalc,
    In h holdings ->
    wc_avgPrice h
    = calculateAveragePrice
        (filter (fun x => etfSymbol x = etfSymbol (wc_holding h)) holdingsData)
    /\ wc_notionalPL h
       = ((buyPrice (wc_holding h) - wc_avgPrice h) * quantity (wc_holding h))%js
    /\ exists price average gain : Q,
         buyPrice (wc_holding h) = Js.Fin price
         /\ wc_avgPrice h = Js.Fin average
         /\ wc_notionalPL h = Js.Fin gain
         /\ (0 < gain <-> average < price)
         /\ (gain < 0 <-> price < average).
Proof.
  intros Hall holdings. subst holdings. unfold holdingsWithCalc.
  intros h Hin. apply List.in_map_iff in Hin. destruct Hin as (a & <- & Hin).
  cbn [withCalc wc_holding wc_avgPrice wc_notionalPL].
  rewrite pageGroupedByETF_lookup.
  split; [reflexivity |]. split; [reflexivity |].
  destruct (group_priced lo hi holdingsData a Hall Hin) as [Hne Hgroup].
  destruct (calculateAveragePrice_value lo hi _ Hne Hgroup)
    as (v & t & _ & _ & _ & Eavg & _).
  rewrite Eavg.
  destruct (proj1 (List.Forall_forall _ _) Hall a Hin) as (p & q & Hp & Hq & Hqpos & _).
  rewrite Hp, Hq. cbn [Js.sub Js.neg Js.add Js.mul].
  exists p, (v / t), ((p + - (v / t)) * q).
  split; [reflexivity |]. split; [reflexivity |]. split; [reflexivity |].
  remember (v / t) as avg eqn:E. clear E.
  pose proof (Qmult_lt_r 0 (p + - avg) q Hqpos) as Hup.
  pose proof (Qmult_lt_r (p + - avg) 0 q Hqpos) as Hdown.
  split; split; intros H.
  - assert (H' : 0 * q < (p + - avg) * q) by lra. apply Hup in H'. lra.
  - assert (H' : 0 < p + - avg) by lra. apply Hup in H'. lra.
  - assert (H' : (p + - avg) * q < 0 * q) by lra. apply Hdown in H'. lra.
  - assert (H' : p + - avg < 0) by lra. apply Hdown in H'. lra.
Qed.

(** The three sample lots (average 110): the lot bought at 120 shows a
    gain. *)
Lemma notionalPL_against_average_witness :
  exists price average gain : Q,
    buyPrice lot3 = Js.Fin price
    /\ wc_avgPrice (withCalc (pageGroupedByETF [lot1; lot2; lot3]) sample_settings lot3)
       = Js.Fin average
    /\ wc_notionalPL (withCalc (pageGroupedByETF [lot1; lot2; lot3]) sample_settings lot3)
       = Js.Fin gain
    /\ (0 < gain <-> average < price)
    /\ (gain < 0 <-> price < average).
Proof.
  assert (Hall : Forall (pricedWithin 100 120) [lot1; lot2; lot3]).
  { constructor; [| constructor; [| constructor; [| constructor]]].
    - exists 100, 10. repeat split; discriminate.
    - exists 110, 10. repeat split; discriminate.
    - exists 120, 10. repeat split; discriminate. }
  apply (notionalPL_against_average sample_settings [lot1; lot2; lot3] 100 120 Hall
           (withCalc (pageGroupedByETF [lot1; lot2; lot3]) sample_settings lot3)).
  right. right. left. reflexivity.
Defined.

(** ** The store: what the averaging signals are measured against *)

(** The first lot after sorting newest first is a lot with the latest
    purchase date; of several lots with that date it is the first one. *)
Lemma newest_first_head (getTime : string -> Js.num) (l : list Holding) :
  Forall (fun h => Js.is_finite (getTime (buyDate h)) = true) l ->
  l <> [] ->
  exists (latest : Holding) (rest : list Holding),
    js_sort (byBuyDateDesc getTime) l = latest :: rest
    /\ In latest l
    /\ Forall (fun x => Js.leb (getTime (buyDate x)) (getTime (buyDate latest)) = true) l.
Proof.
  induction 1 as [| x l Hx Hl IH]; intros Hne; [congruence |].
  cbn [js_sort fold_right].
  destruct (getTime (buyDate x)) as [tx| | |] eqn:Ex; try discriminate.
  destruct l as [| y l'].
  - exists x, []. cbn. split; [reflexivity |]. split; [left; reflexivity |].
    constructor; [| constructor]. rewrite Ex. cbn. apply Qleb_le. lra.
  - destruct IH as (latest & rest & Esort & Hin & Hmax); [discriminate |].
    change (fold_right (sort_insert (byBuyDateDesc getTime)) [] (y :: l'))
      with (js_sort (byBuyDateDesc getTime) (y :: l')).
    rewrite Esort. cbn [sort_insert].
    assert (Hfin : Js.is_finite (getTime (buyDate latest)) = true)
      by exact (proj1 (List.Forall_forall _ _) Hl latest Hin).
    destruct (getTime (buyDate latest)) as [tl| | |] eqn:El; try discriminate.
    unfold byBuyDateDesc. rewrite Ex, El. unfold Js.gtb. cbn [Js.sub Js.neg Js.add Js.ltb].
    destruct (Js.Qltb 0 (tl + - tx)) eqn:E.
    + apply Qltb_lt in E. exists latest. eexists. split; [reflexivity |].
      split; [right; exact Hin |]. rewrite El.
      constructor; [rewrite Ex; cbn [Js.leb]; apply Qleb_le; lra | exact Hmax].
    + apply Qltb_ge in E. exists x. eexists. split; [reflexivity |].
      split; [left; reflexivity |]. rewrite Ex.
      constructor; [rewrite Ex; cbn [Js.leb]; apply Qleb_le; lra |].
      eapply List.Forall_impl; [| exact Hmax].
      intros z Hz. cbv beta in Hz |- *. destruct (getTime (buyDate z)) as [tz| | |];
        cbn [Js.leb] in Hz |- *; try discriminate; try reflexivity.
      apply Qleb_le in Hz. apply Qleb_le. lra.
Qed.

(** X30: what the store's averaging and SIP signals are measured against.
    For holdings with readable purchase dates and finite non-zero purchase
    prices, the two signals of every entry compare the entry's current
    price with the purchase price of one lot of the same instrument that no
    lot of the instrument is newer than, not with the entry's own price or
    the average; so all lots of an instrument that share a current price
    share the signals.  The current price of an entry is the quote of the
    instrument with its symbol when that is not 0 (or NaN); without such a
    quote it is the entry's own purchase price, and the entry is then valued
    at cost. *)
Theorem signals_follow_latest_lot (getTime : string -> Js.num) (st : StoreState) :
  Forall (fun h => exists t p : Q,
              getTime (buyDate h) = Js.Fin t /\ buyPrice h = Js.Fin p /\ ~ p == 0)
         (st_holdings st) ->
  forall r : HoldingWithCalculations,
    In r (getHoldingsWithCalculations getTime st) ->
    (exists latest : Holding,
        In latest (st_holdings st) /\ etfId latest = etfId (hc_holding r)
        /\ (forall x : Holding,
              In x (st_holdings st) -> etfId x = etfId (hc_holding r) ->
              Js.leb (getTime (buyDate x)) (getTime (buyDate latest)) = true)
        /\ hc_shouldAverage r = shouldAverage (buyPrice latest) (hc_cmp r)
        /\ hc_shouldSIP r = shouldSIP (buyPrice latest) (hc_cmp r))
    /\ (forall e : ETFWithMarketData,
          find (fun e => String.eqb (e_symbol e) (etfSymbol (hc_holding r))) (st_etfs st)
          = Some e ->
          Js.truthy (e_cmp e) = true -> hc_cmp r = e_cmp e)
    /\ ((forall e : ETFWithMarketData,
            find (fun e => String.eqb (e_symbol e) (etfSymbol (hc_holding r))) (st_etfs st)
            = Some e ->
            Js.truthy (e_cmp e) = false) ->
        hc_cmp r = buyPrice (hc_holding r)
        /\ hc_currentValue r = hc_investedValue r).
Proof.
  intros Hall r Hin. unfold getHoldingsWithCalculations in Hin.
  apply List.in_map_iff in Hin. destruct Hin as (h & <- & Hin).
  cbn [holdingCalculations hc_holding hc_cmp hc_shouldAverage hc_shouldSIP
       hc_currentValue hc_investedValue].
  rewrite groupByETF_lookup.
  set (group := filter (fun x => etfId x = etfId h) (st_holdings st)).
  assert (Hgroup : forall x, In x group <-> In x (st_holdings st) /\ etfId x = etfId h).
  { intros x. unfold group. rewrite <- !list_elem_of_In, list_elem_of_filter. tauto. }
  assert (Hne : group <> []).
  { intros E. assert (Hh : In h group) by (apply Hgroup; split; [exact Hin | reflexivity]).
    rewrite E in Hh. destruct Hh. }
  assert (Hdates : Forall (fun x => Js.is_finite (getTime (buyDate x)) = true) group).
  { apply List.Forall_forall. intros x Hx. apply Hgroup in Hx. destruct Hx as [Hx _].
    destruct (proj1 (List.Forall_forall _ _) Hall x Hx) as (t & p & -> & _). reflexivity. }
  destruct (newest_first_head getTime group Hdates Hne) as (latest & rest & Esort & Hl & Hmax).
  rewrite Esort.
  destruct (proj1 (Hgroup latest) Hl) as [Hl1 Hl2].
  destruct (proj1 (List.Forall_forall _ _) Hall latest Hl1) as (t & p & _ & Hp & Hp0).
  assert (Elast : Js.or_else (buyPrice latest) (buyPrice h) = buyPrice latest).
  { rewrite Hp. unfold Js.or_else. cbn [Js.truthy].
    assert (E : Js.Qeqb p 0 = false) by (apply Qeqb_neq; exact Hp0).
    rewrite E. reflexivity. }
  rewrite Elast. split; [| split].
  - exists latest. split; [exact Hl1 |]. split; [exact Hl2 |]. split.
    + intros x Hx Hid.
      exact (proj1 (List.Forall_forall _ _) Hmax x (proj2 (Hgroup x) (conj Hx Hid))).
    + split; reflexivity.
  - intros e -> Htruthy. unfold Js.or_else. rewrite Htruthy. reflexivity.
  - intros Hnone.
    assert (E : match find (fun e => String.eqb (e_symbol e) (etfSymbol h)) (st_etfs st) with
                | Some e => Js.or_else (e_cmp e) (buyPrice h)
                | None => buyPrice h
                end = buyPrice h).
    { destruct (find _ (st_etfs st)) as [e |] eqn:Ef; [| reflexivity].
      unfold Js.or_else. rewrite (Hnone e eq_refl). reflexivity. }
    rewrite E. split; reflexivity.
Qed.

(** The lot bought at 100 in January, with a newer lot bought at 120 in
    March and a quote of 50: its signals are those of a drop from 120. *)
Lemma signals_follow_latest_lot_witness :
  hc_shouldAverage
    (holdingCalculations IsoDate.getTime [quoted_etf] (groupByETF [lot1; lot3])
                         sample_settings lot1)
  = shouldAverage (Js.Fin 120) (Js.Fin 50).
Proof.
  assert (Hall : Forall (fun h => exists t p : Q,
                            IsoDate.getTime (buyDate h) = Js.Fin t
                            /\ buyPrice h = Js.Fin p /\ ~ p == 0)
                        (st_holdings two_lot_store)).
  { constructor; [| constructor; [| constructor]];
      eexists; eexists; (split; [vm_compute; reflexivity |]);
      (split; [reflexivity | discriminate]). }
  destruct (signals_follow_latest_lot IsoDate.getTime two_lot_store Hall
              (holdingCalculations IsoDate.getTime [quoted_etf] (groupByETF [lot1; lot3])
                                   sample_settings lot1))
    as ((latest & Hin & _ & Hmax & Havg & _) & Hquote & _).
  - left. reflexivity.
  - rewrite Havg.
    rewrite (Hquote quoted_etf eq_refl eq_refl).
    destruct Hin as [<- | [<- | []]]; [| reflexivity].
    exfalso.
    assert (H3 : Js.leb (IsoDate.getTime (buyDate lot3)) (IsoDate.getTime (buyDate lot1))
                 = true).
    { apply Hmax; [right; left; reflexivity | reflexivity]. }
    vm_compute in H3. discriminate.
Defined.
